(** * Collection scheduling and amortization of the lending manager

    A shallow embedding of the date, schedule, amortization, reconciliation
    and borrower-standing logic of the lending manager's front end:

    - [utils/analytics]: [analyzeStanding];
    - [components/Loans.tsx], the [Loans] component: [totalPayable],
      [getInstallmentInfo], [handleCreateLoan], [handleMarkDefault],
      [filteredLoans] and the loan detail view;
    - the [Payments] component: [activeLoans], [getTargetPayment],
      [handleSubmit];
    - the [Borrowers] component: the loans and payments of a borrower, the
      active loan of the card and of the reminder message;
    - the [BorrowerPortal] component: the id lookup of [handleSearch],
      [schedule], [paymentsToday] and the "due today" figures;
    - the [Dashboard] component: [stats], [chartData],
      [scheduledCollections].

    Conventions of the embedding.
    - A JavaScript [Date] is its time value: an integer number of
      milliseconds since the epoch ([Z]).  Invalid dates are not modelled.
    - Local time is UTC shifted by a fixed offset [tz] (milliseconds), a
      parameter of everything that reads local calendar fields; the lender
      works in Philippine time, which has no daylight saving.
    - A [YYYY-MM-DD] string is the number of its UTC day; time stamps of the
      store are read as ISO strings in UTC.
    - JavaScript numbers that hold money, and the number of days typed into
      the creation form, are exact rationals ([Q]), compared with [==];
      differences of time values in days, and the period counts derived
      from them, are integers ([Z]).
    - Definitions under a heading "as the design describes it" follow the
      words of the design and use none of the functions of the components;
      everything else follows the source. *)

From Stdlib Require Import ZArith QArith Qround Qminmax Lia Lqa Bool String List.
From Stdlib Require Import DecimalString Decimal Sorted Permutation.
Import ListNotations.

Local Open Scope Z_scope.

(** ** The Date built-ins used by the components *)

Module JsDate.

Definition msPerDay : Z := 86400000.

Definition Day (t : Z) : Z := t / msPerDay.
Definition TimeWithinDay (t : Z) : Z := t mod msPerDay.
Definition MakeDate (day time : Z) : Z := day * msPerDay + time.

(** Day-of-era decomposition of the proleptic Gregorian calendar: from the
    index of a day inside a 400-year era (starting 1 March) to the year of
    the era, the month counted from March, and the day of the month. *)
Definition daysPerEra : Z := 146097.

Definition yearOfEra (doe : Z) : Z :=
  (doe - doe / 1460 + doe / 36524 - doe / 146096) / 365.

Definition dayOfYear (doe : Z) : Z :=
  let yoe := yearOfEra doe in doe - (365 * yoe + yoe / 4 - yoe / 100).

Definition monthFromMarch (doe : Z) : Z := (5 * dayOfYear doe + 2) / 153.

Definition dayOfMonth (doe : Z) : Z :=
  dayOfYear doe - (153 * monthFromMarch doe + 2) / 5 + 1.

Record Civil : Type := mkCivil { year : Z; month : Z; date : Z }.

(** Year, month (0 = January, as [getMonth]) and day of month of day number
    [n] (day 0 is 1 January 1970). *)
Definition civilOfDay (n : Z) : Civil :=
  let z := n + 719468 in
  let era := z / daysPerEra in
  let doe := z mod daysPerEra in
  let y := yearOfEra doe + era * 400 in
  let mp := monthFromMarch doe in
  let m := if mp <? 10 then mp + 3 else mp - 9 in
  mkCivil (if m <=? 2 then y + 1 else y) (m - 1) (dayOfMonth doe).

(** Day number of the [d]-th day of month [m] (1 = January) of year [y];
    [d] may lie outside the month, the day number is linear in it. *)
Definition daysFromCivil (y m d : Z) : Z :=
  let y' := if m <=? 2 then y - 1 else y in
  let mp := if 2 <? m then m - 3 else m + 9 in
  365 * y' + y' / 4 - y' / 100 + y' / 400 + (153 * mp + 2) / 5 + d - 1 - 719468.

(** ECMAScript [MakeDay]: months outside 0..11 carry into the year. *)
Definition MakeDay (y m dt : Z) : Z :=
  let ym := y + m / 12 in
  let mn := m mod 12 in
  daysFromCivil ym (mn + 1) dt.

Definition WeekDay (t : Z) : Z := (Day t + 4) mod 7.

Section LocalTime.

(** Offset of local time from UTC, in milliseconds. *)
Variable tz : Z.

Definition LocalTime (t : Z) : Z := t + tz.
Definition UTC (t : Z) : Z := t - tz.

(** The local calendar day an instant falls on, as a day number. *)
Definition localDay (t : Z) : Z := Day (LocalTime t).

Definition localCivil (t : Z) : Civil := civilOfDay (localDay t).

Definition getFullYear (t : Z) : Z := year (localCivil t).
Definition getMonth (t : Z) : Z := month (localCivil t).
Definition getDate (t : Z) : Z := date (localCivil t).
Definition getDay (t : Z) : Z := WeekDay (LocalTime t).

(** [d.setDate(dt)], [d.setMonth(mo)] and [d.setHours(0,0,0,0)] as
    functions from the old time value to the new one. *)
Definition setDate (t dt : Z) : Z :=
  UTC (MakeDate (MakeDay (getFullYear t) (getMonth t) dt)
                (TimeWithinDay (LocalTime t))).

Definition setMonth (t mo : Z) : Z :=
  UTC (MakeDate (MakeDay (getFullYear t) mo (getDate t))
                (TimeWithinDay (LocalTime t))).

Definition setHours0 (t : Z) : Z := UTC (MakeDate (localDay t) 0).

End LocalTime.

(** [new Date(s)] for a date-only string [s]: midnight UTC of that day;
    [d.toISOString().split('T')[0]]: the UTC day of [d]. *)
Definition ofDateString (day : Z) : Z := MakeDate day 0.
Definition toDateString (t : Z) : Z := Day t.

(** First day of the month after the one that [doe] falls in, as a day of
    the era. *)
Definition nextMonthStart (doe : Z) : Z :=
  let yoe := yearOfEra doe in
  let mp := monthFromMarch doe in
  if mp <? 11 then 365 * yoe + yoe / 4 - yoe / 100 + (153 * (mp + 1) + 2) / 5
  else 365 * (yoe + 1) + (yoe + 1) / 4 - (yoe + 1) / 100 + (yoe + 1) / 400.

End JsDate.

Import JsDate.

(** ** Arithmetic helpers *)

(** [Math.ceil(a / b)] for integers [a] and [b]. *)
Definition ceilDiv (a b : Z) : Z := - ((- a) / b).

(** [Math.ceil(x)] as a number again. *)
Definition mathCeil (x : Q) : Q := inject_Z (Qceiling x).

(** [ToIntegerOrInfinity(x)]: the integer part of a number, rounded toward
    zero, as the setters of [Date] read their argument. *)
Definition toInteger (x : Q) : Z := if Qle_bool 0 x then Qfloor x else Qceiling x.

(** [`${n}`] for a count [n]. *)
Definition showNat (n : nat) : string := NilEmpty.string_of_uint (Nat.to_uint n).

(** ** The records of [types] *)

Module Types.

Inductive Status : Type := active | paid | defaulted.

Definition Status_eqb (a b : Status) : bool :=
  match a, b with
  | active, active | paid, paid | defaulted, defaulted => true
  | _, _ => false
  end.

(** A loan row.  [due_date] and [payment_frequency] are nullable columns of
    the store ([None] is null or absent); [payment_frequency] is free text. *)
Record Loan : Type := mkLoan {
  id : string;
  borrower_id : string;
  principal : Q;
  interest_rate : Q;
  total_payable : Q;
  balance : Q;
  start_date : Z;
  due_date : option Z;
  status : Status;
  payment_frequency : option string
}.

Record Payment : Type := mkPayment {
  loan_id : string;
  amount : Q;
  payment_date : Z
}.

End Types.

Import Types.

(** ** Payment frequencies *)

Inductive FreqCase : Type := FDaily | FWeekly | FMonthly | FLumpSum | FOther.

(** The [case] reached by [switch (freq)] over the four literals. *)
Definition freqCase (freq : string) : FreqCase :=
  if String.eqb freq "daily" then FDaily
  else if String.eqb freq "weekly" then FWeekly
  else if String.eqb freq "monthly" then FMonthly
  else if String.eqb freq "lump_sum" then FLumpSum
  else FOther.

(** The same for a nullable column compared with [===]. *)
Definition freqCaseOpt (freq : option string) : FreqCase :=
  match freq with
  | Some s => freqCase s
  | None => FOther
  end.

(** [loan.payment_frequency || 'daily']: null and the empty string are falsy. *)
Definition orDaily (freq : option string) : string :=
  match freq with
  | Some s => if String.eqb s "" then "daily"%string else s
  | None => "daily"%string
  end.

(** [loan.due_date ? new Date(loan.due_date) : new Date()]. *)
Definition dueOrNow (now : Z) (l : Loan) : Z :=
  match due_date l with
  | Some d => d
  | None => now
  end.

(** [Math.max(1, Math.ceil(Math.abs(end - start) / msPerDay))]. *)
Definition termDays (start end_ : Z) : Z :=
  Z.max 1 (ceilDiv (Z.abs (end_ - start)) msPerDay).

(** ** [utils/analytics] *)

Module Analytics.

Inductive StandingStatus : Type := GoodPayer | Delinquent | Neutral | New.

Record BorrowerStanding : Type := mkStanding {
  status : StandingStatus;
  color : string;
  reason : string
}.

Definition isPaidLoan (l : Loan) : bool := Status_eqb (Types.status l) paid.
Definition isDefaultedLoan (l : Loan) : bool := Status_eqb (Types.status l) defaulted.

(** [l.status === 'active' && l.due_date && new Date(l.due_date) < today]. *)
Definition isOverdueLoan (today : Z) (l : Loan) : bool :=
  Status_eqb (Types.status l) active &&
  match due_date l with
  | Some d => d <? today
  | None => false
  end.

Definition analyzeStanding (today : Z) (loans : list Loan) : BorrowerStanding :=
  if (length loans =? 0)%nat then
    mkStanding New "text-slate-500 bg-slate-100 border-slate-200" "No history yet."
  else
    let total := length loans in
    let paid := length (filter isPaidLoan loans) in
    let defaulted := length (filter isDefaultedLoan loans) in
    let overdue := length (filter (isOverdueLoan today) loans) in
    if (0 <? defaulted)%nat then
      mkStanding Delinquent "text-red-700 bg-red-50 border-red-200"
        ("Has " ++ showNat defaulted ++ " defaulted loan(s). High risk.")%string
    else if (0 <? overdue)%nat then
      mkStanding Delinquent "text-rose-700 bg-rose-50 border-rose-200"
        ("Has " ++ showNat overdue ++ " overdue active loan(s).")%string
    else if (0 <? paid)%nat && (paid =? total)%nat then
      mkStanding GoodPayer "text-emerald-700 bg-emerald-50 border-emerald-200"
        "Perfect payment history. All loans paid."
    else if (0 <? paid)%nat then
      mkStanding GoodPayer "text-emerald-700 bg-emerald-50 border-emerald-200"
        ("Has successfully paid " ++ showNat paid ++ " loan(s).")%string
    else
      mkStanding Neutral "text-blue-700 bg-blue-50 border-blue-200"
        "Active loans exist but no full payment history yet.".

(** The early returns of [analyzeStanding] one by one, in the terms of the
    function itself; [None] when the return is not taken.  They serve the
    proofs about the order of the loans and about the labels. *)
Definition rule1 (loans : list Loan) : option BorrowerStanding :=
  match loans with
  | [] => Some (mkStanding New "text-slate-500 bg-slate-100 border-slate-200"
                  "No history yet.")
  | _ :: _ => None
  end.

Definition rule2 (loans : list Loan) : option BorrowerStanding :=
  if existsb isDefaultedLoan loans then
    Some (mkStanding Delinquent "text-red-700 bg-red-50 border-red-200"
            ("Has " ++ showNat (length (filter isDefaultedLoan loans))
                    ++ " defaulted loan(s). High risk.")%string)
  else None.

Definition rule3 (today : Z) (loans : list Loan) : option BorrowerStanding :=
  if existsb (isOverdueLoan today) loans then
    Some (mkStanding Delinquent "text-rose-700 bg-rose-50 border-rose-200"
            ("Has " ++ showNat (length (filter (isOverdueLoan today) loans))
                    ++ " overdue active loan(s).")%string)
  else None.

Definition rule4 (loans : list Loan) : option BorrowerStanding :=
  if forallb isPaidLoan loans then
    Some (mkStanding GoodPayer "text-emerald-700 bg-emerald-50 border-emerald-200"
            "Perfect payment history. All loans paid.")
  else None.

Definition rule5 (loans : list Loan) : option BorrowerStanding :=
  if existsb isPaidLoan loans then
    Some (mkStanding GoodPayer "text-emerald-700 bg-emerald-50 border-emerald-200"
            ("Has successfully paid " ++ showNat (length (filter isPaidLoan loans))
                    ++ " loan(s).")%string)
  else None.

Definition rule6 : BorrowerStanding :=
  mkStanding Neutral "text-blue-700 bg-blue-50 border-blue-200"
    "Active loans exist but no full payment history yet.".

(** The first return taken, with the final one as default. *)
Fixpoint firstMatch (rules : list (option BorrowerStanding))
  (otherwise : BorrowerStanding) : BorrowerStanding :=
  match rules with
  | [] => otherwise
  | Some r :: _ => r
  | None :: rest => firstMatch rest otherwise
  end.

Definition standingByRules (today : Z) (loans : list Loan) : BorrowerStanding :=
  firstMatch [rule1 loans; rule2 loans; rule3 today loans; rule4 loans; rule5 loans]
             rule6.

End Analytics.

(** ** The standing classifier as the design describes it *)

Module StandingSpec.

Definition defaultedLoan (l : Loan) : bool :=
  match Types.status l with
  | defaulted => true
  | _ => false
  end.

Definition paidLoan (l : Loan) : bool :=
  match Types.status l with
  | paid => true
  | _ => false
  end.

(** An active loan whose due date is strictly before [today]; a loan
    without a due date is not overdue. *)
Definition overdueLoan (today : Z) (l : Loan) : bool :=
  match Types.status l, due_date l with
  | active, Some d => d <? today
  | _, _ => false
  end.

(** N, the number of loans that a rule names. *)
Fixpoint howMany (p : Loan -> bool) (loans : list Loan) : nat :=
  match loans with
  | [] => O
  | l :: rest => if p l then S (howMany p rest) else howMany p rest
  end.

Definition noLoans (loans : list Loan) : bool :=
  match loans with
  | [] => true
  | _ :: _ => false
  end.

(** Rules 1 to 5 in their order of priority: the condition of the rule and
    the result it gives. *)
Definition rules (today : Z) (loans : list Loan)
  : list (bool * (Analytics.StandingStatus * string)) :=
  [ (noLoans loans,
     (Analytics.New, "No history yet."%string));
    (existsb defaultedLoan loans,
     (Analytics.Delinquent,
      ("Has " ++ showNat (howMany defaultedLoan loans)
              ++ " defaulted loan(s). High risk.")%string));
    (existsb (overdueLoan today) loans,
     (Analytics.Delinquent,
      ("Has " ++ showNat (howMany (overdueLoan today) loans)
              ++ " overdue active loan(s).")%string));
    (negb (noLoans loans) && forallb paidLoan loans,
     (Analytics.GoodPayer, "Perfect payment history. All loans paid."%string));
    (existsb paidLoan loans,
     (Analytics.GoodPayer,
      ("Has successfully paid " ++ showNat (howMany paidLoan loans)
                                ++ " loan(s).")%string)) ].

(** First match wins; [otherwise] is rule 6. *)
Fixpoint firstMatching {R : Type} (rs : list (bool * R)) (otherwise : R) : R :=
  match rs with
  | [] => otherwise
  | (true, r) :: _ => r
  | (false, _) :: rest => firstMatching rest otherwise
  end.

Definition classify (today : Z) (loans : list Loan) : Analytics.StandingStatus * string :=
  firstMatching (rules today loans)
    (Analytics.Neutral, "Active loans exist but no full payment history yet."%string).

End StandingSpec.

(** [a > b], [a >= b] and [a < b] on numbers. *)
Definition Qgtb (a b : Q) : bool := negb (Qle_bool a b).
Definition Qgeb (a b : Q) : bool := Qle_bool b a.
Definition Qltb (a b : Q) : bool := negb (Qle_bool b a).

(** [payments.reduce((acc, curr) => acc + curr.amount, 0)]. *)
Definition sumAmounts (ps : list Payment) : Q :=
  fold_left (fun acc curr => (acc + amount curr)%Q) ps 0%Q.

(** ** [components/Loans.tsx] *)

Module LoansView.

(** What [getInstallmentInfo] returns; both fields are numbers, and [count]
    is the number of days itself on the daily branch. *)
Record InstallmentInfo : Type := mkInfo { amount : Q; count : Q }.

(** The preview of the creation form. *)
Definition totalPayable (principalNum interestRate : Q) : Q :=
  (principalNum + principalNum * (interestRate / 100))%Q.

(** [days] is any number: the creation form passes what was typed into the
    number field, [Number(daysToPay) || 0]. *)
Definition getInstallmentInfo (total days : Q) (freq : string) : InstallmentInfo :=
  if Qle_bool total 0 || Qle_bool days 0 then mkInfo 0 0
  else
    let divisor :=
      match freqCase freq with
      | FDaily => days
      | FWeekly => mathCeil (days / 7)
      | FMonthly => mathCeil (days / 30)
      | FLumpSum => 1%Q
      | FOther => days
      end in
    let divisor := if Qltb divisor 1 then 1%Q else divisor in
    mkInfo (total / divisor)%Q divisor.

(** What the screens print: [Math.ceil(info.amount)]. *)
Definition shownInstallment (info : InstallmentInfo) : Q := mathCeil (amount info).

Section Zone.

Variable tz : Z.

(** [calculatedDueDate]: the release day moved by [daysToPay] with
    [setDate], which takes the integer part of its argument. *)
Definition calculatedDueDate (releaseDate : Z) (daysToPay : Q) : Z :=
  let d := ofDateString releaseDate in
  setDate tz d (toInteger (inject_Z (getDate tz d) + daysToPay)%Q).

(** The row inserted by [handleCreateLoan]; nothing is inserted without a
    borrower or with a zero principal.  The store assigns [newId]. *)
Definition handleCreateLoan (newId borrowerId : string) (principalNum interestRate : Q)
  (releaseDate : Z) (daysToPay : Q) (paymentFrequency : string) : option Loan :=
  if String.eqb borrowerId "" || Qeq_bool principalNum 0 then None
  else
    let totalPayable := totalPayable principalNum interestRate in
    Some (mkLoan newId borrowerId principalNum interestRate totalPayable totalPayable
            (ofDateString releaseDate)
            (Some (calculatedDueDate releaseDate daysToPay))
            active (Some paymentFrequency)).

End Zone.

(** The detail view derives the term from the stored dates:
    [Math.ceil(diffTime / msPerDay) || 1]. *)
Definition diffDays (now : Z) (selectedLoan : Loan) : Z :=
  let diffTime := Z.abs (dueOrNow now selectedLoan - start_date selectedLoan) in
  let d := ceilDiv diffTime msPerDay in
  if d =? 0 then 1 else d.

Definition currentInstallmentInfo (now : Z) (selectedLoan : Loan) : InstallmentInfo :=
  getInstallmentInfo (total_payable selectedLoan) (inject_Z (diffDays now selectedLoan))
                     (orDaily (payment_frequency selectedLoan)).

(** [installmentInfo]: the preview computed from the fields of the form;
    [daysToPay] is [Number(daysToPay) || 0], whole or not. *)
Definition installmentInfo (principalNum interestRate daysToPay : Q)
  (paymentFrequency : string) : InstallmentInfo :=
  getInstallmentInfo (totalPayable principalNum interestRate) daysToPay paymentFrequency.

(** [percentagePaid] of the detail view. *)
Definition percentagePaid (selectedLoan : Loan) : Q :=
  if Qgtb (total_payable selectedLoan) 0
  then ((total_payable selectedLoan - balance selectedLoan)
        / total_payable selectedLoan * 100)%Q
  else 0.

(** [filteredLoans]; the tab 'all' is [None]. *)
Definition filteredLoans (filterStatus : option Status) (loans : list Loan) : list Loan :=
  filter (fun loan => match filterStatus with
                      | None => true
                      | Some s => Status_eqb (status loan) s
                      end) loans.

Definition setStatus (s : Status) (l : Loan) : Loan :=
  mkLoan (id l) (borrower_id l) (principal l) (interest_rate l) (total_payable l)
         (balance l) (start_date l) (due_date l) s (payment_frequency l).

(** [handleMarkDefault]: [confirmed] is the answer to the confirmation
    dialog, [updateOk] whether the store accepted the update.  Returns the
    loan rows afterwards. *)
Definition handleMarkDefault (loans : list Loan) (loanId : string)
  (confirmed updateOk : bool) : list Loan :=
  if negb confirmed then loans
  else if negb updateOk then loans
  else map (fun l => if String.eqb (id l) loanId then setStatus defaulted l else l) loans.

(** [detailStanding]: the standing of the borrower of the loan on view. *)
Definition detailStanding (today : Z) (loans : list Loan) (selectedBorrowerId : string)
  : Analytics.BorrowerStanding :=
  Analytics.analyzeStanding today
    (filter (fun l => String.eqb (borrower_id l) selectedBorrowerId) loans).

(** [selectedLoan.id.slice(0, 8)], the reference printed on the detail view. *)
Definition shortId (l : Loan) : string := substring 0 8 (id l).

End LoansView.

(** ** The [Payments] component *)

Module PaymentsView.

Record Target : Type := mkTarget { amount : Q; frequency : string }.

(** The rows of the store seen by the screen. *)
Record Store : Type := mkStore { loans : list Loan; payments : list Payment }.

Definition activeLoans (loans : list Loan) : list Loan :=
  filter (fun l => Qgtb (balance l) 0) loans.

Definition selectedLoan (loans : list Loan) (selectedLoanId : string) : option Loan :=
  find (fun l => String.eqb (id l) selectedLoanId) (activeLoans loans).

(** The divisor computed inside [getTargetPayment]. *)
Definition targetDivisor (now : Z) (loan : Loan) : Z :=
  let diffDays := termDays (start_date loan) (dueOrNow now loan) in
  match freqCase (orDaily (payment_frequency loan)) with
  | FDaily => diffDays
  | FWeekly => Z.max 1 (ceilDiv diffDays 7)
  | FMonthly => Z.max 1 (ceilDiv diffDays 30)
  | FLumpSum => 1
  | FOther => diffDays
  end.

Definition getTargetPayment (now : Z) (loan : Loan) : Target :=
  mkTarget (mathCeil (total_payable loan / inject_Z (targetDivisor now loan))%Q)
           (orDaily (payment_frequency loan)).

(** Step 2 of [handleSubmit] on the loan found in the snapshot. *)
Definition newBalance (loan : Loan) (numAmount : Q) : Q :=
  Qmax 0 (balance loan - numAmount)%Q.

Definition newStatus (loan : Loan) (numAmount : Q) : Status :=
  if Qeq_bool (newBalance loan numAmount) 0 then paid else active.

Definition updateLoan (nb : Q) (ns : Status) (l : Loan) : Loan :=
  mkLoan (id l) (borrower_id l) (principal l) (interest_rate l) (total_payable l)
         nb (start_date l) (due_date l) ns (payment_frequency l).

(** [handleSubmit]: [amount] is the text of the amount field ([None] when
    empty); [insertOk] and [updateOk] tell whether the store accepted the
    insert and the update.  Returns the rows of the store afterwards. *)
Definition handleSubmit (db : Store) (selectedLoanId : string) (amount : option Q)
  (now : Z) (insertOk updateOk : bool) : Store :=
  match amount with
  | None => db
  | Some numAmount =>
    if String.eqb selectedLoanId "" then db
    else if negb insertOk then db
    else
      let payments' := payments db ++ [mkPayment selectedLoanId numAmount now] in
      match find (fun l => String.eqb (id l) selectedLoanId) (loans db) with
      | Some loan =>
        if updateOk then
          mkStore (map (fun l => if String.eqb (id l) selectedLoanId
                                 then updateLoan (newBalance loan numAmount)
                                                 (newStatus loan numAmount) l
                                 else l) (loans db))
                  payments'
        else mkStore (loans db) payments'
      | None => mkStore (loans db) payments'
      end
  end.

End PaymentsView.

(** The columns [handleSubmit] never writes. *)
Definition sameTerms (l l' : Loan) : Prop :=
  id l' = id l /\ borrower_id l' = borrower_id l /\ principal l' = principal l /\
  interest_rate l' = interest_rate l /\ total_payable l' = total_payable l /\
  start_date l' = start_date l /\ due_date l' = due_date l /\
  payment_frequency l' = payment_frequency l.

(** ** The [BorrowerPortal] component *)

Module Portal.

(** An element of [dates], and of [schedule] once the amount is added. *)
Record Dated : Type := mkDated { date : Z; isPast : bool; isToday : bool }.
Record Entry : Type := mkEntry { dated : Dated; amount : Q }.

Inductive TemporalClass : Type := Past | Today | Upcoming.

(** The status cell of the schedule table. *)
Definition temporalClass (d : Dated) : TemporalClass :=
  if isPast d then Past else if isToday d then Today else Upcoming.

Section Zone.

Variable tz : Z.

Definition incrementDate (freq : string) (end_ d : Z) : Z :=
  match freqCase freq with
  | FDaily => setDate tz d (getDate tz d + 1)
  | FWeekly => setDate tz d (getDate tz d + 7)
  | FMonthly => setMonth tz d (getMonth tz d + 1)
  | FLumpSum => end_
  | FOther => setDate tz d (getDate tz d + 1)
  end.

(** The [while (current <= end && safetyCounter < 1000)] loop;
    [fuel] is [1000 - safetyCounter]. *)
Fixpoint scheduleLoop (freq : string) (end_ today : Z) (fuel : nat) (current : Z)
  : list Dated :=
  match fuel with
  | O => []
  | S fuel' =>
    if current <=? end_ then
      let currentZero := setHours0 tz current in
      mkDated current (currentZero <? today) (currentZero =? today)
        :: scheduleLoop freq end_ today fuel' (incrementDate freq end_ current)
    else []
  end.

Definition scheduleDates (now : Z) (loanData : Loan) : list Dated :=
  let start := start_date loanData in
  let end_ := dueOrNow now loanData in
  let freq := orDaily (payment_frequency loanData) in
  let today := setHours0 tz now in
  match freqCase freq with
  | FLumpSum => [mkDated end_ (end_ <? today) (end_ =? today)]
  | _ => scheduleLoop freq end_ today 1000 (incrementDate freq end_ start)
  end.

Definition amountPerPayment (loanData : Loan) (dates : list Dated) : Q :=
  let n := Z.of_nat (length dates) in
  mathCeil (total_payable loanData / inject_Z (if n =? 0 then 1 else n))%Q.

Definition schedule (now : Z) (loanData : option Loan) : list Entry :=
  match loanData with
  | None => []
  | Some loan =>
    let dates := scheduleDates now loan in
    map (fun d => mkEntry d (amountPerPayment loan dates)) dates
  end.

Definition isDueToday (now : Z) (loanData : option Loan) : bool :=
  match loanData with
  | None => false
  | Some loan =>
    Status_eqb (status loan) active &&
    existsb (fun s => isToday (dated s)) (schedule now loanData)
  end.

End Zone.

(** The reconciliation shown in the "due today" alert. *)
Definition paymentsToday (now : Z) (paymentHistory : list Payment) : list Payment :=
  filter (fun p => toDateString (payment_date p) =? toDateString now) paymentHistory.

Definition currentInstallmentAmount (schedule : list Entry) : Q :=
  match schedule with
  | s :: _ => amount s
  | [] => 0
  end.

Definition amountPaidToday (now : Z) (paymentHistory : list Payment) : Q :=
  sumAmounts (paymentsToday now paymentHistory).

Definition remainingDueToday (schedule : list Entry) (now : Z)
  (paymentHistory : list Payment) : Q :=
  Qmax 0 (currentInstallmentAmount schedule - amountPaidToday now paymentHistory)%Q.

Definition isFullyPaidToday (schedule : list Entry) (now : Z)
  (paymentHistory : list Payment) : bool :=
  Qgeb (amountPaidToday now paymentHistory) (currentInstallmentAmount schedule).

(** [percentagePaid] of the portal. *)
Definition percentagePaid (loanData : Loan) : Q :=
  if Qgtb (total_payable loanData) 0
  then ((total_payable loanData - balance loanData) / total_payable loanData * 100)%Q
  else 0.

(** [String.prototype.toLowerCase] on the ASCII letters (loan ids are
    UUIDs). *)
Definition lowerAscii (c : Ascii.ascii) : Ascii.ascii :=
  let n := Ascii.nat_of_ascii c in
  if ((65 <=? n) && (n <=? 90))%nat then Ascii.ascii_of_nat (n + 32) else c.

Fixpoint toLowerCase (s : string) : string :=
  match s with
  | EmptyString => EmptyString
  | String c rest => String (lowerAscii c) (toLowerCase rest)
  end.

(** The strings on which [lowerAscii] is all there is to [toLowerCase]. *)
Definition isAscii (s : string) : bool :=
  forallb (fun c => (Ascii.nat_of_ascii c <? 128)%nat) (list_ascii_of_string s).

(** [s.startsWith(p)]. *)
Definition startsWith (s p : string) : bool := String.prefix p s.

(** Step 1 of [handleSearch]: a term of 36 characters is taken as the id;
    a shorter or longer one is matched, ignoring case, against the start of
    the ids of the loans, newest first.  [None] is the error "No loan found
    with that ID reference." *)
Definition resolveTargetId (allLoans : list string) (searchTerm : string)
  : option string :=
  if (String.length searchTerm =? 36)%nat then Some searchTerm
  else find (fun id => startsWith (toLowerCase id) (toLowerCase searchTerm)) allLoans.

End Portal.

(** ** The [Dashboard] component *)

Module Dashboard.

Record Collection : Type := mkCollection {
  loan : Loan;
  targetAmount : Q;
  paidAmount : Q;
  isPaid : bool
}.

(** [new Date(loan.due_date)] on a nullable column: null is the epoch. *)
Definition dueDateOf (l : Loan) : Z :=
  match due_date l with
  | Some d => d
  | None => 0
  end.

Section Zone.

Variable tz : Z.

(** The predicate of the [filter] of [scheduledCollections];
    [selectedDate] is the day picked in the date field. *)
Definition isScheduled (selectedDate : Z) (loan : Loan) : bool :=
  let targetDate := ofDateString selectedDate in
  let targetDayOfWeek := getDay tz targetDate in
  let targetDayOfMonth := getDate tz targetDate in
  if negb (Status_eqb (status loan) active) && negb (Status_eqb (status loan) defaulted)
  then false
  else
    let selectedTime := setHours0 tz (ofDateString selectedDate) in
    let startTime := setHours0 tz (start_date loan) in
    if selectedTime <? startTime then false
    else
      match freqCaseOpt (payment_frequency loan) with
      | FWeekly => getDay tz startTime =? targetDayOfWeek
      | FMonthly => getDate tz startTime =? targetDayOfMonth
      | FLumpSum => toDateString (dueDateOf loan) =? selectedDate
      | FDaily | FOther => true
      end.

End Zone.

(** The first payment of the loan recorded on the selected day. *)
Definition paymentToday (payments : list Payment) (selectedDate : Z) (loan : Loan)
  : option Payment :=
  find (fun p => String.eqb (loan_id p) (id loan) &&
                 (toDateString (payment_date p) =? selectedDate)) payments.

Definition divisor (now : Z) (loan : Loan) : Z :=
  let diffDays := termDays (start_date loan) (dueOrNow now loan) in
  match freqCaseOpt (payment_frequency loan) with
  | FDaily => diffDays
  | FWeekly => Z.max 1 (ceilDiv diffDays 7)
  | FMonthly => Z.max 1 (ceilDiv diffDays 30)
  | FLumpSum | FOther => 1
  end.

(** The function of the [map] of [scheduledCollections] (the borrower
    lookup, which only feeds the display, is left out). *)
Definition annotate (payments : list Payment) (selectedDate now : Z) (loan : Loan)
  : Collection :=
  let paymentToday := paymentToday payments selectedDate loan in
  mkCollection loan
    (total_payable loan / inject_Z (divisor now loan))%Q
    (match paymentToday with Some p => Types.amount p | None => 0 end)
    (match paymentToday with Some _ => true | None => false end).

Definition scheduledCollections (tz : Z) (loans : list Loan) (payments : list Payment)
  (selectedDate now : Z) : list Collection :=
  map (annotate payments selectedDate now) (filter (isScheduled tz selectedDate) loans).

Record Stats : Type := mkStats {
  totalLent : Q;
  totalCollected : Q;
  outstanding : Q;
  simpleProfit : Q
}.

Definition stats (loans : list Loan) (payments : list Payment) : Stats :=
  let totalLent := fold_left (fun acc curr => acc + principal curr)%Q loans 0%Q in
  let totalReceivable := fold_left (fun acc curr => acc + total_payable curr)%Q loans 0%Q in
  let totalCollected := sumAmounts payments in
  mkStats totalLent totalCollected (totalReceivable - totalCollected)%Q
          (totalCollected - totalLent)%Q.

Record ChartPoint : Type := mkPoint { date : Z; amount : Q }.

(** [last7Days]: for i = 0..6 the date string of today moved back by i days
    with [setDate], then reversed. *)
Definition last7Days (tz now : Z) : list Z :=
  List.rev (map (fun i => toDateString (setDate tz now (getDate tz now - i)))
           [0; 1; 2; 3; 4; 5; 6]).

Definition chartData (tz : Z) (payments : list Payment) (now : Z) : list ChartPoint :=
  map (fun date =>
         let dayPayments :=
           filter (fun p => toDateString (payment_date p) =? date) payments in
         mkPoint date (sumAmounts dayPayments))
      (last7Days tz now).

End Dashboard.

(** ** The [Borrowers] component *)

Module Borrowers.

(** [loans.filter(l => l.borrower_id === borrower.id)]. *)
Definition borrowerLoans (loans : list Loan) (borrowerId : string) : list Loan :=
  filter (fun l => String.eqb (borrower_id l) borrowerId) loans.

(** The payments handed to the risk analysis. *)
Definition borrowerPayments (loans : list Loan) (payments : list Payment)
  (borrowerId : string) : list Payment :=
  filter (fun p => existsb (fun l => String.eqb (id l) (loan_id p))
                           (borrowerLoans loans borrowerId)) payments.

(** The active loan looked up by [handleGenerateMessage] ... *)
Definition messageActiveLoan (loans : list Loan) (borrowerId : string) : option Loan :=
  find (fun l => String.eqb (borrower_id l) borrowerId && Status_eqb (status l) active)
       loans.

Definition amountDue (loans : list Loan) (borrowerId : string) : Q :=
  match messageActiveLoan loans borrowerId with
  | Some activeLoan => balance activeLoan
  | None => 0
  end.

(** ... and the one shown on the borrower's card, with the standing. *)
Definition cardActiveLoan (loans : list Loan) (borrowerId : string) : option Loan :=
  find (fun l => Status_eqb (status l) active) (borrowerLoans loans borrowerId).

Definition standing (today : Z) (loans : list Loan) (borrowerId : string)
  : Analytics.BorrowerStanding :=
  Analytics.analyzeStanding today (borrowerLoans loans borrowerId).

End Borrowers.

(** ** The step of the schedule loop *)

Module ScheduleLoop.

Section Zone.

Variable tz : Z.

(** What [incrementDate] returns for a frequency case other than the lump
    sum, in the terms of the code; it serves the proofs about the loop. *)
Definition addPeriod (f : FreqCase) (d : Z) : Z :=
  match f with
  | FWeekly => d + 7 * msPerDay
  | FMonthly => setMonth tz d (getMonth tz d + 1)
  | _ => d + 1 * msPerDay
  end.

End Zone.

End ScheduleLoop.

(** ** The payment frequency as the design describes it *)

Inductive Frequency : Type := Daily | Weekly | Monthly | LumpSum.

(** The frequency of a loan from its [payment_frequency] column; a value
    outside the four names, or none, is treated as daily. *)
Definition frequencyOf (payment_frequency : option string) : Frequency :=
  match payment_frequency with
  | None => Daily
  | Some name =>
    if String.eqb name "lump_sum" then LumpSum
    else if String.eqb name "monthly" then Monthly
    else if String.eqb name "weekly" then Weekly
    else Daily
  end.

(** ** The schedule as the design describes it *)

Module ScheduleSpec.

(** The label of an entry from the calendar days of the entry and of the
    reference date. *)
Definition classOfDays (entryDay refDay : Z) : Portal.TemporalClass :=
  if entryDay <? refDay then Portal.Past
  else if entryDay =? refDay then Portal.Today
  else Portal.Upcoming.

(** Days in a period of fixed length. *)
Definition stepDays (f : FreqCase) : Z :=
  match f with
  | FWeekly => 7
  | _ => 1
  end.

Section Zone.

Variable tz : Z.

(** [d'] is one calendar month after [d]: the same day of the month, at the
    same time of day, in the month that follows the month of [d] on the
    lender's calendar. *)
Definition monthLater (d d' : Z) : Prop :=
  getDate tz d' = getDate tz d /\
  12 * getFullYear tz d' + getMonth tz d'
  = 12 * getFullYear tz d + getMonth tz d + 1 /\
  TimeWithinDay (LocalTime tz d') = TimeWithinDay (LocalTime tz d).

(** [d'] is one period after [d]: 1 day, 7 days, 1 calendar month. *)
Definition onePeriodLater (f : Frequency) (d d' : Z) : Prop :=
  match f with
  | Daily => d' = d + 1 * msPerDay
  | Weekly => d' = d + 7 * msPerDay
  | Monthly => monthLater d d'
  | LumpSum => False
  end.

(** Each date of [ds] is one period after the one before it, the first one
    a period after [d]. *)
Fixpoint advancing (f : Frequency) (d : Z) (ds : list Z) : Prop :=
  match ds with
  | [] => True
  | d' :: rest => onePeriodLater f d d' /\ advancing f d' rest
  end.

(** [ds] are the dates of the schedule of a loan from [start] to [due]: for
    a lump sum the single date [due]; otherwise the dates reached from
    [start] period by period, none after [due], up to the first of them
    that would be after [due] or to 1000 dates. *)
Definition isSchedule (f : Frequency) (start due : Z) (ds : list Z) : Prop :=
  match f with
  | LumpSum => ds = [due]
  | _ =>
    advancing f start ds /\
    Forall (fun d => d <= due) ds /\
    (length ds <= 1000)%nat /\
    ((length ds < 1000)%nat ->
     exists next, onePeriodLater f (last ds start) next /\ due < next)
  end.

End Zone.

End ScheduleSpec.

(** ** The period count as the design describes it *)

Definition periodCount (f : FreqCase) (term_days : Z) : Z :=
  match f with
  | FDaily => term_days
  | FWeekly => Z.max 1 (ceilDiv term_days 7)
  | FMonthly => Z.max 1 (ceilDiv term_days 30)
  | FLumpSum => 1
  | FOther => term_days
  end.

(** The amount collected on a day: the sum of the amounts of the payments
    whose date falls on that (UTC) day. *)
Fixpoint collectedOn (day : Z) (ps : list Payment) : Q :=
  match ps with
  | [] => 0
  | p :: rest =>
    if toDateString (payment_date p) =? day
    then (amount p + collectedOn day rest)%Q
    else collectedOn day rest
  end.

(** ** The due-today rule as the design describes it *)

Module WorklistSpec.

(** Day of the week (0 is Sunday) and day of the month of a calendar day,
    given as the number of the day; day 0, 1 January 1970, was a
    Thursday. *)
Definition dayOfWeek (day : Z) : Z := (day + 4) mod 7.
Definition dayOfMonth (day : Z) : Z := date (civilOfDay day).

(** The frequency rule on calendar days: [startDay] and [dueDay] are the
    days of the loan's start and due dates ([dueDay] is [None] for a loan
    without a due date), [refDay] the reference date. *)
Definition frequencyRule (f : Frequency) (startDay : Z) (dueDay : option Z) (refDay : Z)
  : Prop :=
  match f with
  | Daily => True
  | Weekly => dayOfWeek startDay = dayOfWeek refDay
  | Monthly => dayOfMonth startDay = dayOfMonth refDay
  | LumpSum => dueDay = Some refDay
  end.

(** A loan is due for collection on [refDay]. *)
Definition dueOn (st : Status) (f : Frequency) (startDay : Z) (dueDay : option Z)
  (refDay : Z) : Prop :=
  (st = active \/ st = defaulted) /\
  startDay <= refDay /\
  frequencyRule f startDay dueDay refDay.

End WorklistSpec.

(** ** Sample data *)

Module Sample.

(** Philippine time, UTC+8. *)
Definition manila : Z := 8 * 3600000.

(** [h] o'clock UTC on the given calendar day (months from 1). *)
Definition utc (y m d h : Z) : Z := MakeDate (MakeDay y (m - 1) d) (h * 3600000).

(** A loan of 1000 at 20 percent. *)
Definition loan (freq : option string) (start : Z) (due : option Z) : Loan :=
  mkLoan "L1" "B1" 1000 20 1200 1200 start due active freq.

Definition tenDays (freq : option string) : Loan :=
  loan freq (utc 2024 1 1 0) (Some (utc 2024 1 11 0)).

End Sample.

(** * Properties *)

(** ** The calendar *)

Ltac div_lia := Z.div_mod_to_equations; lia.

(** The year of the era is the one whose days include [doe]. *)
Lemma yearOfEra_spec (doe : Z) :
  0 <= doe < daysPerEra ->
  0 <= yearOfEra doe <= 399 /\
  365 * yearOfEra doe + yearOfEra doe / 4 - yearOfEra doe / 100 <= doe /\
  doe < 365 * (yearOfEra doe + 1) + (yearOfEra doe + 1) / 4
        - (yearOfEra doe + 1) / 100 + (yearOfEra doe + 1) / 400.
Proof.
  unfold daysPerEra, yearOfEra. intros H. repeat split; div_lia.
Qed.

Lemma dayOfYear_range (doe : Z) :
  0 <= doe < daysPerEra -> 0 <= dayOfYear doe <= 365.
Proof.
  intros H. destruct (yearOfEra_spec doe H) as (Hy & Hlo & Hhi).
  unfold dayOfYear. cbv zeta.
  set (yoe := yearOfEra doe) in *. div_lia.
Qed.

(** Ranges of year, month and day of a day of the era; they determine the
    day, and the day lies before the start of the next month. *)
Lemma doe_facts (doe : Z) :
  0 <= doe < daysPerEra ->
  0 <= yearOfEra doe <= 399 /\
  0 <= monthFromMarch doe <= 11 /\
  1 <= dayOfMonth doe <= 31 /\
  0 <= dayOfYear doe /\
  365 * yearOfEra doe + yearOfEra doe / 4 - yearOfEra doe / 100
    + (153 * monthFromMarch doe + 2) / 5 + dayOfMonth doe - 1 = doe /\
  doe < nextMonthStart doe.
Proof.
  intros H. destruct (yearOfEra_spec doe H) as (Hy & Hlo & Hhi).
  pose proof (dayOfYear_range doe H) as Hdoy.
  assert (Hdef : dayOfYear doe
                 = doe - (365 * yearOfEra doe + yearOfEra doe / 4 - yearOfEra doe / 100))
    by reflexivity.
  unfold nextMonthStart, dayOfMonth, monthFromMarch.
  set (yoe := yearOfEra doe) in *. set (doy := dayOfYear doe) in *.
  assert (Hmp : 0 <= (5 * doy + 2) / 153 <= 11) by div_lia.
  split; [exact Hy|]. split; [exact Hmp|].
  split; [div_lia|]. split; [lia|]. split; [lia|].
  destruct (Z.ltb_spec ((5 * doy + 2) / 153) 11); [div_lia | lia].
Qed.

Lemma civilOfDay_month_range (n : Z) : 0 <= month (civilOfDay n) <= 11.
Proof.
  unfold civilOfDay; cbn [month].
  pose proof (doe_facts ((n + 719468) mod daysPerEra)) as F.
  destruct F as (_ & Hm & _); [apply Z.mod_pos_bound; reflexivity|].
  destruct (monthFromMarch _ <? 10) eqn:E;
    [apply Z.ltb_lt in E | apply Z.ltb_ge in E]; lia.
Qed.

Lemma civilOfDay_date_range (n : Z) : 1 <= date (civilOfDay n) <= 31.
Proof.
  unfold civilOfDay; cbn [date].
  pose proof (doe_facts ((n + 719468) mod daysPerEra)) as F.
  destruct F as (_ & _ & Hd & _); [apply Z.mod_pos_bound; reflexivity|].
  exact Hd.
Qed.

(** [MakeDay] inverts [civilOfDay]. *)
Lemma MakeDay_civilOfDay (n : Z) :
  MakeDay (year (civilOfDay n)) (month (civilOfDay n)) (date (civilOfDay n)) = n.
Proof.
  pose proof (civilOfDay_month_range n) as Hrange.
  unfold MakeDay.
  replace (month (civilOfDay n) / 12) with 0 by div_lia.
  replace (month (civilOfDay n) mod 12) with (month (civilOfDay n)) by div_lia.
  clear Hrange.
  unfold civilOfDay; cbn [year month date].
  set (z := n + 719468).
  pose proof (doe_facts (z mod daysPerEra)) as F.
  destruct F as (Hy & Hm & Hd & _ & Heq & _); [apply Z.mod_pos_bound; reflexivity|].
  pose proof (Z.div_mod z daysPerEra ltac:(discriminate)) as Hz.
  set (doe := z mod daysPerEra) in *.
  set (era := z / daysPerEra) in *.
  set (yoe := yearOfEra doe) in *.
  set (mp := monthFromMarch doe) in *.
  set (d := dayOfMonth doe) in *.
  unfold daysFromCivil, daysPerEra in *.
  assert (Hera : forall y', y' = yoe + era * 400 ->
            365 * y' + y' / 4 - y' / 100 + y' / 400
            = 146097 * era + 365 * yoe + yoe / 4 - yoe / 100).
  { intros y' ->. div_lia. }
  destruct (mp <? 10) eqn:E; [apply Z.ltb_lt in E | apply Z.ltb_ge in E].
  - destruct (mp + 3 <=? 2) eqn:E1; [apply Z.leb_le in E1; lia|].
    replace (mp + 3 - 1 + 1 <=? 2) with false by (symmetry; apply Z.leb_gt; lia).
    replace (2 <? mp + 3 - 1 + 1) with true by (symmetry; apply Z.ltb_lt; lia).
    replace (mp + 3 - 1 + 1 - 3) with mp by lia.
    match goal with |- 365 * ?y + _ - _ + _ + _ + _ - _ - _ = _ =>
      rewrite (Hera y) by lia end.
    subst z. lia.
  - destruct (mp - 9 <=? 2) eqn:E1; [|apply Z.leb_gt in E1; lia].
    replace (mp - 9 - 1 + 1 <=? 2) with true by (symmetry; apply Z.leb_le; lia).
    replace (2 <? mp - 9 - 1 + 1) with false by (symmetry; apply Z.ltb_ge; lia).
    replace (mp - 9 - 1 + 1 + 9) with mp by lia.
    match goal with |- 365 * ?y + _ - _ + _ + _ + _ - _ - _ = _ =>
      rewrite (Hera y) by lia end.
    subst z. lia.
Qed.

Lemma MakeDay_add_date (y m dt k : Z) : MakeDay y m (dt + k) = MakeDay y m dt + k.
Proof. unfold MakeDay, daysFromCivil. lia. Qed.

(** Length of the month [m] (0..11) of year [y], as a difference of
    [MakeDay]s. *)
Lemma MakeDay_next_month (y m dt : Z) :
  0 <= m <= 11 ->
  28 <= MakeDay y (m + 1) dt - MakeDay y m dt <= 31.
Proof.
  intros Hm. unfold MakeDay.
  replace (m / 12) with 0 by div_lia.
  replace (m mod 12) with m by div_lia.
  assert (C : m = 0 \/ m = 1 \/ m = 2 \/ m = 3 \/ m = 4 \/ m = 5 \/ m = 6 \/
              m = 7 \/ m = 8 \/ m = 9 \/ m = 10 \/ m = 11) by lia.
  unfold daysFromCivil.
  repeat (destruct C as [-> | C]); try subst m;
    repeat match goal with
           | |- context [?a <=? ?b] =>
               destruct (Z.leb_spec a b); try (exfalso; div_lia)
           | |- context [?a <? ?b] =>
               destruct (Z.ltb_spec a b); try (exfalso; div_lia)
           end; div_lia.
Qed.

Lemma MakeDay_normalize (y m dt : Z) :
  MakeDay y m dt = MakeDay (y + m / 12) (m mod 12) dt.
Proof.
  unfold MakeDay.
  replace (m mod 12 / 12) with 0 by div_lia.
  replace ((m mod 12) mod 12) with (m mod 12) by div_lia.
  now rewrite Z.add_0_r.
Qed.

Lemma MakeDay_index (y m dt : Z) : MakeDay y m dt = MakeDay 0 (12 * y + m) dt.
Proof.
  unfold MakeDay.
  replace ((12 * y + m) / 12) with (y + m / 12) by div_lia.
  replace ((12 * y + m) mod 12) with (m mod 12) by div_lia.
  reflexivity.
Qed.

(** Month starts, indexed by months since year 0, are at least 28 days
    apart. *)
Lemma MakeDay_step (i : Z) : 28 <= MakeDay 0 (i + 1) 1 - MakeDay 0 i 1 <= 31.
Proof.
  assert (E1 : MakeDay 0 i 1 = MakeDay (i / 12) (i mod 12) 1)
    by (rewrite (MakeDay_index (i / 12)); f_equal; div_lia).
  assert (E2 : MakeDay 0 (i + 1) 1 = MakeDay (i / 12) (i mod 12 + 1) 1)
    by (rewrite (MakeDay_index (i / 12)); f_equal; div_lia).
  rewrite E1, E2. apply MakeDay_next_month. div_lia.
Qed.

Lemma MakeDay_months_apart (i k : Z) :
  0 <= k -> 28 * k <= MakeDay 0 (i + k) 1 - MakeDay 0 i 1.
Proof.
  intros Hk. revert k Hk. apply natlike_ind.
  - rewrite Z.add_0_r. lia.
  - intros k Hk IH. pose proof (MakeDay_step (i + k)) as S.
    replace (i + Z.succ k) with (i + k + 1) by lia. lia.
Qed.

(** The day [civilOfDay] gives lies inside its month. *)
Lemma civilOfDay_within_month (n : Z) :
  n < MakeDay (year (civilOfDay n)) (month (civilOfDay n) + 1) 1.
Proof.
  unfold civilOfDay; cbn [year month date].
  set (z := n + 719468).
  pose proof (doe_facts (z mod daysPerEra)) as F.
  destruct F as (Hy & Hm & Hd & _ & _ & Hnext); [apply Z.mod_pos_bound; reflexivity|].
  pose proof (Z.div_mod z daysPerEra ltac:(discriminate)) as Hz.
  unfold nextMonthStart in Hnext.
  set (doe := z mod daysPerEra) in *.
  set (era := z / daysPerEra) in *.
  set (yoe := yearOfEra doe) in *.
  set (mp := monthFromMarch doe) in *.
  assert (Hera : forall y' e, y' = e + era * 400 ->
            365 * y' + y' / 4 - y' / 100 + y' / 400
            = 146097 * era + 365 * e + e / 4 - e / 100 + e / 400).
  { intros y' e ->. div_lia. }
  assert (Hyoe : yoe / 400 = 0) by div_lia.
  unfold MakeDay, daysFromCivil, daysPerEra in *.
  repeat match goal with
         | |- context [?a <=? ?b] =>
             destruct (Z.leb_spec a b); try (exfalso; div_lia)
         | |- context [?a <? ?b] =>
             destruct (Z.ltb_spec a b); try (exfalso; div_lia)
         | H : context [?a <? ?b] |- _ =>
             destruct (Z.ltb_spec a b); try (exfalso; div_lia)
         end;
    match goal with
    | |- _ < 365 * ?Y + _ - _ + _ + _ + _ - _ - _ =>
        first [ rewrite (Hera Y yoe) by div_lia
              | rewrite (Hera Y (yoe + 1)) by div_lia ]
    end; subst z; div_lia.
Qed.

(** [civilOfDay] inverts [MakeDay] on the days of a month. *)
Lemma civilOfDay_MakeDay (y m d : Z) :
  0 <= m <= 11 -> 1 <= d -> MakeDay y m d < MakeDay y (m + 1) 1 ->
  civilOfDay (MakeDay y m d) = mkCivil y m d.
Proof.
  intros Hm Hd Hin.
  set (n := MakeDay y m d) in *.
  pose proof (civilOfDay_month_range n) as Hm'.
  pose proof (civilOfDay_date_range n) as Hd'.
  pose proof (MakeDay_civilOfDay n) as Hrt.
  pose proof (civilOfDay_within_month n) as Hin'.
  destruct (civilOfDay n) as [y' m' d']. cbn [year month date] in *.
  assert (Hn : n = MakeDay 0 (12 * y + m) 1 + (d - 1)).
  { unfold n. rewrite <- MakeDay_add_date, <- MakeDay_index. f_equal. lia. }
  assert (Hn' : n = MakeDay 0 (12 * y' + m') 1 + (d' - 1)).
  { rewrite <- Hrt at 1. rewrite <- MakeDay_add_date, <- MakeDay_index. f_equal. lia. }
  rewrite (MakeDay_index y (m + 1)) in Hin.
  rewrite (MakeDay_index y' (m' + 1)) in Hin'.
  replace (12 * y + (m + 1)) with (12 * y + m + 1) in Hin by lia.
  replace (12 * y' + (m' + 1)) with (12 * y' + m' + 1) in Hin' by lia.
  set (i := 12 * y + m) in *. set (i' := 12 * y' + m') in *.
  assert (Hi : i = i').
  { destruct (Z.lt_trichotomy i i') as [L | [E | L]]; [exfalso | exact E | exfalso].
    - pose proof (MakeDay_months_apart (i + 1) (i' - (i + 1)) ltac:(lia)) as A.
      replace (i + 1 + (i' - (i + 1))) with i' in A by lia. lia.
    - pose proof (MakeDay_months_apart (i' + 1) (i - (i' + 1)) ltac:(lia)) as A.
      replace (i' + 1 + (i - (i' + 1))) with i in A by lia. lia. }
  assert (y' = y /\ m' = m) as [-> ->] by (unfold i, i' in Hi; lia).
  f_equal. unfold i, i' in *. lia.
Qed.

(** ** Local time *)

Lemma MakeDate_Day (t : Z) : MakeDate (Day t) (TimeWithinDay t) = t.
Proof. unfold MakeDate, Day, TimeWithinDay, msPerDay. div_lia. Qed.

Lemma Day_MakeDate (d time : Z) :
  0 <= time < msPerDay -> Day (MakeDate d time) = d.
Proof. unfold MakeDate, Day, msPerDay. intros H. div_lia. Qed.

Lemma Day_add_days (t k : Z) : Day (t + k * msPerDay) = Day t + k.
Proof. unfold Day, msPerDay. div_lia. Qed.

Lemma Day_lt_iff (a d : Z) : a < d * msPerDay <-> Day a < d.
Proof. unfold Day, msPerDay. split; intros H; div_lia. Qed.

Section LocalTimeFacts.

Variable tz : Z.

Lemma setHours0_eq (t : Z) : setHours0 tz t = localDay tz t * msPerDay - tz.
Proof. unfold setHours0, UTC, MakeDate. lia. Qed.

Lemma localDay_setHours0 (t : Z) : localDay tz (setHours0 tz t) = localDay tz t.
Proof.
  rewrite setHours0_eq. unfold localDay at 1, LocalTime.
  replace (localDay tz t * msPerDay - tz + tz) with (MakeDate (localDay tz t) 0)
    by (unfold MakeDate; lia).
  apply Day_MakeDate. unfold msPerDay. lia.
Qed.

(** Comparing two instants after [setHours(0,0,0,0)] compares their local
    calendar days. *)
Lemma setHours0_ltb (a b : Z) :
  (setHours0 tz a <? setHours0 tz b) = (localDay tz a <? localDay tz b).
Proof.
  rewrite !setHours0_eq. unfold msPerDay.
  destruct (Z.ltb_spec (localDay tz a) (localDay tz b));
    [apply Z.ltb_lt | apply Z.ltb_ge]; lia.
Qed.

Lemma setHours0_eqb (a b : Z) :
  (setHours0 tz a =? setHours0 tz b) = (localDay tz a =? localDay tz b).
Proof.
  rewrite !setHours0_eq. unfold msPerDay.
  destruct (Z.eqb_spec (localDay tz a) (localDay tz b));
    [apply Z.eqb_eq | apply Z.eqb_neq]; lia.
Qed.

(** An instant is before local midnight of [b]'s day iff its local day is
    earlier. *)
Lemma ltb_setHours0 (a b : Z) :
  (a <? setHours0 tz b) = (localDay tz a <? localDay tz b).
Proof.
  rewrite setHours0_eq. apply Bool.eq_iff_eq_true. rewrite !Z.ltb_lt.
  pose proof (Day_lt_iff (a + tz) (localDay tz b)) as H.
  unfold localDay, LocalTime, msPerDay in *. lia.
Qed.

Lemma getDay_setHours0 (t : Z) : getDay tz (setHours0 tz t) = getDay tz t.
Proof.
  unfold getDay, WeekDay. fold (localDay tz (setHours0 tz t)). fold (localDay tz t).
  now rewrite localDay_setHours0.
Qed.

Lemma getDate_setHours0 (t : Z) : getDate tz (setHours0 tz t) = getDate tz t.
Proof. unfold getDate, localCivil. now rewrite localDay_setHours0. Qed.

Lemma localDay_add_days (t k : Z) :
  localDay tz (t + k * msPerDay) = localDay tz t + k.
Proof.
  unfold localDay, LocalTime.
  replace (t + k * msPerDay + tz) with (t + tz + k * msPerDay) by lia.
  apply Day_add_days.
Qed.

Lemma getDay_add_days (t k : Z) :
  getDay tz (t + k * msPerDay) = (getDay tz t + k) mod 7.
Proof.
  unfold getDay, WeekDay. fold (localDay tz (t + k * msPerDay)). fold (localDay tz t).
  rewrite localDay_add_days. div_lia.
Qed.

Lemma getDay_range (t : Z) : 0 <= getDay tz t <= 6.
Proof. unfold getDay, WeekDay. div_lia. Qed.

(** [d.setDate(d.getDate() + k)] moves [d] by [k] whole days. *)
Lemma setDate_getDate_add (t k : Z) :
  setDate tz t (getDate tz t + k) = t + k * msPerDay.
Proof.
  unfold setDate, getFullYear, getMonth, getDate, localCivil.
  rewrite MakeDay_add_date, MakeDay_civilOfDay.
  unfold UTC, localDay.
  pose proof (MakeDate_Day (LocalTime tz t)) as H.
  unfold MakeDate, LocalTime in *. lia.
Qed.

(** [d.setMonth(d.getMonth() + 1)] moves [d] by the length of its month. *)
Lemma setMonth_getMonth_succ (t : Z) :
  exists len, 28 <= len <= 31 /\
    setMonth tz t (getMonth tz t + 1) = t + len * msPerDay.
Proof.
  unfold setMonth, getFullYear, getMonth, getDate, localCivil.
  set (c := civilOfDay (localDay tz t)).
  pose proof (MakeDay_next_month (year c) (month c) (date c)
                (civilOfDay_month_range _)) as Hlen.
  pose proof (MakeDay_civilOfDay (localDay tz t)) as Hrt. fold c in Hrt.
  exists (MakeDay (year c) (month c + 1) (date c) - localDay tz t).
  split; [lia|].
  unfold UTC, localDay.
  pose proof (MakeDate_Day (LocalTime tz t)) as H.
  unfold MakeDate, LocalTime, localDay in *. lia.
Qed.

(** For a day of the month up to the 28th, the month after is the same day
    and time of day in the next calendar month. *)
Lemma setMonth_next_same_day (t : Z) :
  getDate tz t <= 28 ->
  let t' := setMonth tz t (getMonth tz t + 1) in
  getDate tz t' = getDate tz t /\
  getMonth tz t' = (getMonth tz t + 1) mod 12 /\
  getFullYear tz t' = getFullYear tz t + (getMonth tz t + 1) / 12 /\
  TimeWithinDay (LocalTime tz t') = TimeWithinDay (LocalTime tz t).
Proof.
  intros H28 t'.
  unfold getDate, getMonth, getFullYear, localCivil in *.
  set (c := civilOfDay (localDay tz t)) in *.
  pose proof (civilOfDay_month_range (localDay tz t)) as Hm. fold c in Hm.
  pose proof (civilOfDay_date_range (localDay tz t)) as Hd. fold c in Hd.
  set (tod := TimeWithinDay (LocalTime tz t)).
  assert (Htod : 0 <= tod < msPerDay)
    by (apply Z.mod_pos_bound; reflexivity).
  assert (Ht' : LocalTime tz t' = MakeDate (MakeDay (year c) (month c + 1) (date c)) tod).
  { unfold t', setMonth, getFullYear, getMonth, getDate, localCivil, UTC, LocalTime.
    fold c. unfold tod, LocalTime. lia. }
  assert (Hday : localDay tz t' = MakeDay (year c) (month c + 1) (date c)).
  { unfold localDay. rewrite Ht'. now apply Day_MakeDate. }
  assert (Hciv : civilOfDay (localDay tz t')
                 = mkCivil (year c + (month c + 1) / 12) ((month c + 1) mod 12) (date c)).
  { rewrite Hday, MakeDay_normalize.
    apply civilOfDay_MakeDay; [div_lia | lia |].
    pose proof (MakeDay_next_month (year c + (month c + 1) / 12)
                  ((month c + 1) mod 12) 1 ltac:(div_lia)) as Hlen.
    replace (date c) with (1 + (date c - 1)) by lia.
    rewrite MakeDay_add_date. lia. }
  rewrite Hciv. cbn [year month date].
  repeat split.
  rewrite Ht'. unfold TimeWithinDay, MakeDate.
  rewrite Z.add_comm, Z.mod_add by discriminate.
  now apply Z.mod_small.
Qed.

(** At or east of Greenwich a date-only string, read as midnight UTC, falls
    on its own day of the local calendar. *)
Lemma localDay_ofDateString (day : Z) :
  0 <= tz < msPerDay -> localDay tz (ofDateString day) = day.
Proof. unfold localDay, LocalTime, ofDateString, MakeDate, Day, msPerDay. div_lia. Qed.

Lemma getDay_same_day (a b : Z) :
  localDay tz a = localDay tz b -> getDay tz a = getDay tz b.
Proof.
  unfold getDay, WeekDay. fold (localDay tz a). fold (localDay tz b). now intros ->.
Qed.

Lemma getDate_same_day (a b : Z) :
  localDay tz a = localDay tz b -> getDate tz a = getDate tz b.
Proof. unfold getDate, localCivil. now intros ->. Qed.

End LocalTimeFacts.

(** ** Calendar checks *)

(** Day 0 is 1 January 1970; 1 January 2024 is a Monday; 29 February 2024
    exists; a month added to 31 January 2024 overflows into 2 March. *)
Example epoch_day : MakeDay 1970 0 1 = 0.
Proof. reflexivity. Qed.

Example new_year_2024 : Sample.utc 2024 1 1 0 = 1704067200000.
Proof. reflexivity. Qed.

Example monday_2024_01_01 : getDay Sample.manila (Sample.utc 2024 1 1 0) = 1.
Proof. reflexivity. Qed.

Example leap_day_2024 : civilOfDay 19782 = mkCivil 2024 1 29.
Proof. reflexivity. Qed.

Example month_after_january_31 :
  setMonth Sample.manila (Sample.utc 2024 1 31 0)
           (getMonth Sample.manila (Sample.utc 2024 1 31 0) + 1)
  = Sample.utc 2024 3 2 0.
Proof. reflexivity. Qed.

(** ** The schedule generator *)

Lemma last_cons {A : Type} (x : A) (l : list A) (d : A) : last (x :: l) d = last l x.
Proof.
  revert x d. induction l as [|y l IH]; intros x d; [reflexivity|].
  change (last (x :: y :: l) d) with (last (y :: l) d). now rewrite !IH.
Qed.

(** The frequency of the design against the cases the portal and the
    screens switch on, and against those of the dashboard. *)
Lemma frequencyOf_freqCase (pf : option string) :
  match frequencyOf pf with
  | Daily => freqCase (orDaily pf) = FDaily \/ freqCase (orDaily pf) = FOther
  | Weekly => freqCase (orDaily pf) = FWeekly
  | Monthly => freqCase (orDaily pf) = FMonthly
  | LumpSum => freqCase (orDaily pf) = FLumpSum
  end.
Proof.
  destruct pf as [s|]; [|left; reflexivity]. cbn [frequencyOf orDaily].
  destruct (String.eqb_spec s "lump_sum") as [-> | Hl]; [reflexivity|].
  destruct (String.eqb_spec s "monthly") as [-> | Hm]; [reflexivity|].
  destruct (String.eqb_spec s "weekly") as [-> | Hw]; [reflexivity|].
  destruct (String.eqb_spec s "") as [-> | He]; [left; reflexivity|].
  unfold freqCase.
  destruct (String.eqb_spec s "daily"); [now left|]. right.
  apply String.eqb_neq in Hl, Hm, Hw. now rewrite Hl, Hm, Hw.
Qed.

Lemma frequencyOf_freqCaseOpt (pf : option string) :
  match frequencyOf pf with
  | Daily => freqCaseOpt pf = FDaily \/ freqCaseOpt pf = FOther
  | Weekly => freqCaseOpt pf = FWeekly
  | Monthly => freqCaseOpt pf = FMonthly
  | LumpSum => freqCaseOpt pf = FLumpSum
  end.
Proof.
  destruct pf as [s|]; [|right; reflexivity]. cbn [frequencyOf freqCaseOpt].
  destruct (String.eqb_spec s "lump_sum") as [-> | Hl]; [reflexivity|].
  destruct (String.eqb_spec s "monthly") as [-> | Hm]; [reflexivity|].
  destruct (String.eqb_spec s "weekly") as [-> | Hw]; [reflexivity|].
  unfold freqCase.
  destruct (String.eqb_spec s "daily"); [now left|]. right.
  apply String.eqb_neq in Hl, Hm, Hw. now rewrite Hl, Hm, Hw.
Qed.

Section ScheduleFacts.

Import Portal ScheduleLoop ScheduleSpec.

Variable tz : Z.

Lemma addPeriod_gt (f : FreqCase) (d : Z) : d < addPeriod tz f d.
Proof.
  destruct f; cbn [addPeriod]; unfold msPerDay; try lia.
  destruct (setMonth_getMonth_succ tz d) as (len & Hlen & ->).
  unfold msPerDay. lia.
Qed.

(** Outside the lump sum, [incrementDate] adds one period. *)
Lemma incrementDate_addPeriod (freq : string) (end_ d : Z) :
  freqCase freq <> FLumpSum ->
  incrementDate tz freq end_ d = addPeriod tz (freqCase freq) d.
Proof.
  intros H. unfold incrementDate.
  destruct (freqCase freq); cbn [addPeriod];
    try apply setDate_getDate_add; [reflexivity | congruence].
Qed.

Lemma incrementDate_gt (freq : string) (end_ d : Z) :
  freqCase freq <> FLumpSum -> d < incrementDate tz freq end_ d.
Proof.
  intros H. rewrite incrementDate_addPeriod by exact H. apply addPeriod_gt.
Qed.

Lemma scheduleLoop_ge (freq : string) (end_ today : Z) (fuel : nat) :
  freqCase freq <> FLumpSum ->
  forall current e,
  In e (scheduleLoop tz freq end_ today fuel current) -> current <= date e.
Proof.
  intros Hf. induction fuel as [|fuel IH]; intros current e He; [contradiction|].
  cbn [scheduleLoop] in He. destruct (current <=? end_); [|contradiction].
  destruct He as [<- | He]; [cbn; lia|].
  apply IH in He. pose proof (incrementDate_gt freq end_ current Hf). lia.
Qed.

(** For a day of the month up to the 28th, [setMonth] with the next month
    lands one calendar month later. *)
Lemma setMonth_monthLater (d : Z) :
  getDate tz d <= 28 -> monthLater tz d (setMonth tz d (getMonth tz d + 1)).
Proof.
  intros H. destruct (setMonth_next_same_day tz d H) as (Hd & Hm & Hy & Ht).
  unfold monthLater. rewrite Hd, Hm, Hy, Ht. repeat split. div_lia.
Qed.

(** One turn of the loop advances by one period of the design, for a
    monthly loan as long as the day of the month is the 28th at most. *)
Lemma incrementDate_onePeriodLater (pf : option string) (end_ d : Z) :
  frequencyOf pf <> LumpSum ->
  (frequencyOf pf = Monthly -> getDate tz d <= 28) ->
  onePeriodLater tz (frequencyOf pf) d (incrementDate tz (orDaily pf) end_ d).
Proof.
  intros Hl H28. pose proof (frequencyOf_freqCase pf) as H. unfold incrementDate.
  destruct (frequencyOf pf); cbn [onePeriodLater].
  - destruct H as [-> | ->]; apply setDate_getDate_add.
  - rewrite H. apply setDate_getDate_add.
  - rewrite H. apply setMonth_monthLater. now apply H28.
  - congruence.
Qed.

Lemma frequencyOf_not_lump (pf : option string) :
  frequencyOf pf <> LumpSum -> freqCase (orDaily pf) <> FLumpSum.
Proof.
  intros Hl. pose proof (frequencyOf_freqCase pf) as H.
  destruct (frequencyOf pf); try congruence. destruct H; congruence.
Qed.

(** The dates the loop pushes, started one period after [prev]. *)
Lemma scheduleLoop_isSchedule (pf : option string) (end_ today : Z) (fuel : nat) :
  frequencyOf pf <> LumpSum ->
  forall prev current,
  onePeriodLater tz (frequencyOf pf) prev current ->
  (frequencyOf pf = Monthly -> getDate tz current <= 28) ->
  advancing tz (frequencyOf pf) prev
    (map date (scheduleLoop tz (orDaily pf) end_ today fuel current)) /\
  Forall (fun d => d <= end_)
    (map date (scheduleLoop tz (orDaily pf) end_ today fuel current)) /\
  (length (map date (scheduleLoop tz (orDaily pf) end_ today fuel current)) <= fuel)%nat /\
  ((length (map date (scheduleLoop tz (orDaily pf) end_ today fuel current)) < fuel)%nat ->
   exists next,
     onePeriodLater tz (frequencyOf pf)
       (last (map date (scheduleLoop tz (orDaily pf) end_ today fuel current)) prev) next /\
     end_ < next).
Proof.
  intros Hl. induction fuel as [|fuel IH]; intros prev current Hstep H28.
  { cbn. repeat split; [constructor | lia | lia]. }
  cbn [scheduleLoop]. destruct (Z.leb_spec current end_) as [Hle | Hgt].
  - cbn [map date].
    assert (Hnext : onePeriodLater tz (frequencyOf pf) current
                      (incrementDate tz (orDaily pf) end_ current))
      by (now apply incrementDate_onePeriodLater).
    assert (H28' : frequencyOf pf = Monthly ->
                   getDate tz (incrementDate tz (orDaily pf) end_ current) <= 28).
    { intros Hm. specialize (H28 Hm). rewrite Hm in Hnext. cbn in Hnext.
      destruct Hnext as (-> & _). exact H28. }
    destruct (IH current _ Hnext H28') as (Ha & Hf & Hn & Hs).
    repeat split.
    + exact Hstep.
    + exact Ha.
    + now constructor.
    + cbn [length]. lia.
    + cbn [length]. intros Hshort. rewrite last_cons. apply Hs. lia.
  - cbn. repeat split; [constructor | lia |].
    intros _. now exists current.
Qed.

Lemma scheduleDates_lump (now : Z) (l : Loan) :
  freqCase (orDaily (payment_frequency l)) = FLumpSum ->
  map date (scheduleDates tz now l) = [dueOrNow now l].
Proof. intros H. unfold scheduleDates. rewrite H. reflexivity. Qed.

Lemma scheduleDates_loop (now : Z) (l : Loan) :
  freqCase (orDaily (payment_frequency l)) <> FLumpSum ->
  scheduleDates tz now l
  = scheduleLoop tz (orDaily (payment_frequency l)) (dueOrNow now l) (setHours0 tz now)
      1000 (incrementDate tz (orDaily (payment_frequency l)) (dueOrNow now l)
              (start_date l)).
Proof.
  intros H. unfold scheduleDates.
  destruct (freqCase (orDaily (payment_frequency l))); congruence.
Qed.

Lemma schedule_dates_map (now : Z) (l : Loan) :
  map (fun e => date (dated e)) (schedule tz now (Some l))
  = map date (scheduleDates tz now l).
Proof. unfold schedule. rewrite map_map. reflexivity. Qed.

(** The dates of the schedule are those of the design, for a monthly loan
    released on the 28th of a month at the latest. *)
Lemma schedule_isSchedule (now : Z) (l : Loan) :
  (frequencyOf (payment_frequency l) = Monthly -> getDate tz (start_date l) <= 28) ->
  isSchedule tz (frequencyOf (payment_frequency l)) (start_date l) (dueOrNow now l)
    (map (fun e => date (dated e)) (schedule tz now (Some l))).
Proof.
  intros H28. rewrite schedule_dates_map.
  pose proof (frequencyOf_freqCase (payment_frequency l)) as Hc.
  destruct (frequencyOf (payment_frequency l)) eqn:F;
    [| | | cbn [isSchedule]; now apply scheduleDates_lump].
  all: assert (Hl : frequencyOf (payment_frequency l) <> LumpSum) by congruence.
  all: pose proof (incrementDate_onePeriodLater (payment_frequency l)
                     (dueOrNow now l) (start_date l) Hl
                     ltac:(rewrite F; exact H28)) as Hn.
  all: pose proof (scheduleLoop_isSchedule (payment_frequency l) (dueOrNow now l)
                     (setHours0 tz now) 1000 Hl (start_date l) _ Hn) as Hloop.
  all: rewrite scheduleDates_loop by (now apply frequencyOf_not_lump).
  all: rewrite F in Hloop, Hn; cbn [isSchedule]; apply Hloop.
  all: try discriminate.
  intros _. cbn in Hn. destruct Hn as (-> & _). now apply H28.
Qed.

End ScheduleFacts.

(** C1 (fails for a monthly loan released at the end of a month).  A monthly
    loan released on 31 January 2024: [setMonth] with the next month asks for
    31 February and lands on 2 March.  Over 90 days, to 30 April, the
    schedule has the entries 2 March and 2 April: none in February, and
    none on the day of the month the loan was released on, which is the
    day the dashboard collects on.  Over 30 days, to 1 March, the schedule
    is empty, while the payment screen counts one installment.  The dates
    are not those of the design. *)
Theorem monthly_schedule_skips_february :
  let start := Sample.utc 2024 1 31 0 in
  let now := Sample.utc 2024 2 1 0 in
  let quarter := Sample.loan (Some "monthly"%string) start (Some (Sample.utc 2024 4 30 0)) in
  let month := Sample.loan (Some "monthly"%string) start (Some (Sample.utc 2024 3 1 0)) in
  let dates := map (fun e => Portal.date (Portal.dated e))
                   (Portal.schedule Sample.manila now (Some quarter)) in
  LoansView.calculatedDueDate Sample.manila 19753 90 = Sample.utc 2024 4 30 0 /\
  LoansView.calculatedDueDate Sample.manila 19753 30 = Sample.utc 2024 3 1 0 /\
  dates = [Sample.utc 2024 3 2 0; Sample.utc 2024 4 2 0] /\
  ~ ScheduleSpec.monthLater Sample.manila start (Sample.utc 2024 3 2 0) /\
  ~ ScheduleSpec.isSchedule Sample.manila (frequencyOf (payment_frequency quarter))
      (start_date quarter) (Sample.utc 2024 4 30 0) dates /\
  Dashboard.isScheduled Sample.manila 19813 quarter = true /\
  Dashboard.isScheduled Sample.manila 19784 quarter = false /\
  Portal.schedule Sample.manila now (Some month) = [] /\
  PaymentsView.targetDivisor now month = 1.
Proof.
  cbv zeta.
  assert (Hno : ~ ScheduleSpec.monthLater Sample.manila (Sample.utc 2024 1 31 0)
                    (Sample.utc 2024 3 2 0)).
  { intros (H & _). vm_compute in H. discriminate. }
  split; [vm_compute; reflexivity|]. split; [vm_compute; reflexivity|].
  split; [vm_compute; reflexivity|]. split; [exact Hno|].
  split.
  - intros H.
    replace (map (fun e => Portal.date (Portal.dated e)) _)
      with [Sample.utc 2024 3 2 0; Sample.utc 2024 4 2 0] in H
      by (vm_compute; reflexivity).
    change (frequencyOf _) with Monthly in H. cbn [ScheduleSpec.isSchedule] in H.
    destruct H as ((H & _) & _). exact (Hno H).
  - repeat split; vm_compute; reflexivity.
Qed.

(** Each of the ten entries asks for 120, and together for the 1200 owed. *)
Example ten_day_schedule_amounts :
  map (fun e => Qred (Portal.amount e))
      (Portal.schedule Sample.manila (Sample.utc 2024 1 5 3)
                       (Some (Sample.tenDays (Some "daily"%string))))
  = repeat 120%Q 10.
Proof. vm_compute. reflexivity. Qed.

(** A daily loan running for ten years is cut at 1000 entries; a lump sum
    over the same term has one. *)
Example schedule_cap :
  length (Portal.schedule Sample.manila 0
            (Some (Sample.loan (Some "daily"%string) (Sample.utc 2024 1 1 0)
                               (Some (Sample.utc 2034 1 1 0))))) = 1000%nat /\
  length (Portal.schedule Sample.manila 0
            (Some (Sample.loan (Some "lump_sum"%string) (Sample.utc 2024 1 1 0)
                               (Some (Sample.utc 2034 1 1 0))))) = 1%nat.
Proof. split; vm_compute; reflexivity. Qed.

(** ** Past, today, upcoming *)

Section ClassFacts.

Import Portal.

Variable tz : Z.

(** Entries produced by the loop are compared by local calendar day. *)
Lemma scheduleLoop_classes (freq : string) (end_ now : Z) (fuel : nat) :
  forall current e,
  In e (scheduleLoop tz freq end_ (setHours0 tz now) fuel current) ->
  temporalClass e = ScheduleSpec.classOfDays (localDay tz (date e)) (localDay tz now).
Proof.
  induction fuel as [|fuel IH]; intros current e He; [contradiction|].
  cbn [scheduleLoop] in He.
  destruct (current <=? end_); [|contradiction].
  destruct He as [<- | He]; [|now apply IH in He].
  unfold temporalClass, ScheduleSpec.classOfDays. cbn [isPast isToday date].
  now rewrite setHours0_ltb, setHours0_eqb.
Qed.

Lemma periodic_classes (now : Z) (l : Loan) :
  freqCase (orDaily (payment_frequency l)) <> FLumpSum ->
  forall e, In e (schedule tz now (Some l)) ->
  temporalClass (dated e)
  = ScheduleSpec.classOfDays (localDay tz (date (dated e))) (localDay tz now).
Proof.
  intros Hf e He. unfold schedule in He. apply in_map_iff in He.
  destruct He as (d & <- & Hd). cbn [dated].
  unfold scheduleDates in Hd.
  destruct (freqCase (orDaily (payment_frequency l))); try congruence;
    now apply scheduleLoop_classes in Hd.
Qed.

(** The lump-sum entry is "past" by calendar day, but "today" only when the
    due date is local midnight of the reference day to the millisecond. *)
Lemma lump_sum_class (now : Z) (l : Loan) :
  freqCase (orDaily (payment_frequency l)) = FLumpSum ->
  map (fun e => temporalClass (dated e)) (schedule tz now (Some l))
  = [ if localDay tz (dueOrNow now l) <? localDay tz now then Past
      else if dueOrNow now l =? setHours0 tz now then Today
      else Upcoming ].
Proof.
  intros Hf. unfold schedule, scheduleDates. rewrite Hf.
  cbn [map dated]. unfold temporalClass. cbn [isPast isToday].
  now rewrite ltb_setHours0.
Qed.

End ClassFacts.

(** C7 (fails on the lump-sum entry).  In Philippine time, a lump-sum loan
    due on 1 March 2024 (stored as midnight UTC, 08:00 local) and looked at
    at 10:00 local on 1 March: the single entry is dated on the reference
    day, yet it is labelled "upcoming", not "today", and the loan is not
    shown as due today. *)
Theorem lump_sum_due_today_labelled_upcoming :
  let l := Sample.loan (Some "lump_sum"%string) (Sample.utc 2024 1 1 0)
                       (Some (Sample.utc 2024 3 1 0)) in
  let now := Sample.utc 2024 3 1 2 in
  exists e,
    Portal.schedule Sample.manila now (Some l) = [e] /\
    localDay Sample.manila (Portal.date (Portal.dated e)) = localDay Sample.manila now /\
    toDateString (Portal.date (Portal.dated e)) = toDateString now /\
    Portal.temporalClass (Portal.dated e) = Portal.Upcoming /\
    ScheduleSpec.classOfDays (localDay Sample.manila (Portal.date (Portal.dated e)))
                (localDay Sample.manila now) = Portal.Today /\
    Portal.isDueToday Sample.manila now (Some l) = false.
Proof.
  cbv zeta. eexists. split; [vm_compute; reflexivity|].
  repeat split; vm_compute; reflexivity.
Qed.

(** ** Period counts and installments *)

(** [ceilDiv a b] is the least integer not below a / b. *)
Lemma ceilDiv_spec (a b : Z) :
  0 < b -> b * (ceilDiv a b - 1) < a <= b * ceilDiv a b.
Proof. unfold ceilDiv. intros Hb. div_lia. Qed.

Lemma ceilDiv_pos (a b : Z) : 0 < b -> 0 < a -> 1 <= ceilDiv a b.
Proof. unfold ceilDiv. intros Hb Ha. div_lia. Qed.

Lemma ceilDiv_nonneg (a b : Z) : 0 < b -> 0 <= a -> 0 <= ceilDiv a b.
Proof. unfold ceilDiv. intros Hb Ha. div_lia. Qed.

Lemma termDays_ge_1 (start end_ : Z) : 1 <= termDays start end_.
Proof. unfold termDays. lia. Qed.

Lemma termDays_same (d : Z) : termDays d d = 1.
Proof. unfold termDays. now rewrite Z.sub_diag. Qed.

Lemma periodCount_ge_1 (f : FreqCase) (term_days : Z) :
  1 <= term_days -> 1 <= periodCount f term_days.
Proof. destruct f; cbn [periodCount]; lia. Qed.

Lemma Qle_bool_false (a b : Q) : Qle_bool a b = false <-> (b < a)%Q.
Proof.
  split; intros H.
  - apply Qnot_le_lt. intros L. apply Qle_bool_iff in L. congruence.
  - destruct (Qle_bool a b) eqn:E; [|reflexivity].
    apply Qle_bool_iff in E. apply Qlt_not_le in H. contradiction.
Qed.

Lemma Qltb_iff (a b : Q) : Qltb a b = true <-> (a < b)%Q.
Proof.
  unfold Qltb. rewrite negb_true_iff. apply Qle_bool_false.
Qed.

Lemma Qltb_false (a b : Q) : Qltb a b = false <-> (b <= a)%Q.
Proof. unfold Qltb. rewrite negb_false_iff. apply Qle_bool_iff. Qed.

(** [Math.ceil] of a whole number of days over 7 or 30. *)
Lemma mathCeil_days_7 (n : Z) : mathCeil (inject_Z n / 7) = inject_Z (ceilDiv n 7).
Proof.
  unfold mathCeil, ceilDiv, Qceiling, Qfloor, Qdiv, Qmult, Qinv, Qopp, inject_Z.
  cbn [Qnum Qden]. now rewrite Z.mul_1_r.
Qed.

Lemma mathCeil_days_30 (n : Z) : mathCeil (inject_Z n / 30) = inject_Z (ceilDiv n 30).
Proof.
  unfold mathCeil, ceilDiv, Qceiling, Qfloor, Qdiv, Qmult, Qinv, Qopp, inject_Z.
  cbn [Qnum Qden]. now rewrite Z.mul_1_r.
Qed.

Lemma Qceiling_pos (x : Q) : (0 < x)%Q -> 1 <= Qceiling x.
Proof.
  intros H. pose proof (Qle_ceiling x) as Hc.
  assert (Hlt : (inject_Z 0 < inject_Z (Qceiling x))%Q)
    by (apply Qlt_le_trans with x; assumption).
  rewrite <- Zlt_Qlt in Hlt. lia.
Qed.

Lemma inject_Z_ge_1 (k : Z) : 1 <= k -> (1 <= inject_Z k)%Q.
Proof. intros H. change 1%Q with (inject_Z 1). now rewrite <- Zle_Qle. Qed.

(** [getInstallmentInfo] with a positive total and a whole number of days,
    at least one. *)
Lemma getInstallmentInfo_count (total : Q) (days : Z) (freq : string) :
  (0 < total)%Q -> 1 <= days ->
  LoansView.getInstallmentInfo total (inject_Z days) freq
  = LoansView.mkInfo (total / inject_Z (periodCount (freqCase freq) days))%Q
                     (inject_Z (periodCount (freqCase freq) days)).
Proof.
  intros Ht Hd. unfold LoansView.getInstallmentInfo.
  replace (Qle_bool total 0) with false by (symmetry; now apply Qle_bool_false).
  replace (Qle_bool (inject_Z days) 0) with false.
  2:{ symmetry. apply Qle_bool_false. change 0%Q with (inject_Z 0).
      rewrite <- Zlt_Qlt. lia. }
  cbn [orb]. rewrite mathCeil_days_7, mathCeil_days_30.
  assert (H7 : 1 <= ceilDiv days 7) by (apply ceilDiv_pos; lia).
  assert (H30 : 1 <= ceilDiv days 30) by (apply ceilDiv_pos; lia).
  assert (Hk : forall k, 1 <= k -> Qltb (inject_Z k) 1 = false)
    by (intros k Hk; apply Qltb_false; now apply inject_Z_ge_1).
  destruct (freqCase freq); cbn [periodCount]; rewrite ?Z.max_r by lia;
    try (rewrite Hk by lia; reflexivity).
  reflexivity.
Qed.

(** [getInstallmentInfo] past its guard, for any number of days: the clamp
    leaves a divisor of at least 1, which is also the count. *)
Lemma getInstallmentInfo_divides (total days : Q) (freq : string) :
  (0 < total)%Q -> (0 < days)%Q ->
  (1 <= LoansView.count (LoansView.getInstallmentInfo total days freq))%Q /\
  LoansView.amount (LoansView.getInstallmentInfo total days freq)
  = (total / LoansView.count (LoansView.getInstallmentInfo total days freq))%Q.
Proof.
  intros Ht Hd. unfold LoansView.getInstallmentInfo.
  replace (Qle_bool total 0) with false by (symmetry; now apply Qle_bool_false).
  replace (Qle_bool days 0) with false by (symmetry; now apply Qle_bool_false).
  cbn [orb LoansView.count LoansView.amount]. split; [|reflexivity].
  match goal with
  | |- (1 <= if Qltb ?d 1 then _ else _)%Q =>
      destruct (Qltb d 1) eqn:E; [apply Qle_refl | now apply Qltb_false in E]
  end.
Qed.

(** On the daily branch the count is the number of days, brought up to 1
    by the clamp when it is less. *)
Lemma getInstallmentInfo_daily (total days : Q) (freq : string) :
  (0 < total)%Q -> (0 < days)%Q ->
  freqCase freq = FDaily \/ freqCase freq = FOther ->
  LoansView.count (LoansView.getInstallmentInfo total days freq)
  = if Qltb days 1 then 1%Q else days.
Proof.
  intros Ht Hd Hf. unfold LoansView.getInstallmentInfo.
  replace (Qle_bool total 0) with false by (symmetry; now apply Qle_bool_false).
  replace (Qle_bool days 0) with false by (symmetry; now apply Qle_bool_false).
  cbn [orb LoansView.count]. destruct Hf as [-> | ->]; reflexivity.
Qed.

(** On the other branches the count is a whole number. *)
Lemma getInstallmentInfo_whole (total days : Q) (freq : string) :
  (0 < total)%Q -> (0 < days)%Q ->
  freqCase freq = FWeekly \/ freqCase freq = FMonthly \/ freqCase freq = FLumpSum ->
  exists k, 1 <= k /\
    LoansView.count (LoansView.getInstallmentInfo total days freq) = inject_Z k.
Proof.
  intros Ht Hd Hf. unfold LoansView.getInstallmentInfo.
  replace (Qle_bool total 0) with false by (symmetry; now apply Qle_bool_false).
  replace (Qle_bool days 0) with false by (symmetry; now apply Qle_bool_false).
  cbn [orb LoansView.count].
  assert (Hk : forall k, 1 <= k -> Qltb (inject_Z k) 1 = false)
    by (intros k Hk; apply Qltb_false; now apply inject_Z_ge_1).
  assert (Hc : forall b, (0 < b)%Q -> 1 <= Qceiling (days / b)).
  { intros b Hb. apply Qceiling_pos. apply Qlt_shift_div_l; [exact Hb|].
    now rewrite Qmult_0_l. }
  destruct Hf as [-> | [-> | ->]].
  - exists (Qceiling (days / 7)). split; [now apply Hc|].
    unfold mathCeil. now rewrite Hk by (now apply Hc).
  - exists (Qceiling (days / 30)). split; [now apply Hc|].
    unfold mathCeil. now rewrite Hk by (now apply Hc).
  - exists 1. split; [lia | reflexivity].
Qed.

Lemma LoansView_diffDays_ge_1 (now : Z) (l : Loan) : 1 <= LoansView.diffDays now l.
Proof.
  unfold LoansView.diffDays.
  pose proof (ceilDiv_nonneg (Z.abs (dueOrNow now l - start_date l)) msPerDay
                ltac:(reflexivity) (Z.abs_nonneg _)) as H.
  destruct (Z.eqb_spec (ceilDiv (Z.abs (dueOrNow now l - start_date l)) msPerDay) 0); lia.
Qed.

Lemma LoansView_diffDays_termDays (now : Z) (l : Loan) :
  LoansView.diffDays now l = termDays (start_date l) (dueOrNow now l).
Proof.
  unfold LoansView.diffDays, termDays.
  pose proof (ceilDiv_nonneg (Z.abs (dueOrNow now l - start_date l)) msPerDay
                ltac:(reflexivity) (Z.abs_nonneg _)) as H.
  destruct (Z.eqb_spec (ceilDiv (Z.abs (dueOrNow now l - start_date l)) msPerDay) 0); lia.
Qed.

Lemma targetDivisor_periodCount (now : Z) (l : Loan) :
  PaymentsView.targetDivisor now l
  = periodCount (freqCase (orDaily (payment_frequency l)))
                (termDays (start_date l) (dueOrNow now l)).
Proof. unfold PaymentsView.targetDivisor. now destruct (freqCase _). Qed.

Lemma currentInstallmentInfo_count (now : Z) (l : Loan) :
  (0 < total_payable l)%Q ->
  LoansView.count (LoansView.currentInstallmentInfo now l)
  = inject_Z (periodCount (freqCase (orDaily (payment_frequency l)))
                (termDays (start_date l) (dueOrNow now l))).
Proof.
  intros Ht. unfold LoansView.currentInstallmentInfo.
  rewrite getInstallmentInfo_count by (trivial; apply LoansView_diffDays_ge_1).
  cbn [LoansView.count]. now rewrite LoansView_diffDays_termDays.
Qed.

(** The dashboard agrees with the rule on the four listed frequencies. *)
Lemma Dashboard_divisor_listed (now : Z) (l : Loan) :
  freqCaseOpt (payment_frequency l) <> FOther ->
  Dashboard.divisor now l
  = periodCount (freqCaseOpt (payment_frequency l))
                (termDays (start_date l) (dueOrNow now l)).
Proof.
  intros H. unfold Dashboard.divisor.
  destruct (freqCaseOpt (payment_frequency l)); cbn [periodCount]; congruence.
Qed.

Lemma Dashboard_divisor_other (now : Z) (l : Loan) :
  freqCaseOpt (payment_frequency l) = FOther -> Dashboard.divisor now l = 1.
Proof. intros H. unfold Dashboard.divisor. now rewrite H. Qed.

Lemma Dashboard_divisor_ge_1 (now : Z) (l : Loan) : 1 <= Dashboard.divisor now l.
Proof.
  unfold Dashboard.divisor.
  pose proof (termDays_ge_1 (start_date l) (dueOrNow now l)).
  destruct (freqCaseOpt (payment_frequency l)); lia.
Qed.

Lemma targetDivisor_ge_1 (now : Z) (l : Loan) : 1 <= PaymentsView.targetDivisor now l.
Proof.
  rewrite targetDivisor_periodCount. apply periodCount_ge_1, termDays_ge_1.
Qed.

(** C2 (fails at the dashboard).  A ten-day loan whose frequency column is
    null: the payment screen and the loan detail view fall back to the daily
    rule and divide by 10; the dashboard, which lists the loan as a daily
    one, divides by 1. *)
Theorem dashboard_divisor_without_frequency :
  let l := Sample.tenDays None in
  let now := Sample.utc 2024 1 5 3 in
  termDays (start_date l) (dueOrNow now l) = 10 /\
  PaymentsView.targetDivisor now l = 10 /\
  LoansView.count (LoansView.currentInstallmentInfo now l) = 10%Q /\
  Dashboard.isScheduled Sample.manila (toDateString now) l = true /\
  Dashboard.divisor now l = 1.
Proof. cbv zeta. repeat split; vm_compute; reflexivity. Qed.

(** The guard of [getInstallmentInfo]: nothing is divided, and amount and
    count are both 0, when the total or the number of days is not
    positive. *)
Lemma getInstallmentInfo_guard (total days : Q) (freq : string) :
  Qle_bool total 0 || Qle_bool days 0 = true ->
  LoansView.getInstallmentInfo total days freq = LoansView.mkInfo 0 0.
Proof. intros H. unfold LoansView.getInstallmentInfo. now rewrite H. Qed.

(** The integer part of a whole number. *)
Lemma toInteger_inject_add (a n : Z) : toInteger (inject_Z a + inject_Z n) = a + n.
Proof.
  rewrite <- inject_Z_plus. unfold toInteger.
  destruct (Qle_bool 0 (inject_Z (a + n))); [apply Qfloor_Z | apply Qceiling_Z].
Qed.

(** A loan issued by the form, for a whole number of days, reaches the
    store with the total computed there and falls due that many days after
    its release. *)
Lemma handleCreateLoan_total (tz : Z) (newId borrowerId : string)
  (principalNum interestRate : Q) (releaseDate daysToPay : Z)
  (paymentFrequency : string) (l : Loan) :
  LoansView.handleCreateLoan tz newId borrowerId principalNum interestRate
    releaseDate (inject_Z daysToPay) paymentFrequency = Some l ->
  principal l = principalNum /\ interest_rate l = interestRate /\
  total_payable l = LoansView.totalPayable principalNum interestRate /\
  start_date l = ofDateString releaseDate /\
  due_date l = Some (ofDateString releaseDate + daysToPay * msPerDay).
Proof.
  unfold LoansView.handleCreateLoan, LoansView.calculatedDueDate.
  destruct (_ || _); [discriminate|]. intros [= <-]. cbn.
  now rewrite toInteger_inject_add, setDate_getDate_add.
Qed.

Lemma totalPayable_pos (principal rate : Q) :
  (0 < principal)%Q -> (0 <= rate)%Q -> (0 < LoansView.totalPayable principal rate)%Q.
Proof.
  intros Hp Hr. unfold LoansView.totalPayable.
  assert (0 <= principal * (rate / 100))%Q.
  { apply Qmult_le_0_compat; [now apply Qlt_le_weak|].
    apply Qle_shift_div_l; [reflexivity|]. now rewrite Qmult_0_l. }
  lra.
Qed.

Lemma freqCase_named (freq : string) :
  (freq = "weekly"%string -> freqCase freq = FWeekly) /\
  (freq = "monthly"%string -> freqCase freq = FMonthly) /\
  (freq = "lump_sum"%string -> freqCase freq = FLumpSum) /\
  (freq <> "weekly"%string -> freq <> "monthly"%string -> freq <> "lump_sum"%string ->
   freqCase freq = FDaily \/ freqCase freq = FOther).
Proof.
  repeat split; try (intros ->; reflexivity).
  intros Hw Hm Hl. unfold freqCase.
  destruct (String.eqb_spec freq "daily"); [now left|]. right.
  apply String.eqb_neq in Hw, Hm, Hl. now rewrite Hw, Hm, Hl.
Qed.

(** C3, as stated, fails at the creation form, whose [getInstallmentInfo]
    takes the number typed into the days field.  For a loan of 1000 at 20
    percent: over 0 days the period count is 0 (and the store then receives
    that loan, due on its start date); over 10.5 days, paid daily, the
    period count is 10.5, which is no integer; and over 7 days, paid daily,
    the amount returned is 1200 / 7, not its ceiling 172. *)
Lemma amortization_preview_fails :
  (0 < 1000)%Q /\ (0 <= 20)%Q /\
  LoansView.count
    (LoansView.getInstallmentInfo (LoansView.totalPayable 1000 20) 0 "weekly") = 0%Q /\
  (exists l,
     LoansView.handleCreateLoan Sample.manila "L1" "B1" 1000 20 19723 0 "weekly" = Some l /\
     due_date l = Some (start_date l)) /\
  (LoansView.count
     (LoansView.getInstallmentInfo (LoansView.totalPayable 1000 20) (21 # 2) "daily")
   == 21 # 2)%Q /\
  ~ (exists k : Z,
       (LoansView.count
          (LoansView.getInstallmentInfo (LoansView.totalPayable 1000 20) (21 # 2) "daily")
        == inject_Z k)%Q) /\
  ~ (LoansView.amount
       (LoansView.getInstallmentInfo (LoansView.totalPayable 1000 20) 7 "daily")
     == mathCeil (LoansView.totalPayable 1000 20 / 7))%Q.
Proof.
  split; [reflexivity|]. split; [discriminate|]. split; [reflexivity|].
  split; [eexists; split; reflexivity|].
  split; [reflexivity|]. split.
  - intros (k & Hk).
    assert (Hc : (LoansView.count
                    (LoansView.getInstallmentInfo (LoansView.totalPayable 1000 20)
                       (21 # 2) "daily") == 21 # 2)%Q) by reflexivity.
    rewrite Hc in Hk. unfold Qeq, inject_Z in Hk. cbn [Qnum Qden] in Hk. lia.
  - intros H. vm_compute in H. discriminate.
Qed.

(** C3, amended.  For principal > 0 and rate >= 0 the total payable is
    principal + principal * rate / 100.  For a loan of the store with that
    total, whose term comes from its dates, the payment screen divides by an
    integer period count >= 1 and shows the ceiling of total / count, and so
    does the loan detail view.  The creation form, for [days] as typed:
    for days <= 0 it reports count 0 and amount 0; for days > 0 it returns a
    period count >= 1 and the amount total / count, unrounded, of which it
    prints the ceiling.  That count is an integer when the number of days
    is whole, and for every number of days when the frequency is weekly,
    monthly or lump sum; otherwise it is the number of days itself, or 1
    for less than a day. *)
Theorem amortization (principal rate days : Q) (now : Z) (freq : string) (l : Loan) :
  (0 < principal)%Q -> (0 <= rate)%Q ->
  (total_payable l == LoansView.totalPayable principal rate)%Q ->
  let total := LoansView.totalPayable principal rate in
  (total == principal + principal * rate / 100)%Q /\
  (exists k, 1 <= k /\ PaymentsView.targetDivisor now l = k /\
     PaymentsView.amount (PaymentsView.getTargetPayment now l)
     = inject_Z (Qceiling (total_payable l / inject_Z k))) /\
  (exists k, 1 <= k /\
     LoansView.count (LoansView.currentInstallmentInfo now l) = inject_Z k /\
     LoansView.shownInstallment (LoansView.currentInstallmentInfo now l)
     = inject_Z (Qceiling (total_payable l / inject_Z k))) /\
  (let info := LoansView.getInstallmentInfo total days freq in
   if Qle_bool days 0 then info = LoansView.mkInfo 0 0
   else (1 <= LoansView.count info)%Q /\
        LoansView.amount info = (total / LoansView.count info)%Q /\
        LoansView.shownInstallment info
        = inject_Z (Qceiling (total / LoansView.count info)) /\
        (forall n, days = inject_Z n ->
           exists k, 1 <= k /\ LoansView.count info = inject_Z k) /\
        (freq = "weekly"%string \/ freq = "monthly"%string \/ freq = "lump_sum"%string ->
           exists k, 1 <= k /\ LoansView.count info = inject_Z k) /\
        (freq <> "weekly"%string -> freq <> "monthly"%string ->
         freq <> "lump_sum"%string ->
           LoansView.count info = if Qltb days 1 then 1%Q else days)).
Proof.
  intros Hp Hr Ht total.
  assert (Htot : (0 < total)%Q) by (now apply totalPayable_pos).
  assert (Hpos : (0 < total_payable l)%Q) by (now rewrite Ht).
  destruct (freqCase_named freq) as (Fw & Fm & Fl & Fo).
  split; [unfold total, LoansView.totalPayable; field|].
  split. { exists (PaymentsView.targetDivisor now l).
           split; [apply targetDivisor_ge_1 | split; reflexivity]. }
  split.
  { exists (periodCount (freqCase (orDaily (payment_frequency l)))
                        (LoansView.diffDays now l)).
    split; [apply periodCount_ge_1, LoansView_diffDays_ge_1|].
    unfold LoansView.currentInstallmentInfo.
    rewrite getInstallmentInfo_count by (trivial; apply LoansView_diffDays_ge_1).
    split; reflexivity. }
  cbv zeta. destruct (Qle_bool days 0) eqn:Hd.
  { apply getInstallmentInfo_guard. rewrite Hd. apply orb_true_r. }
  apply Qle_bool_false in Hd.
  destruct (getInstallmentInfo_divides total days freq Htot Hd) as [Hge Ham].
  split; [exact Hge|]. split; [exact Ham|].
  split; [unfold LoansView.shownInstallment, mathCeil; now rewrite Ham|].
  split; [|split].
  - intros n ->.
    assert (Hn : 1 <= n).
    { change 0%Q with (inject_Z 0) in Hd. rewrite <- Zlt_Qlt in Hd. lia. }
    exists (periodCount (freqCase freq) n). split; [now apply periodCount_ge_1|].
    now rewrite getInstallmentInfo_count.
  - intros Hf. apply getInstallmentInfo_whole; trivial.
    destruct Hf as [Hf | [Hf | Hf]]; auto.
  - intros Hw Hm Hl. apply getInstallmentInfo_daily; auto.
Qed.

(** The design's example, issued through the form: 1000 at 20 percent over
    ten days, paid daily, gives 1200 in ten installments of 120; over ten
    days and a half the form previews 10.5 installments of 115. *)
Lemma amortization_witness :
  exists l,
    LoansView.handleCreateLoan Sample.manila "L1" "B1" 1000 20 19723 10 "daily" = Some l /\
    (total_payable l == 1200)%Q /\
    PaymentsView.targetDivisor 0 l = 10 /\
    (PaymentsView.amount (PaymentsView.getTargetPayment 0 l) == 120)%Q /\
    LoansView.count (LoansView.currentInstallmentInfo 0 l) = 10%Q /\
    (LoansView.shownInstallment (LoansView.currentInstallmentInfo 0 l) == 120)%Q /\
    (LoansView.count
       (LoansView.getInstallmentInfo (LoansView.totalPayable 1000 20) (21 # 2) "daily")
     == 21 # 2)%Q /\
    (LoansView.shownInstallment
       (LoansView.getInstallmentInfo (LoansView.totalPayable 1000 20) (21 # 2) "daily")
     == 115)%Q.
Proof.
  eexists. split; [reflexivity|].
  match goal with |- (total_payable ?l == _)%Q /\ _ =>
    pose proof (amortization 1000 20 (21 # 2) 0 "daily" l
                  ltac:(reflexivity) ltac:(discriminate) ltac:(reflexivity))
      as (_ & (k & _ & Hk1 & Hk2) & _ & H4)
  end.
  cbv zeta in H4.
  change (Qle_bool (21 # 2) 0) with false in H4. cbv iota in H4.
  destruct H4 as (_ & _ & H4 & _ & _ & H5).
  specialize (H5 ltac:(discriminate) ltac:(discriminate) ltac:(discriminate)).
  split; [vm_compute; reflexivity|].
  split; [vm_compute; reflexivity|].
  split; [rewrite Hk2, <- Hk1; vm_compute; reflexivity|].
  split; [vm_compute; reflexivity|].
  split; [vm_compute; reflexivity|].
  split; [rewrite H5; reflexivity|].
  rewrite H4, H5. vm_compute. reflexivity.
Defined.

(** ** Clamping of the divisor *)

(** C8, as stated, fails: the creation form, asked for a loan of 1200 over 0
    days, takes the guard and reports a period count of 0. *)
Lemma installment_count_zero_days :
  LoansView.getInstallmentInfo 1200 0 "daily" = LoansView.mkInfo 0 0 /\
  ~ (1 <= LoansView.count (LoansView.getInstallmentInfo 1200 0 "daily"))%Q.
Proof. split; [reflexivity|]. vm_compute. intros H. now apply H. Qed.

(** C8, amended.  Every division of the installment computations is by a
    divisor >= 1: [getInstallmentInfo] either takes its guard (total <= 0 or
    days <= 0) and returns amount 0 and count 0 without dividing, or
    divides the total by a count >= 1, which for a daily loan over less
    than a day is the 1 that the clamp puts in place of the number of days;
    the payment screen and the dashboard divide by a count >= 1; and a term
    computed from equal start and due dates is 1. *)
Theorem divisor_clamped (total days : Q) (now : Z) (freq : string) (l : Loan) :
  (if Qle_bool total 0 || Qle_bool days 0
   then LoansView.getInstallmentInfo total days freq = LoansView.mkInfo 0 0
   else (1 <= LoansView.count (LoansView.getInstallmentInfo total days freq))%Q /\
        LoansView.amount (LoansView.getInstallmentInfo total days freq)
        = (total / LoansView.count (LoansView.getInstallmentInfo total days freq))%Q) /\
  ((0 < total)%Q -> (0 < days)%Q -> (days < 1)%Q ->
   LoansView.getInstallmentInfo total days "daily" = LoansView.mkInfo (total / 1) 1) /\
  1 <= PaymentsView.targetDivisor now l /\
  1 <= Dashboard.divisor now l /\
  1 <= LoansView.diffDays now l /\
  termDays (start_date l) (start_date l) = 1 /\
  LoansView.diffDays now
    (mkLoan (id l) (borrower_id l) (principal l) (interest_rate l) (total_payable l)
            (balance l) (start_date l) (Some (start_date l)) (status l)
            (payment_frequency l)) = 1.
Proof.
  split; [|split; [|repeat split]].
  - destruct (Qle_bool total 0 || Qle_bool days 0) eqn:G.
    + now apply getInstallmentInfo_guard.
    + apply orb_false_iff in G as [G1 G2].
      apply Qle_bool_false in G1, G2.
      now apply getInstallmentInfo_divides.
  - intros Ht Hd Hlt. unfold LoansView.getInstallmentInfo.
    replace (Qle_bool total 0) with false by (symmetry; now apply Qle_bool_false).
    replace (Qle_bool days 0) with false by (symmetry; now apply Qle_bool_false).
    cbn [orb]. change (freqCase "daily") with FDaily. cbv iota.
    apply Qltb_iff in Hlt. now rewrite Hlt.
  - apply targetDivisor_ge_1.
  - apply Dashboard_divisor_ge_1.
  - apply LoansView_diffDays_ge_1.
  - apply termDays_same.
  - rewrite LoansView_diffDays_termDays. cbn [start_date dueOrNow due_date].
    apply termDays_same.
Qed.

(** Half a day, paid daily: the clamp makes it one installment of the
    total. *)
Example clamp_half_day :
  LoansView.getInstallmentInfo 1200 (1 # 2) "daily" = LoansView.mkInfo (1200 / 1) 1.
Proof. reflexivity. Qed.

(** ** The collection worklist *)

Section WorklistFacts.

Variable tz : Z.

Lemma Status_eqb_eq (a b : Status) : Status_eqb a b = true <-> a = b.
Proof. destruct a, b; cbn; split; congruence. Qed.

(** The filter of the dashboard, condition by condition, in the terms of
    the code. *)
Lemma isScheduled_iff (selectedDate : Z) (l : Loan) :
  Dashboard.isScheduled tz selectedDate l = true <->
  (status l = active \/ status l = defaulted) /\
  localDay tz (start_date l) <= localDay tz (ofDateString selectedDate) /\
  match freqCaseOpt (payment_frequency l) with
  | FWeekly => getDay tz (start_date l) = getDay tz (ofDateString selectedDate)
  | FMonthly => getDate tz (start_date l) = getDate tz (ofDateString selectedDate)
  | FLumpSum => toDateString (Dashboard.dueDateOf l) = selectedDate
  | FDaily | FOther => True
  end.
Proof.
  unfold Dashboard.isScheduled.
  rewrite setHours0_ltb, getDay_setHours0, getDate_setHours0.
  destruct (Z.ltb_spec (localDay tz (ofDateString selectedDate))
                       (localDay tz (start_date l))) as [L | L].
  - destruct (status l); cbn; split; try discriminate; intros (_ & H & _); lia.
  - destruct (status l); cbn;
      try (split; [discriminate | intros ([H | H] & _); discriminate]);
      (destruct (freqCaseOpt (payment_frequency l));
       rewrite ?Z.eqb_eq; intuition auto).
Qed.

(** A weekly loan listed on one day is not listed on the next six. *)
Lemma weekly_other_days (selectedDate k : Z) (l : Loan) :
  freqCaseOpt (payment_frequency l) = FWeekly ->
  Dashboard.isScheduled tz selectedDate l = true ->
  1 <= k <= 6 ->
  Dashboard.isScheduled tz (selectedDate + k) l = false.
Proof.
  intros Hw H Hk.
  apply isScheduled_iff in H as (_ & _ & H). rewrite Hw in H.
  destruct (Dashboard.isScheduled tz (selectedDate + k) l) eqn:E; [|reflexivity].
  apply isScheduled_iff in E as (_ & _ & E). rewrite Hw in E.
  exfalso.
  assert (Hs : ofDateString (selectedDate + k) = ofDateString selectedDate + k * msPerDay)
    by (unfold ofDateString, MakeDate; lia).
  rewrite Hs, getDay_add_days, <- H in E.
  pose proof (getDay_range tz (start_date l)). div_lia.
Qed.

(** The local fields the dashboard reads are those of the calendar day. *)
Lemma getDay_dayOfWeek (t : Z) : getDay tz t = WorklistSpec.dayOfWeek (localDay tz t).
Proof. reflexivity. Qed.

Lemma getDate_dayOfMonth (t : Z) : getDate tz t = WorklistSpec.dayOfMonth (localDay tz t).
Proof. reflexivity. Qed.

(** At or east of Greenwich, for a loan with a due date: the filter of the
    dashboard is the rule of the design, read on the local day of the start
    date, the date part of the stored due date and the selected date. *)
Lemma isScheduled_dueOn (selectedDate : Z) (l : Loan) :
  0 <= tz < msPerDay ->
  (frequencyOf (payment_frequency l) = LumpSum -> due_date l <> None) ->
  Dashboard.isScheduled tz selectedDate l = true <->
  WorklistSpec.dueOn (status l) (frequencyOf (payment_frequency l))
    (localDay tz (start_date l)) (option_map Day (due_date l)) selectedDate.
Proof.
  intros Htz Hdue. rewrite isScheduled_iff, !getDay_dayOfWeek, !getDate_dayOfMonth.
  rewrite (localDay_ofDateString tz selectedDate Htz).
  unfold WorklistSpec.dueOn.
  pose proof (frequencyOf_freqCaseOpt (payment_frequency l)) as Hf.
  destruct (frequencyOf (payment_frequency l)); cbn [WorklistSpec.frequencyRule].
  - destruct Hf as [-> | ->]; reflexivity.
  - rewrite Hf. reflexivity.
  - rewrite Hf. reflexivity.
  - rewrite Hf. unfold Dashboard.dueDateOf, toDateString.
    destruct (due_date l) as [d|]; [|now destruct Hdue].
    cbn [option_map]. split; intros (H1 & H2 & H3); repeat split; congruence.
Qed.

Lemma scheduledCollections_loans (loans : list Loan) (payments : list Payment)
  (selectedDate now : Z) (l : Loan) :
  In l (map Dashboard.loan
          (Dashboard.scheduledCollections tz loans payments selectedDate now)) <->
  In l loans /\ Dashboard.isScheduled tz selectedDate l = true.
Proof.
  unfold Dashboard.scheduledCollections. rewrite map_map.
  cbn [Dashboard.loan Dashboard.annotate]. now rewrite map_id, filter_In.
Qed.

End WorklistFacts.

(** C4.  In a time zone at or east of Greenwich, as the lender's, and for a
    loan that has a due date when it is a lump sum: the loan is on the
    worklist of the selected date exactly when it is one of the loans, its
    status is active or defaulted, the calendar day of its start date is
    not after the selected date, and its frequency rule holds: weekly, the
    start day and the selected date are the same day of the week; monthly,
    the same day of the month; lump sum, the date part of the stored due
    date is the selected date; daily (and any value outside these),
    always.  A weekly loan listed on one date is off the list on each of
    the six dates that follow. *)
Theorem worklist_membership (tz : Z) (loans : list Loan) (payments : list Payment)
  (selectedDate now : Z) (l : Loan) :
  0 <= tz < msPerDay ->
  (frequencyOf (payment_frequency l) = LumpSum -> due_date l <> None) ->
  (In l (map Dashboard.loan
           (Dashboard.scheduledCollections tz loans payments selectedDate now)) <->
   In l loans /\
   WorklistSpec.dueOn (status l) (frequencyOf (payment_frequency l))
     (localDay tz (start_date l)) (option_map Day (due_date l)) selectedDate) /\
  (frequencyOf (payment_frequency l) = Weekly ->
   In l (map Dashboard.loan
           (Dashboard.scheduledCollections tz loans payments selectedDate now)) ->
   forall k, 1 <= k <= 6 ->
     ~ In l (map Dashboard.loan
               (Dashboard.scheduledCollections tz loans payments (selectedDate + k) now))).
Proof.
  intros Htz Hdue. split.
  - now rewrite scheduledCollections_loans, isScheduled_dueOn.
  - intros Hw H k Hk H'.
    apply scheduledCollections_loans in H as [_ H], H' as [_ H'].
    pose proof (frequencyOf_freqCaseOpt (payment_frequency l)) as Hf. rewrite Hw in Hf.
    rewrite (weekly_other_days tz selectedDate k l Hf H Hk) in H'. discriminate.
Qed.

(** In Manila, three loans released on Monday 1 January 2024: a weekly one,
    a lump sum due on 11 January and a weekly one that is paid.  On Monday
    8 January the worklist has the first and not the others; on Tuesday it
    does not have the first; on 11 January it has the lump sum. *)
Lemma worklist_membership_witness :
  let start := Sample.utc 2024 1 1 0 in
  let w := Sample.loan (Some "weekly"%string) start (Some (Sample.utc 2024 3 1 0)) in
  let s := Sample.loan (Some "lump_sum"%string) start (Some (Sample.utc 2024 1 11 0)) in
  let p := mkLoan "L3" "B1" 1000 20 1200 0 start (Some (Sample.utc 2024 3 1 0)) paid
                  (Some "weekly"%string) in
  let listed day := map Dashboard.loan
                        (Dashboard.scheduledCollections Sample.manila [p; s; w] [] day 0) in
  In w (listed 19730) /\ ~ In s (listed 19730) /\ ~ In p (listed 19730) /\
  ~ In w (listed 19731) /\ In s (listed 19733).
Proof.
  cbv zeta.
  set (w := Sample.loan (Some "weekly"%string) (Sample.utc 2024 1 1 0)
                        (Some (Sample.utc 2024 3 1 0))).
  set (s := Sample.loan (Some "lump_sum"%string) (Sample.utc 2024 1 1 0)
                        (Some (Sample.utc 2024 1 11 0))).
  set (p := mkLoan "L3" "B1" 1000 20 1200 0 (Sample.utc 2024 1 1 0)
                   (Some (Sample.utc 2024 3 1 0)) paid (Some "weekly"%string)).
  assert (Htz : 0 <= Sample.manila < msPerDay)
    by (vm_compute; split; [discriminate | reflexivity]).
  assert (Hdue : forall l : Loan, In l [p; s; w] ->
            frequencyOf (payment_frequency l) = LumpSum -> due_date l <> None)
    by (intros l [<- | [<- | [<- | []]]] _; discriminate).
  pose proof (fun day l H =>
                worklist_membership Sample.manila [p; s; w] [] day 0 l Htz (Hdue l H))
    as Hlist.
  assert (Hw : In w [p; s; w]) by (right; right; left; reflexivity).
  assert (Hs : In s [p; s; w]) by (right; left; reflexivity).
  assert (Hp : In p [p; s; w]) by (left; reflexivity).
  assert (W8 : In w (map Dashboard.loan
                       (Dashboard.scheduledCollections Sample.manila [p; s; w] [] 19730 0))).
  { apply (proj1 (Hlist 19730 w Hw)). split; [exact Hw|].
    split; [left; reflexivity|]. split; [vm_compute; discriminate | reflexivity]. }
  split; [exact W8|]. split; [|split; [|split]].
  - intros H. apply (proj1 (Hlist 19730 s Hs)) in H as (_ & _ & _ & H).
    vm_compute in H. discriminate.
  - intros H. apply (proj1 (Hlist 19730 p Hp)) in H as (_ & [H | H] & _); discriminate.
  - exact (proj2 (Hlist 19730 w Hw) eq_refl W8 1 ltac:(lia)).
  - apply (proj1 (Hlist 19733 s Hs)). split; [exact Hs|].
    split; [left; reflexivity|]. split; [vm_compute; discriminate | reflexivity].
Defined.

(** West of Greenwich the first hypothesis fails and so does the rule: five
    hours behind UTC, a weekly loan released on Monday 1 January 2024 (local
    time) is missing from the list of Monday 8 January and on the list of
    Tuesday 9 January, because the selected date, read as midnight UTC,
    falls on the evening before. *)
Example worklist_west_of_greenwich :
  let tz := - (5 * 3600000) in
  let l := Sample.loan (Some "weekly"%string) (Sample.utc 2024 1 1 12)
                       (Some (Sample.utc 2024 3 1 12)) in
  localDay tz (start_date l) = 19723 /\
  WorklistSpec.dayOfWeek 19723 = 1 /\ WorklistSpec.dayOfWeek 19730 = 1 /\
  Dashboard.isScheduled tz 19730 l = false /\
  Dashboard.isScheduled tz 19731 l = true.
Proof. cbv zeta. repeat split; vm_compute; reflexivity. Qed.

(** ** Borrower standing *)

Section StandingFacts.

Import Analytics.

Lemma filter_length_pos {A : Type} (f : A -> bool) (l : list A) :
  (0 <? length (filter f l))%nat = existsb f l.
Proof.
  induction l as [|x l IH]; [reflexivity|]. cbn [filter existsb].
  destruct (f x); cbn [length orb]; [reflexivity | exact IH].
Qed.

Lemma filter_length_all {A : Type} (f : A -> bool) (l : list A) :
  (length (filter f l) =? length l)%nat = forallb f l.
Proof.
  induction l as [|x l IH]; [reflexivity|]. cbn [filter forallb].
  pose proof (filter_length f l) as Hle.
  destruct (f x); cbn [length andb].
  - exact IH.
  - apply Nat.eqb_neq. lia.
Qed.

Lemma forallb_existsb_nonempty {A : Type} (f : A -> bool) (x : A) (l : list A) :
  forallb f (x :: l) = true -> existsb f (x :: l) = true.
Proof. cbn. destruct (f x); [reflexivity | discriminate]. Qed.

(** The conditionals of [analyzeStanding] are the decision list. *)
Lemma analyzeStanding_rules (today : Z) (loans : list Loan) :
  analyzeStanding today loans = standingByRules today loans.
Proof.
  unfold analyzeStanding, standingByRules, rule1, rule2, rule3, rule4, rule5.
  destruct loans as [|x l]; [reflexivity|].
  change (length (x :: l) =? 0)%nat with false. cbv iota.
  rewrite !filter_length_pos, filter_length_all.
  set (loans := x :: l).
  cbn [firstMatch].
  destruct (existsb isDefaultedLoan loans); [reflexivity|].
  destruct (existsb (isOverdueLoan today) loans); [reflexivity|].
  destruct (forallb isPaidLoan loans) eqn:Hall.
  - assert (He : existsb isPaidLoan loans = true)
      by (exact (forallb_existsb_nonempty _ _ _ Hall)).
    rewrite He. reflexivity.
  - rewrite andb_false_r.
    destruct (existsb isPaidLoan loans); reflexivity.
Qed.

Lemma isOverdueLoan_iff (today : Z) (l : Loan) :
  isOverdueLoan today l = true <->
  Types.status l = active /\ exists d, due_date l = Some d /\ d < today.
Proof.
  unfold isOverdueLoan. rewrite andb_true_iff.
  destruct (Types.status l), (due_date l) as [d|]; cbn;
    rewrite ?Z.ltb_lt; split;
    try (intros [? ?]; discriminate);
    try (intros [? (? & ? & ?)]; discriminate).
  - intros [_ H]. split; [reflexivity | now exists d].
  - intros [_ (d' & [= <-] & H)]. now split.
Qed.

End StandingFacts.

(** The conditions of the design's rules are those the code filters on. *)
Lemma existsb_same {A : Type} (f g : A -> bool) (l : list A) :
  (forall x, f x = g x) -> existsb f l = existsb g l.
Proof. intros H. induction l as [|x l IH]; cbn; [reflexivity | now rewrite H, IH]. Qed.

Lemma forallb_same {A : Type} (f g : A -> bool) (l : list A) :
  (forall x, f x = g x) -> forallb f l = forallb g l.
Proof. intros H. induction l as [|x l IH]; cbn; [reflexivity | now rewrite H, IH]. Qed.

Lemma howMany_filter (f g : Loan -> bool) (l : list Loan) :
  (forall x, f x = g x) -> StandingSpec.howMany f l = length (filter g l).
Proof.
  intros H. induction l as [|x l IH]; cbn; [reflexivity|].
  rewrite <- H. destruct (f x); cbn; now rewrite IH.
Qed.

Lemma paidLoan_code (l : Loan) : StandingSpec.paidLoan l = Analytics.isPaidLoan l.
Proof. unfold StandingSpec.paidLoan, Analytics.isPaidLoan. now destruct (status l). Qed.

Lemma defaultedLoan_code (l : Loan) :
  StandingSpec.defaultedLoan l = Analytics.isDefaultedLoan l.
Proof.
  unfold StandingSpec.defaultedLoan, Analytics.isDefaultedLoan. now destruct (status l).
Qed.

Lemma overdueLoan_code (today : Z) (l : Loan) :
  StandingSpec.overdueLoan today l = Analytics.isOverdueLoan today l.
Proof.
  unfold StandingSpec.overdueLoan, Analytics.isOverdueLoan.
  now destruct (status l), (due_date l).
Qed.

(** The result of [analyzeStanding] is the one the design's rules give. *)
Lemma analyzeStanding_classify (today : Z) (loans : list Loan) :
  (Analytics.status (Analytics.analyzeStanding today loans),
   Analytics.reason (Analytics.analyzeStanding today loans))
  = StandingSpec.classify today loans.
Proof.
  rewrite analyzeStanding_rules.
  unfold Analytics.standingByRules, Analytics.rule1, Analytics.rule2, Analytics.rule3,
    Analytics.rule4, Analytics.rule5, Analytics.rule6,
    StandingSpec.classify, StandingSpec.rules.
  rewrite (existsb_same _ _ loans defaultedLoan_code),
    (existsb_same _ _ loans (overdueLoan_code today)),
    (existsb_same _ _ loans paidLoan_code),
    (forallb_same _ _ loans paidLoan_code),
    (howMany_filter _ _ loans defaultedLoan_code),
    (howMany_filter _ _ loans (overdueLoan_code today)),
    (howMany_filter _ _ loans paidLoan_code).
  destruct loans as [|x l]; [reflexivity|].
  set (ls := x :: l).
  cbn [Analytics.firstMatch StandingSpec.firstMatching StandingSpec.noLoans negb andb].
  destruct (existsb Analytics.isDefaultedLoan ls); [reflexivity|].
  destruct (existsb (Analytics.isOverdueLoan today) ls); [reflexivity|].
  destruct (forallb Analytics.isPaidLoan ls); [reflexivity|].
  destruct (existsb Analytics.isPaidLoan ls); reflexivity.
Qed.

(** C5.  [analyzeStanding] returns the status and the reason of the first
    rule that applies, in the order: no loans, a defaulted loan, an active
    loan whose due date is before today (the instant of the call), all
    loans paid, some loan paid, otherwise neutral; the counts in the
    reasons are those of the loans the rule names.  A defaulted loan
    together with a paid loan gives Delinquent, with the defaulted count. *)
Theorem standing_first_match (today : Z) (loans : list Loan) :
  (Analytics.status (Analytics.analyzeStanding today loans),
   Analytics.reason (Analytics.analyzeStanding today loans))
  = StandingSpec.classify today loans /\
  (forall d p, status d = defaulted -> status p = paid ->
     (Analytics.status (Analytics.analyzeStanding today [d; p]),
      Analytics.reason (Analytics.analyzeStanding today [d; p]))
     = (Analytics.Delinquent, "Has 1 defaulted loan(s). High risk."%string)).
Proof.
  split; [apply analyzeStanding_classify|].
  intros d p Hd Hp. rewrite analyzeStanding_classify.
  unfold StandingSpec.classify, StandingSpec.rules.
  cbn [StandingSpec.noLoans StandingSpec.firstMatching existsb StandingSpec.howMany].
  unfold StandingSpec.defaultedLoan. rewrite Hd, Hp. reflexivity.
Qed.

(** A borrower seen at instant 5, by the loans on record: a defaulted and a
    paid loan; a paid loan and an active one due at 10; two paid loans; an
    active loan that was due at 3 and a paid one; an active loan due at
    10. *)
Lemma standing_first_match_witness :
  let d := mkLoan "L1" "B1" 1000 20 1200 700 0 (Some 10) defaulted None in
  let p := mkLoan "L2" "B1" 1000 20 1200 0 0 (Some 10) paid None in
  let a := mkLoan "L3" "B1" 1000 20 1200 900 0 (Some 10) active None in
  let o := mkLoan "L4" "B1" 1000 20 1200 900 0 (Some 3) active None in
  let result loans := (Analytics.status (Analytics.analyzeStanding 5 loans),
                       Analytics.reason (Analytics.analyzeStanding 5 loans)) in
  result [d; p] = (Analytics.Delinquent, "Has 1 defaulted loan(s). High risk."%string) /\
  result [p; a] = (Analytics.GoodPayer, "Has successfully paid 1 loan(s)."%string) /\
  result [p; p] = (Analytics.GoodPayer, "Perfect payment history. All loans paid."%string) /\
  result [o; p] = (Analytics.Delinquent, "Has 1 overdue active loan(s)."%string) /\
  result [a] = (Analytics.Neutral,
                "Active loans exist but no full payment history yet."%string) /\
  result [] = (Analytics.New, "No history yet."%string).
Proof.
  cbv zeta.
  repeat apply conj;
    match goal with
    | |- (Analytics.status (Analytics.analyzeStanding ?t ?ls), _) = _ =>
        rewrite (proj1 (standing_first_match t ls)); reflexivity
    end.
Defined.

(** ** Reconciling payments *)

Lemma fold_amounts_acc (ps : list Payment) :
  forall acc,
  (fold_left (fun a curr => a + amount curr) ps acc
   == acc + fold_left (fun a curr => a + amount curr) ps 0)%Q.
Proof.
  induction ps as [|p ps IH]; intros acc; cbn [fold_left].
  - ring.
  - rewrite IH, (IH (0 + amount p)%Q). ring.
Qed.

(** The portal adds up the payments dated on the reference day. *)
Lemma amountPaidToday_collected (now : Z) (paymentHistory : list Payment) :
  (Portal.amountPaidToday now paymentHistory
   == collectedOn (toDateString now) paymentHistory)%Q.
Proof.
  unfold Portal.amountPaidToday, Portal.paymentsToday, sumAmounts.
  induction paymentHistory as [|p ps IH]; [reflexivity|].
  cbn [filter collectedOn].
  destruct (toDateString (payment_date p) =? toDateString now); [|exact IH].
  cbn [fold_left]. rewrite fold_amounts_acc, IH. ring.
Qed.

(** The reconciliation of the portal is the stated one: the sum of the
    day's payments, the target (the amount of the first schedule entry) less
    that sum floored at 0, and paid in full when the sum reaches the
    target. *)
Lemma portal_reconciliation (schedule : list Portal.Entry) (now : Z)
  (paymentHistory : list Payment) :
  let target := Portal.currentInstallmentAmount schedule in
  let collected := collectedOn (toDateString now) paymentHistory in
  (Portal.amountPaidToday now paymentHistory == collected)%Q /\
  (Portal.remainingDueToday schedule now paymentHistory == Qmax 0 (target - collected))%Q /\
  (Portal.isFullyPaidToday schedule now paymentHistory = true <-> (target <= collected)%Q).
Proof.
  cbv zeta. pose proof (amountPaidToday_collected now paymentHistory) as H.
  split; [exact H|]. split.
  - unfold Portal.remainingDueToday. now rewrite H.
  - unfold Portal.isFullyPaidToday, Qgeb. rewrite Qle_bool_iff. now rewrite H.
Qed.

(** C6 (fails at the dashboard).  A ten-day daily loan of 1200, so with a
    period target of 120, and two payments, of 50 and of 30, on the selected
    day: 80 was collected, less than the target.  The dashboard reports 50
    as paid and marks the loan paid; the portal reports 80 paid, 40
    remaining, not paid in full. *)
Theorem dashboard_reconciles_first_payment_only :
  let l := Sample.tenDays (Some "daily"%string) in
  let now := Sample.utc 2024 1 5 3 in
  let ps := [mkPayment "L1" 50 (Sample.utc 2024 1 5 1);
             mkPayment "L1" 30 (Sample.utc 2024 1 5 2)] in
  let c := Dashboard.annotate ps (toDateString now) now l in
  let s := Portal.schedule Sample.manila now (Some l) in
  (Dashboard.targetAmount c == 120)%Q /\
  (collectedOn (toDateString now) ps == 80)%Q /\
  (Dashboard.paidAmount c == 50)%Q /\
  Dashboard.isPaid c = true /\
  (Portal.currentInstallmentAmount s == 120)%Q /\
  (Portal.amountPaidToday now ps == 80)%Q /\
  (Portal.remainingDueToday s now ps == 40)%Q /\
  Portal.isFullyPaidToday s now ps = false.
Proof. cbv zeta. repeat split; vm_compute; reflexivity. Qed.

(** ** Applying a payment *)

Section PaymentFacts.

Import PaymentsView.

Lemma newBalance_nonneg (loan : Loan) (numAmount : Q) :
  (0 <= newBalance loan numAmount)%Q.
Proof. unfold newBalance. apply Q.le_max_l. Qed.

Lemma newBalance_le (loan : Loan) (numAmount : Q) :
  (0 <= numAmount)%Q -> (0 <= balance loan)%Q ->
  (newBalance loan numAmount <= balance loan)%Q.
Proof.
  intros Ha Hb. unfold newBalance. apply Q.max_lub; [exact Hb | lra].
Qed.

Lemma newStatus_paid (loan : Loan) (numAmount : Q) :
  newStatus loan numAmount = paid <-> (newBalance loan numAmount == 0)%Q.
Proof.
  unfold newStatus. destruct (Qeq_bool (newBalance loan numAmount) 0) eqn:E.
  - apply Qeq_bool_iff in E. tauto.
  - apply Qeq_bool_neq in E. split; [discriminate | contradiction].
Qed.

Lemma newStatus_active (loan : Loan) (numAmount : Q) :
  newStatus loan numAmount = active <-> ~ (newBalance loan numAmount == 0)%Q.
Proof.
  unfold newStatus. destruct (Qeq_bool (newBalance loan numAmount) 0) eqn:E.
  - apply Qeq_bool_iff in E. split; [discriminate | contradiction].
  - apply Qeq_bool_neq in E. tauto.
Qed.

(** The rows after a successful [handleSubmit]. *)
Lemma handleSubmit_rows (db : Store) (selectedLoanId : string) (numAmount : Q)
  (now : Z) (loan : Loan) :
  selectedLoanId <> ""%string ->
  find (fun l => String.eqb (id l) selectedLoanId) (loans db) = Some loan ->
  handleSubmit db selectedLoanId (Some numAmount) now true true
  = mkStore
      (map (fun l => if String.eqb (id l) selectedLoanId
                     then updateLoan (newBalance loan numAmount)
                                     (newStatus loan numAmount) l
                     else l) (loans db))
      (payments db ++ [mkPayment selectedLoanId numAmount now]).
Proof.
  intros Hsel Hfind. unfold handleSubmit.
  apply String.eqb_neq in Hsel. rewrite Hsel, Hfind. reflexivity.
Qed.

End PaymentFacts.

(** C9.  Recording a payment of amount A against the loan with balance B
    appends the payment and sets, on the loan's row, the balance to
    max(0, B - A) and the status to paid exactly when that balance is 0, to
    active otherwise.  The new balance is never negative and, for A >= 0 and
    B >= 0, never above B. *)
Theorem payment_application (db : PaymentsView.Store) (selectedLoanId : string)
  (A : Q) (now : Z) (loan : Loan) :
  selectedLoanId <> ""%string ->
  find (fun l => String.eqb (id l) selectedLoanId) (PaymentsView.loans db) = Some loan ->
  let db' := PaymentsView.handleSubmit db selectedLoanId (Some A) now true true in
  let B := balance loan in
  PaymentsView.payments db'
    = PaymentsView.payments db ++ [mkPayment selectedLoanId A now] /\
  (exists l', In l' (PaymentsView.loans db') /\ id l' = selectedLoanId) /\
  (forall l', In l' (PaymentsView.loans db') -> id l' = selectedLoanId ->
     balance l' = Qmax 0 (B - A) /\
     (0 <= balance l')%Q /\
     ((0 <= A)%Q -> (0 <= B)%Q -> (balance l' <= B)%Q) /\
     (status l' = paid <-> (balance l' == 0)%Q) /\
     (status l' = active <-> ~ (balance l' == 0)%Q)).
Proof.
  intros Hsel Hfind db' B. subst db'.
  rewrite (handleSubmit_rows db selectedLoanId A now loan Hsel Hfind).
  cbn [PaymentsView.payments PaymentsView.loans].
  split; [reflexivity|]. split.
  - apply find_some in Hfind as [Hin Hid].
    exists (PaymentsView.updateLoan (PaymentsView.newBalance loan A)
                                    (PaymentsView.newStatus loan A) loan).
    split.
    + apply in_map_iff. exists loan. now rewrite Hid.
    + cbn. now apply String.eqb_eq.
  - intros l' Hin Hid. apply in_map_iff in Hin as (l & Hl & _).
    destruct (String.eqb (id l) selectedLoanId) eqn:E.
    + subst l'. cbn [balance status PaymentsView.updateLoan].
      split; [reflexivity|].
      split; [apply newBalance_nonneg|].
      split; [apply newBalance_le|].
      split; [apply newStatus_paid | apply newStatus_active].
    + subst l'. apply String.eqb_neq in E. contradiction.
Qed.

(** A payment of 500 on a balance of 1200, then one of 700 on what is left. *)
Lemma payment_application_witness :
  let l := Sample.tenDays (Some "daily"%string) in
  let db := PaymentsView.mkStore [l] [] in
  let db1 := PaymentsView.handleSubmit db "L1" (Some 500%Q) 0 true true in
  let db2 := PaymentsView.handleSubmit db1 "L1" (Some 700%Q) 1 true true in
  (forall l', In l' (PaymentsView.loans db1) -> id l' = "L1"%string ->
     (balance l' == 700)%Q /\ status l' = active) /\
  map status (PaymentsView.loans db2) = [paid].
Proof.
  cbv zeta. split; [|vm_compute; reflexivity].
  intros l' Hin Hid.
  destruct (payment_application
              (PaymentsView.mkStore [Sample.tenDays (Some "daily"%string)] [])
              "L1" 500 0 (Sample.tenDays (Some "daily"%string))
              ltac:(discriminate) eq_refl) as (_ & _ & H).
  destruct (H l' Hin Hid) as (Hb & _ & _ & _ & Ha).
  split.
  - rewrite Hb. vm_compute. reflexivity.
  - apply Ha. rewrite Hb. vm_compute. discriminate.
Defined.

(** ** Loans offered for collection *)

Lemma Qgtb_iff (a b : Q) : Qgtb a b = true <-> (b < a)%Q.
Proof.
  unfold Qgtb. rewrite negb_true_iff. apply Qle_bool_false.
Qed.

(** C10.  The loans offered by the payment screen are exactly the loans with
    a balance above 0, whatever their status: a defaulted loan with a
    positive balance is offered, an active loan with balance 0 is not. *)
Theorem offered_loans (loans : list Loan) (l : Loan) :
  (In l (PaymentsView.activeLoans loans) <-> In l loans /\ (0 < balance l)%Q) /\
  (In l loans -> status l = defaulted -> (0 < balance l)%Q ->
     In l (PaymentsView.activeLoans loans)) /\
  (status l = active -> (balance l == 0)%Q ->
     ~ In l (PaymentsView.activeLoans loans)).
Proof.
  assert (H : In l (PaymentsView.activeLoans loans) <-> In l loans /\ (0 < balance l)%Q).
  { unfold PaymentsView.activeLoans. now rewrite filter_In, Qgtb_iff. }
  split; [exact H|]. split.
  - intros Hin _ Hb. apply H. now split.
  - intros _ Hb Hin. apply H in Hin as [_ Hpos]. rewrite Hb in Hpos.
    now apply Qlt_irrefl in Hpos.
Qed.

Lemma offered_loans_witness :
  let d := mkLoan "L1" "B1" 1000 20 1200 300 0 (Some 10) defaulted None in
  let a := mkLoan "L2" "B1" 1000 20 1200 0 0 (Some 10) active None in
  In d (PaymentsView.activeLoans [d; a]) /\ ~ In a (PaymentsView.activeLoans [d; a]).
Proof.
  cbv zeta. split.
  - apply (proj1 (proj2 (offered_loans _ _))); [now left | reflexivity | reflexivity].
  - apply (proj2 (proj2 (offered_loans _ _))); reflexivity.
Defined.

(** * Further properties *)

(** ** The dates of the schedule, period by period *)

(** For every loan other than a monthly loan released after the 28th of a
    month, the dates of the schedule are those of the design, where [due]
    is the loan's due date (the current time when it has none): for a lump
    sum the single date [due]; otherwise the first date is one period (a
    day, seven days, a calendar month) after the start date, each further
    date one period after the one before, no date is after [due], there are
    at most 1000, and where there are fewer the date one period after the
    last is after [due].  Every date is after the start date. *)
Theorem schedule_follows_periods (tz now : Z) (l : Loan) :
  (frequencyOf (payment_frequency l) = Monthly -> getDate tz (start_date l) <= 28) ->
  let due := match due_date l with Some d => d | None => now end in
  let ds := map (fun e => Portal.date (Portal.dated e)) (Portal.schedule tz now (Some l)) in
  ScheduleSpec.isSchedule tz (frequencyOf (payment_frequency l)) (start_date l) due ds /\
  (frequencyOf (payment_frequency l) <> LumpSum -> Forall (fun d => start_date l < d) ds).
Proof.
  intros H28 due ds. split; [now apply schedule_isSchedule|].
  intros Hl. apply frequencyOf_not_lump in Hl.
  unfold ds. rewrite schedule_dates_map, scheduleDates_loop by exact Hl.
  apply Forall_forall. intros d Hd. apply in_map_iff in Hd as (e & <- & He).
  apply scheduleLoop_ge in He; [|exact Hl].
  pose proof (incrementDate_gt tz (orDaily (payment_frequency l)) (dueOrNow now l)
                (start_date l) Hl).
  lia.
Qed.

(** A monthly loan released in Manila on 15 January 2024 and due on 15
    April: entries on the 15th of February, March and April. *)
Lemma schedule_follows_periods_witness :
  let l := Sample.loan (Some "monthly"%string) (Sample.utc 2024 1 15 0)
                       (Some (Sample.utc 2024 4 15 0)) in
  map (fun e => Portal.date (Portal.dated e)) (Portal.schedule Sample.manila 0 (Some l))
  = [Sample.utc 2024 2 15 0; Sample.utc 2024 3 15 0; Sample.utc 2024 4 15 0] /\
  ScheduleSpec.isSchedule Sample.manila Monthly (Sample.utc 2024 1 15 0)
    (Sample.utc 2024 4 15 0)
    (map (fun e => Portal.date (Portal.dated e)) (Portal.schedule Sample.manila 0 (Some l))).
Proof.
  cbv zeta. split; [vm_compute; reflexivity|].
  exact (proj1 (schedule_follows_periods Sample.manila 0
                  (Sample.loan (Some "monthly"%string) (Sample.utc 2024 1 15 0)
                               (Some (Sample.utc 2024 4 15 0)))
                  (fun _ => ltac:(vm_compute; discriminate)))).
Defined.

(** ** Order and amounts of the schedule *)

Section ScheduleOrder.

Import Portal ScheduleLoop ScheduleSpec.

Variable tz : Z.



Lemma scheduleLoop_sorted (freq : string) (end_ today : Z) (fuel : nat) :
  freqCase freq <> FLumpSum ->
  forall current,
  StronglySorted Z.lt (map date (scheduleLoop tz freq end_ today fuel current)).
Proof.
  intros Hf. induction fuel as [|fuel IH]; intros current; [constructor|].
  cbn [scheduleLoop]. destruct (current <=? end_); [|constructor].
  cbn [map date]. constructor; [apply IH|].
  apply Forall_forall. intros d Hd. apply in_map_iff in Hd as (e & <- & He).
  apply scheduleLoop_ge in He; [|exact Hf].
  pose proof (incrementDate_gt tz freq end_ current Hf). lia.
Qed.

End ScheduleOrder.

(** The schedule lists its dates earliest first, without repetition. *)
Theorem schedule_strictly_increasing (tz now : Z) (l : Loan) :
  StronglySorted Z.lt
    (map (fun e => Portal.date (Portal.dated e)) (Portal.schedule tz now (Some l))).
Proof.
  rewrite schedule_dates_map. unfold Portal.scheduleDates.
  destruct (freqCase (orDaily (payment_frequency l))) eqn:E;
    try (apply scheduleLoop_sorted; congruence).
  cbn. repeat constructor.
Qed.

Lemma Qceiling_bounds (x : Q) : (x <= inject_Z (Qceiling x) < x + 1)%Q.
Proof.
  split; [apply Qle_ceiling|].
  pose proof (Qceiling_lt x) as H.
  unfold Z.sub in H. rewrite inject_Z_plus in H.
  change (inject_Z (- (1))) with (- (1))%Q in H. lra.
Qed.

(** Every entry of the schedule carries the ceiling of the total over the
    number of entries. *)
Lemma schedule_amount_eq (tz now : Z) (l : Loan) (e : Portal.Entry) :
  In e (Portal.schedule tz now (Some l)) ->
  Portal.amount e
  = mathCeil (total_payable l
              / inject_Z (Z.of_nat (length (Portal.schedule tz now (Some l))))).
Proof.
  intros He. unfold Portal.schedule in *.
  apply in_map_iff in He as (d & <- & Hd). cbn [Portal.amount].
  rewrite length_map.
  assert (Hpos : (0 < length (Portal.scheduleDates tz now l))%nat)
    by (destruct (Portal.scheduleDates tz now l); [contradiction | cbn; lia]).
  unfold Portal.amountPerPayment. cbv zeta.
  replace (Z.of_nat (length (Portal.scheduleDates tz now l)) =? 0) with false
    by (symmetry; apply Z.eqb_neq; lia).
  reflexivity.
Qed.

(** Every entry of a schedule of n entries asks for the same amount, the
    ceiling of total / n: together the n entries cover the total and exceed
    it by less than n. *)
Theorem schedule_amounts_cover_total (tz now : Z) (l : Loan) :
  let s := Portal.schedule tz now (Some l) in
  let n := inject_Z (Z.of_nat (length s)) in
  forall e, In e s ->
    Portal.amount e = mathCeil (total_payable l / n) /\
    (total_payable l <= n * Portal.amount e < total_payable l + n)%Q.
Proof.
  intros s n e He. rewrite (schedule_amount_eq tz now l e He). fold s. fold n.
  split; [reflexivity|].
  assert (Hk : (0 < n)%Q).
  { unfold n. change 0%Q with (inject_Z 0). rewrite <- Zlt_Qlt.
    destruct s; [contradiction | cbn [length]; lia]. }
  unfold mathCeil.
  pose proof (Qceiling_bounds (total_payable l / n)) as [Hlo Hhi].
  set (c := inject_Z (Qceiling (total_payable l / n))) in *.
  assert (Heq : (n * (total_payable l / n) == total_payable l)%Q)
    by (field; lra).
  split.
  - rewrite <- Heq. apply Qmult_le_l; assumption.
  - apply Qlt_le_trans with (n * (total_payable l / n + 1))%Q.
    + apply Qmult_lt_l; assumption.
    + rewrite Qmult_plus_distr_r, Heq. lra.
Qed.

(** The ten-day daily loan of 1200: ten entries of 120. *)
Lemma schedule_amounts_cover_total_witness :
  let s := Portal.schedule Sample.manila 0 (Some (Sample.tenDays (Some "daily"%string))) in
  let e := nth 0 s (Portal.mkEntry (Portal.mkDated 0 false false) 0) in
  In e s /\ (1200 <= 10 * Portal.amount e < 1210)%Q.
Proof.
  cbv zeta.
  set (e := nth 0 (Portal.schedule Sample.manila 0
                     (Some (Sample.tenDays (Some "daily"%string))))
                  (Portal.mkEntry (Portal.mkDated 0 false false) 0)).
  assert (He : In e (Portal.schedule Sample.manila 0
                       (Some (Sample.tenDays (Some "daily"%string)))))
    by (vm_compute; left; reflexivity).
  split; [exact He|].
  exact (proj2 (schedule_amounts_cover_total Sample.manila 0
                  (Sample.tenDays (Some "daily"%string)) e He)).
Defined.

(** ** Schedules with a period of fixed length *)

Section FixedStep.

Import Portal ScheduleLoop ScheduleSpec.

Variable tz : Z.

Lemma addPeriod_fixed (f : FreqCase) (d : Z) :
  f <> FMonthly -> addPeriod tz f d = d + stepDays f * msPerDay.
Proof. intros H. destruct f; cbn [addPeriod stepDays]; congruence. Qed.

Lemma stepDays_pos (f : FreqCase) : 0 < stepDays f * msPerDay.
Proof. destruct f; reflexivity. Qed.

Lemma scheduleLoop_fixed (freq : string) (end_ today : Z) (fuel : nat) :
  freqCase freq <> FLumpSum -> freqCase freq <> FMonthly ->
  forall current,
  map date (scheduleLoop tz freq end_ today fuel current)
  = map (fun k => current + Z.of_nat k * (stepDays (freqCase freq) * msPerDay))
        (seq 0 (Z.to_nat (Z.min (Z.of_nat fuel)
                   ((end_ - current) / (stepDays (freqCase freq) * msPerDay) + 1)))).
Proof.
  intros Hl Hm.
  pose proof (stepDays_pos (freqCase freq)) as Hpos.
  set (step := stepDays (freqCase freq) * msPerDay) in *.
  induction fuel as [|fuel IH]; intros current.
  - cbn [scheduleLoop map]. replace (Z.to_nat _) with 0%nat by lia. reflexivity.
  - cbn [scheduleLoop].
    destruct (Z.leb_spec current end_) as [Hle | Hgt].
    + assert (Hq : 0 <= (end_ - current) / step) by (apply Z.div_pos; lia).
      assert (Hshift : (end_ - (current + step)) / step + 1 = (end_ - current) / step).
      { replace (end_ - (current + step)) with (end_ - current + (-1) * step) by lia.
        rewrite Z.div_add by lia. lia. }
      replace (Z.to_nat (Z.min (Z.of_nat (S fuel)) ((end_ - current) / step + 1)))
        with (S (Z.to_nat (Z.min (Z.of_nat fuel) ((end_ - current) / step)))) by lia.
      cbn [seq map date]. f_equal; [lia|].
      rewrite incrementDate_addPeriod, addPeriod_fixed by assumption. fold step.
      rewrite IH, Hshift, <- seq_shift, map_map.
      apply map_ext. intros k. lia.
    + assert (Hq : (end_ - current) / step + 1 <= 0).
      { assert ((end_ - current) / step < 0) by (apply Z.div_lt_upper_bound; lia). lia. }
      replace (Z.to_nat _) with 0%nat by lia. reflexivity.
Qed.

Lemma scheduleLoop_isToday (freq : string) (end_ now : Z) (fuel : nat) :
  forall current e,
  In e (scheduleLoop tz freq end_ (setHours0 tz now) fuel current) ->
  isToday e = (localDay tz (date e) =? localDay tz now).
Proof.
  induction fuel as [|fuel IH]; intros current e He; [contradiction|].
  cbn [scheduleLoop] in He. destruct (current <=? end_); [|contradiction].
  destruct He as [<- | He]; [|now apply IH in He].
  cbn [isToday date]. apply setHours0_eqb.
Qed.

End FixedStep.

(** The dates of a schedule that advances by a fixed number of days. *)
Lemma fixed_step_dates (tz now : Z) (l : Loan) :
  let f := freqCase (orDaily (payment_frequency l)) in
  let step := ScheduleSpec.stepDays f * msPerDay in
  let n := Z.to_nat (Z.min 1000 ((dueOrNow now l - start_date l) / step)) in
  f <> FLumpSum -> f <> FMonthly ->
  map (fun e => Portal.date (Portal.dated e)) (Portal.schedule tz now (Some l))
  = map (fun k => start_date l + Z.of_nat (S k) * step) (seq 0 n).
Proof.
  intros f step n Hl Hm. rewrite schedule_dates_map. unfold Portal.scheduleDates.
  assert (E : map Portal.date
                (Portal.scheduleLoop tz (orDaily (payment_frequency l)) (dueOrNow now l)
                   (setHours0 tz now) 1000
                   (Portal.incrementDate tz (orDaily (payment_frequency l))
                      (dueOrNow now l) (start_date l)))
              = map (fun k => start_date l + Z.of_nat (S k) * step) (seq 0 n)).
  { rewrite scheduleLoop_fixed by assumption.
    rewrite incrementDate_addPeriod, addPeriod_fixed by assumption.
    fold f. fold step.
    pose proof (stepDays_pos f) as Hpos. fold step in Hpos.
    replace ((dueOrNow now l - (start_date l + step)) / step + 1)
      with ((dueOrNow now l - start_date l) / step).
    2:{ replace (dueOrNow now l - (start_date l + step))
          with (dueOrNow now l - start_date l + (-1) * step) by lia.
        rewrite Z.div_add by lia. lia. }
    change (Z.of_nat 1000) with 1000. fold n.
    apply map_ext. intros k. lia. }
  fold f. destruct f; try exact E; congruence.
Qed.

(** A daily schedule (weekly: read 7 days for a day) has as many entries as
    whole days fit between the start and the due date, 1000 at most and none
    when the due date is less than a day after the start; the k-th entry is
    exactly k days after the start, at the start's time of day. *)
Theorem fixed_step_schedule (tz now : Z) (l : Loan) :
  let f := freqCase (orDaily (payment_frequency l)) in
  let step := ScheduleSpec.stepDays f * msPerDay in
  let n := Z.to_nat (Z.min 1000 ((dueOrNow now l - start_date l) / step)) in
  f <> FLumpSum -> f <> FMonthly ->
  map (fun e => Portal.date (Portal.dated e)) (Portal.schedule tz now (Some l))
  = map (fun k => start_date l + Z.of_nat (S k) * step) (seq 0 n).
Proof. exact (fixed_step_dates tz now l). Qed.

(** The weekly loan of ten days: one entry, a week after the start. *)
Lemma fixed_step_schedule_witness :
  map (fun e => Portal.date (Portal.dated e))
      (Portal.schedule Sample.manila 0 (Some (Sample.tenDays (Some "weekly"%string))))
  = [Sample.utc 2024 1 8 0].
Proof.
  rewrite (fixed_step_schedule Sample.manila 0 (Sample.tenDays (Some "weekly"%string))
             ltac:(discriminate) ltac:(discriminate)).
  reflexivity.
Defined.

(** The portal shows a daily or weekly loan as due today exactly when the
    loan is active and today is the calendar day of one of its entries: k
    periods after the start day, for a k from 1 up to the number of
    entries. *)
Theorem isDueToday_fixed_step (tz now : Z) (l : Loan) :
  let f := freqCase (orDaily (payment_frequency l)) in
  let step := ScheduleSpec.stepDays f * msPerDay in
  f <> FLumpSum -> f <> FMonthly ->
  (Portal.isDueToday tz now (Some l) = true <->
   status l = active /\
   exists k, 1 <= k <= Z.min 1000 ((dueOrNow now l - start_date l) / step) /\
             localDay tz now = localDay tz (start_date l) + k * ScheduleSpec.stepDays f).
Proof.
  intros f step Hl Hm.
  pose proof (fixed_step_dates tz now l Hl Hm) as Hdates.
  rewrite schedule_dates_map in Hdates. fold f in Hdates. fold step in Hdates.
  set (n := Z.to_nat (Z.min 1000 ((dueOrNow now l - start_date l) / step))) in *.
  assert (Hloop : forall e, In e (Portal.scheduleDates tz now l) ->
            Portal.isToday e = (localDay tz (Portal.date e) =? localDay tz now)).
  { intros e He. unfold Portal.scheduleDates in He. fold f in He.
    destruct f; try congruence; now apply scheduleLoop_isToday in He. }
  unfold Portal.isDueToday. rewrite andb_true_iff, Status_eqb_eq, existsb_exists.
  apply and_iff_compat_l. unfold Portal.schedule. split.
  - intros (e & He & Ht). apply in_map_iff in He as (d & <- & Hd).
    cbn [Portal.dated] in Ht. rewrite (Hloop d Hd) in Ht. apply Z.eqb_eq in Ht.
    assert (Hin : In (Portal.date d) (map Portal.date (Portal.scheduleDates tz now l)))
      by now apply in_map.
    rewrite Hdates in Hin. apply in_map_iff in Hin as (k & Hk & Hseq).
    apply in_seq in Hseq. unfold n in Hseq. exists (Z.of_nat (S k)). split; [lia|].
    rewrite <- Ht, <- Hk. unfold step.
    replace (Z.of_nat (S k) * (ScheduleSpec.stepDays f * msPerDay))
      with (Z.of_nat (S k) * ScheduleSpec.stepDays f * msPerDay) by lia.
    apply localDay_add_days.
  - intros (k & Hk & Hday).
    assert (Hin : In (start_date l + k * step)
                     (map Portal.date (Portal.scheduleDates tz now l))).
    { rewrite Hdates. apply in_map_iff. exists (Z.to_nat (k - 1)). split.
      - replace (Z.of_nat (S (Z.to_nat (k - 1)))) with k by lia. reflexivity.
      - apply in_seq. unfold n. lia. }
    apply in_map_iff in Hin as (d & Hd & Hind).
    exists (Portal.mkEntry d (Portal.amountPerPayment l (Portal.scheduleDates tz now l))).
    split; [apply in_map_iff; now exists d|].
    cbn [Portal.dated]. rewrite (Hloop d Hind), Hd. apply Z.eqb_eq.
    rewrite Hday. unfold step.
    replace (k * (ScheduleSpec.stepDays f * msPerDay))
      with (k * ScheduleSpec.stepDays f * msPerDay) by lia.
    apply localDay_add_days.
Qed.

(** The ten-day daily loan released on 1 January, looked at on 5 January. *)
Lemma isDueToday_fixed_step_witness :
  Portal.isDueToday Sample.manila (Sample.utc 2024 1 5 3)
    (Some (Sample.tenDays (Some "daily"%string))) = true.
Proof.
  apply (isDueToday_fixed_step Sample.manila (Sample.utc 2024 1 5 3)
           (Sample.tenDays (Some "daily"%string)) ltac:(discriminate) ltac:(discriminate)).
  split; [reflexivity|]. exists 4. split; [vm_compute; split; discriminate | reflexivity].
Defined.

(** ** From the creation form to the other screens *)

Lemma ceilDiv_mul (k b : Z) : 0 < b -> ceilDiv (k * b) b = k.
Proof.
  intros Hb. unfold ceilDiv.
  replace (- (k * b)) with ((- k) * b) by lia. rewrite Z.div_mul by lia. lia.
Qed.

Lemma termDays_of_days (start n : Z) :
  termDays start (start + n * msPerDay) = Z.max 1 (Z.abs n).
Proof.
  unfold termDays. replace (start + n * msPerDay - start) with (n * msPerDay) by lia.
  rewrite Z.abs_mul. change (Z.abs msPerDay) with msPerDay.
  now rewrite ceilDiv_mul by reflexivity.
Qed.

Lemma freqCase_orDaily (freq : string) (days : Z) :
  periodCount (freqCase (orDaily (Some freq))) days = periodCount (freqCase freq) days.
Proof.
  cbn [orDaily]. destruct (String.eqb_spec freq ""); [subst; reflexivity | reflexivity].
Qed.

Lemma getInstallmentInfo_orDaily (total days : Q) (freq : string) :
  LoansView.getInstallmentInfo total days (orDaily (Some freq))
  = LoansView.getInstallmentInfo total days freq.
Proof.
  cbn [orDaily]. destruct (String.eqb_spec freq ""); [subst; reflexivity | reflexivity].
Qed.

Lemma handleCreateLoan_frequency (tz : Z) (newId borrowerId : string)
  (principalNum interestRate : Q) (releaseDate : Z) (daysToPay : Q)
  (paymentFrequency : string) (l : Loan) :
  LoansView.handleCreateLoan tz newId borrowerId principalNum interestRate
    releaseDate daysToPay paymentFrequency = Some l ->
  payment_frequency l = Some paymentFrequency /\ status l = active /\
  balance l = total_payable l /\ id l = newId /\ borrower_id l = borrowerId.
Proof.
  unfold LoansView.handleCreateLoan. destruct (_ || _); [discriminate|].
  intros [= <-]. repeat split.
Qed.

Lemma Qfloor_inject_add (a : Z) (q : Q) : Qfloor (inject_Z a + q) = a + Qfloor q.
Proof.
  destruct q as [n d]. unfold Qfloor, Qplus, inject_Z. cbn [Qnum Qden].
  rewrite Pos.mul_1_l, Z.mul_1_r. apply Z.div_add_l. discriminate.
Qed.

(** A loan issued by the form falls due as many whole days after its
    release as the number of days entered has. *)
Lemma handleCreateLoan_due (tz : Z) (newId borrowerId : string)
  (principalNum interestRate : Q) (releaseDate : Z) (daysToPay : Q)
  (paymentFrequency : string) (l : Loan) :
  LoansView.handleCreateLoan tz newId borrowerId principalNum interestRate
    releaseDate daysToPay paymentFrequency = Some l ->
  (0 <= daysToPay)%Q ->
  total_payable l = LoansView.totalPayable principalNum interestRate /\
  start_date l = ofDateString releaseDate /\
  due_date l = Some (ofDateString releaseDate + Qfloor daysToPay * msPerDay).
Proof.
  unfold LoansView.handleCreateLoan, LoansView.calculatedDueDate.
  destruct (_ || _); [discriminate|]. intros [= <-] Hd.
  cbn [total_payable start_date due_date].
  repeat split. f_equal. unfold toInteger.
  pose proof (civilOfDay_date_range (localDay tz (ofDateString releaseDate))) as Hr.
  fold (localCivil tz (ofDateString releaseDate)) in Hr.
  fold (getDate tz (ofDateString releaseDate)) in Hr.
  replace (Qle_bool 0 (inject_Z (getDate tz (ofDateString releaseDate)) + daysToPay))
    with true.
  2:{ symmetry. apply Qle_bool_iff.
      assert (0 <= inject_Z (getDate tz (ofDateString releaseDate)))%Q
        by (change 0%Q with (inject_Z 0); rewrite <- Zle_Qle; lia).
      lra. }
  now rewrite Qfloor_inject_add, setDate_getDate_add.
Qed.

(** The detail view of a loan created for at least one day shows the
    installment (count and amount) that the creation form previews for the
    whole days of the number entered: the preview itself when that number
    is whole, as the number field of the form asks. *)
Theorem preview_matches_detail (tz now : Z) (newId borrowerId : string)
  (principalNum interestRate : Q) (releaseDate : Z) (daysToPay : Q)
  (paymentFrequency : string) (l : Loan) :
  LoansView.handleCreateLoan tz newId borrowerId principalNum interestRate
    releaseDate daysToPay paymentFrequency = Some l ->
  (1 <= daysToPay)%Q ->
  LoansView.currentInstallmentInfo now l
  = LoansView.installmentInfo principalNum interestRate (inject_Z (Qfloor daysToPay))
      paymentFrequency /\
  (forall n, daysToPay = inject_Z n ->
     LoansView.currentInstallmentInfo now l
     = LoansView.installmentInfo principalNum interestRate daysToPay paymentFrequency).
Proof.
  intros Hc Hd.
  pose proof (handleCreateLoan_due _ _ _ _ _ _ _ _ _ Hc ltac:(lra)) as (Ht & Hs & Hdue).
  pose proof (handleCreateLoan_frequency _ _ _ _ _ _ _ _ _ Hc) as (Hf & _).
  assert (Hfl : 1 <= Qfloor daysToPay).
  { pose proof (Qfloor_resp_le (inject_Z 1) daysToPay Hd) as H.
    now rewrite Qfloor_Z in H. }
  assert (E : LoansView.currentInstallmentInfo now l
              = LoansView.installmentInfo principalNum interestRate
                  (inject_Z (Qfloor daysToPay)) paymentFrequency).
  { unfold LoansView.currentInstallmentInfo, LoansView.installmentInfo.
    rewrite LoansView_diffDays_termDays. unfold dueOrNow. rewrite Hdue, Hs, Ht, Hf.
    rewrite termDays_of_days, getInstallmentInfo_orDaily.
    do 2 f_equal. lia. }
  split; [exact E|]. intros n ->. now rewrite E, Qfloor_Z.
Qed.

(** 60 days, weekly: nine installments on both screens.  Ten days and a
    half, daily: the form previews 10.5 installments, the detail view of
    the loan shows 10. *)
Lemma preview_matches_detail_witness :
  (exists l,
     LoansView.handleCreateLoan Sample.manila "L1" "B1" 1000 20 19723 60 "weekly" = Some l /\
     LoansView.count (LoansView.currentInstallmentInfo 0 l) = 9%Q /\
     LoansView.count (LoansView.installmentInfo 1000 20 60 "weekly") = 9%Q) /\
  (exists l,
     LoansView.handleCreateLoan Sample.manila "L1" "B1" 1000 20 19723 (21 # 2) "daily"
     = Some l /\
     LoansView.count (LoansView.currentInstallmentInfo 0 l) = 10%Q /\
     (LoansView.count (LoansView.installmentInfo 1000 20 (21 # 2) "daily") == 21 # 2)%Q).
Proof.
  split; eexists; (split; [reflexivity|]).
  - rewrite (proj2 (preview_matches_detail Sample.manila 0 "L1" "B1" 1000 20 19723 60
                      "weekly" _ eq_refl ltac:(discriminate)) 60 eq_refl).
    split; reflexivity.
  - rewrite (proj1 (preview_matches_detail Sample.manila 0 "L1" "B1" 1000 20 19723 (21 # 2)
                      "daily" _ eq_refl ltac:(discriminate))).
    split; reflexivity.
Defined.

(** A daily loan created for n days has min(n, 1000) schedule entries (none
    for n <= 0); up to 1000 days each entry asks for the target of the
    payment screen. *)
Theorem issued_daily_schedule (tz now : Z) (newId borrowerId : string)
  (principalNum interestRate : Q) (releaseDate daysToPay : Z) (l : Loan) :
  LoansView.handleCreateLoan tz newId borrowerId principalNum interestRate
    releaseDate (inject_Z daysToPay) "daily" = Some l ->
  length (Portal.schedule tz now (Some l)) = Z.to_nat (Z.min 1000 daysToPay) /\
  (1 <= daysToPay <= 1000 ->
   forall e, In e (Portal.schedule tz now (Some l)) ->
     Portal.amount e = PaymentsView.amount (PaymentsView.getTargetPayment now l)).
Proof.
  intros Hc.
  pose proof (handleCreateLoan_total _ _ _ _ _ _ _ _ _ Hc) as (_ & _ & Ht & Hs & Hdue).
  pose proof (handleCreateLoan_frequency _ _ _ _ _ _ _ _ _ Hc) as (Hf & _).
  assert (Hf' : freqCase (orDaily (payment_frequency l)) = FDaily) by now rewrite Hf.
  assert (Hend : dueOrNow now l = start_date l + daysToPay * msPerDay)
    by (unfold dueOrNow; now rewrite Hdue, Hs).
  pose proof (fixed_step_dates tz now l) as Hfix. cbv zeta in Hfix.
  rewrite Hf', Hend in Hfix. cbn [ScheduleSpec.stepDays] in Hfix.
  replace (start_date l + daysToPay * msPerDay - start_date l)
    with (daysToPay * (1 * msPerDay)) in Hfix by lia.
  rewrite Z.div_mul in Hfix by discriminate.
  specialize (Hfix ltac:(discriminate) ltac:(discriminate)).
  assert (Hlen : length (Portal.schedule tz now (Some l)) = Z.to_nat (Z.min 1000 daysToPay)).
  { rewrite <- (length_map (fun e => Portal.date (Portal.dated e))), Hfix.
    now rewrite length_map, length_seq. }
  split; [exact Hlen|].
  intros Hd e He.
  rewrite (schedule_amount_eq tz now l e He).
  rewrite Hlen. unfold PaymentsView.getTargetPayment. cbn [PaymentsView.amount].
  rewrite targetDivisor_periodCount, Hf', Hend, termDays_of_days.
  cbn [periodCount]. do 3 f_equal. lia.
Qed.

Lemma issued_daily_schedule_witness :
  exists l,
    LoansView.handleCreateLoan Sample.manila "L1" "B1" 1000 20 19723 10 "daily" = Some l /\
    length (Portal.schedule Sample.manila 0 (Some l)) = 10%nat.
Proof.
  eexists. split; [reflexivity|].
  exact (proj1 (issued_daily_schedule Sample.manila 0 "L1" "B1" 1000 20 19723 10 _ eq_refl)).
Defined.

(** For a weekly loan created for n days (1 <= n <= 7000) the schedule has
    floor(n / 7) entries while the payment screen divides by ceil(n / 7), at
    least 1: the two screens agree on the number of installments exactly
    when n is a whole number of weeks. *)
Theorem issued_weekly_counts (tz now : Z) (newId borrowerId : string)
  (principalNum interestRate : Q) (releaseDate daysToPay : Z) (l : Loan) :
  LoansView.handleCreateLoan tz newId borrowerId principalNum interestRate
    releaseDate (inject_Z daysToPay) "weekly" = Some l ->
  1 <= daysToPay <= 7000 ->
  Z.of_nat (length (Portal.schedule tz now (Some l))) = daysToPay / 7 /\
  PaymentsView.targetDivisor now l = ceilDiv daysToPay 7 /\
  (Z.of_nat (length (Portal.schedule tz now (Some l))) = PaymentsView.targetDivisor now l
   <-> daysToPay mod 7 = 0).
Proof.
  intros Hc Hd.
  pose proof (handleCreateLoan_total _ _ _ _ _ _ _ _ _ Hc) as (_ & _ & Ht & Hs & Hdue).
  pose proof (handleCreateLoan_frequency _ _ _ _ _ _ _ _ _ Hc) as (Hf & _).
  assert (Hf' : freqCase (orDaily (payment_frequency l)) = FWeekly) by now rewrite Hf.
  assert (Hend : dueOrNow now l = start_date l + daysToPay * msPerDay)
    by (unfold dueOrNow; now rewrite Hdue, Hs).
  pose proof (fixed_step_dates tz now l) as Hfix. cbv zeta in Hfix.
  rewrite Hf', Hend in Hfix. cbn [ScheduleSpec.stepDays] in Hfix.
  replace (start_date l + daysToPay * msPerDay - start_date l)
    with (daysToPay * msPerDay) in Hfix by lia.
  rewrite Z.div_mul_cancel_r in Hfix by discriminate.
  specialize (Hfix ltac:(discriminate) ltac:(discriminate)).
  assert (Hlen : Z.of_nat (length (Portal.schedule tz now (Some l))) = daysToPay / 7).
  { rewrite <- (length_map (fun e => Portal.date (Portal.dated e))), Hfix.
    rewrite length_map, length_seq. div_lia. }
  assert (Hdiv : PaymentsView.targetDivisor now l = ceilDiv daysToPay 7).
  { rewrite targetDivisor_periodCount, Hf', Hend, termDays_of_days.
    cbn [periodCount]. pose proof (ceilDiv_pos daysToPay 7 ltac:(lia) ltac:(lia)).
    replace (Z.max 1 (Z.abs daysToPay)) with daysToPay by lia. lia. }
  split; [exact Hlen|]. split; [exact Hdiv|].
  rewrite Hlen, Hdiv. unfold ceilDiv. split; intros H; div_lia.
Qed.

Lemma issued_weekly_counts_witness :
  exists l,
    LoansView.handleCreateLoan Sample.manila "L1" "B1" 1000 20 19723 60 "weekly" = Some l /\
    Z.of_nat (length (Portal.schedule Sample.manila 0 (Some l))) = 8 /\
    PaymentsView.targetDivisor 0 l = 9.
Proof.
  eexists. split; [reflexivity|].
  destruct (issued_weekly_counts Sample.manila 0 "L1" "B1" 1000 20 19723 60 _ eq_refl
              ltac:(lia)) as (H1 & H2 & _).
  split; [exact H1 | exact H2].
Defined.

(** ** Agreement between the screens on the installment *)

Lemma freqCase_orDaily_listed (freq : option string) :
  freqCaseOpt freq <> FOther -> freqCase (orDaily freq) = freqCaseOpt freq.
Proof.
  destruct freq as [s|]; cbn; [|congruence].
  destruct (String.eqb_spec s ""); [subst; cbn; congruence | reflexivity].
Qed.

(** For a loan with a positive total, the loan detail view and the payment
    screen report the same number of installments and print the same
    installment. *)
Theorem detail_matches_payment_screen (now : Z) (l : Loan) :
  (0 < total_payable l)%Q ->
  LoansView.count (LoansView.currentInstallmentInfo now l)
  = inject_Z (PaymentsView.targetDivisor now l) /\
  LoansView.shownInstallment (LoansView.currentInstallmentInfo now l)
  = PaymentsView.amount (PaymentsView.getTargetPayment now l).
Proof.
  intros Ht. unfold LoansView.currentInstallmentInfo, LoansView.shownInstallment,
    PaymentsView.getTargetPayment.
  rewrite getInstallmentInfo_count by (trivial; apply LoansView_diffDays_ge_1).
  rewrite LoansView_diffDays_termDays, targetDivisor_periodCount.
  split; reflexivity.
Qed.

Lemma detail_matches_payment_screen_witness :
  LoansView.shownInstallment
    (LoansView.currentInstallmentInfo 0 (Sample.tenDays (Some "monthly"%string)))
  = PaymentsView.amount
      (PaymentsView.getTargetPayment 0 (Sample.tenDays (Some "monthly"%string))).
Proof.
  exact (proj2 (detail_matches_payment_screen 0 (Sample.tenDays (Some "monthly"%string))
                  ltac:(reflexivity))).
Defined.

(** For a loan whose frequency is one of daily, weekly, monthly and
    lump_sum, the target printed on the dashboard is the target shown on the
    payment screen. *)
Theorem dashboard_target_matches_payment_screen (payments : list Payment)
  (selectedDate now : Z) (l : Loan) :
  freqCaseOpt (payment_frequency l) <> FOther ->
  mathCeil (Dashboard.targetAmount (Dashboard.annotate payments selectedDate now l))
  = PaymentsView.amount (PaymentsView.getTargetPayment now l).
Proof.
  intros Hf. unfold Dashboard.annotate, PaymentsView.getTargetPayment.
  cbn [Dashboard.targetAmount PaymentsView.amount].
  rewrite Dashboard_divisor_listed, targetDivisor_periodCount by exact Hf.
  now rewrite freqCase_orDaily_listed.
Qed.

Lemma dashboard_target_matches_payment_screen_witness :
  mathCeil (Dashboard.targetAmount
              (Dashboard.annotate [] 19727 0 (Sample.tenDays (Some "weekly"%string))))
  = PaymentsView.amount
      (PaymentsView.getTargetPayment 0 (Sample.tenDays (Some "weekly"%string))).
Proof.
  apply dashboard_target_matches_payment_screen. discriminate.
Defined.

(** ** What recording a payment leaves alone *)

Section SubmitFacts.

Import PaymentsView.

Lemma sameTerms_refl (l : Loan) : sameTerms l l.
Proof. repeat split. Qed.

Lemma Forall2_map_r {A B : Type} (R : A -> B -> Prop) (g : A -> B) (l : list A) :
  (forall x, In x l -> R x (g x)) -> Forall2 R l (map g l).
Proof.
  induction l as [|x l IH]; intros H; cbn; constructor.
  - apply H. now left.
  - apply IH. intros y Hy. apply H. now right.
Qed.

Lemma Forall2_same {A : Type} (R : A -> A -> Prop) (l : list A) :
  (forall x, R x x) -> Forall2 R l l.
Proof. intros H. induction l; constructor; auto. Qed.

Lemma find_map_update (sel : string) (upd : Loan -> Loan) (loans : list Loan) (loan : Loan) :
  (forall l, id (upd l) = id l) ->
  find (fun l => String.eqb (id l) sel) loans = Some loan ->
  find (fun l => String.eqb (id l) sel)
       (map (fun l => if String.eqb (id l) sel then upd l else l) loans)
  = Some (upd loan).
Proof.
  intros Hid. induction loans as [|x loans IH]; cbn; [discriminate|].
  destruct (String.eqb (id x) sel) eqn:E.
  - intros [= ->]. now rewrite Hid, E.
  - rewrite E. exact IH.
Qed.

Lemma Qmax_0_twice (b a1 a2 : Q) :
  (0 <= a2)%Q -> (Qmax 0 (Qmax 0 (b - a1) - a2) == Qmax 0 (b - (a1 + a2)))%Q.
Proof.
  intros Ha2.
  destruct (Q.max_spec 0 (b - a1)) as [[H1 E1] | [H1 E1]];
  destruct (Q.max_spec 0 (b - (a1 + a2))) as [[H2 E2] | [H2 E2]];
  destruct (Q.max_spec 0 (Qmax 0 (b - a1) - a2)) as [[H3 E3] | [H3 E3]];
  rewrite E3, E2; rewrite E1 in *; lra.
Qed.

End SubmitFacts.

(** [handleSubmit] with an empty amount, no loan selected or a refused
    insert changes nothing.  In every case it keeps the payments recorded so
    far and adds at most one, keeps the number and order of the loan rows,
    writes nothing but balance and status, and leaves the rows of other
    loans as they are. *)
Theorem handleSubmit_frame (db : PaymentsView.Store) (selectedLoanId : string)
  (amount : option Q) (now : Z) (insertOk updateOk : bool) :
  let db' := PaymentsView.handleSubmit db selectedLoanId amount now insertOk updateOk in
  (amount = None \/ selectedLoanId = ""%string \/ insertOk = false -> db' = db) /\
  (exists added, PaymentsView.payments db' = PaymentsView.payments db ++ added /\
                 (length added <= 1)%nat) /\
  Forall2 (fun l l' => sameTerms l l' /\ (id l <> selectedLoanId -> l' = l))
          (PaymentsView.loans db) (PaymentsView.loans db').
Proof.
  cbv zeta.
  assert (Hsame : Forall2 (fun l l' => sameTerms l l' /\ (id l <> selectedLoanId -> l' = l))
                          (PaymentsView.loans db) (PaymentsView.loans db)).
  { apply Forall2_same. intros x. split; [apply sameTerms_refl | reflexivity]. }
  assert (Hnone : exists added, PaymentsView.payments db = PaymentsView.payments db ++ added /\
                                (length added <= 1)%nat).
  { exists []. rewrite app_nil_r. split; [reflexivity | cbn; lia]. }
  unfold PaymentsView.handleSubmit.
  destruct amount as [numAmount|]; [|repeat split; assumption].
  destruct (String.eqb_spec selectedLoanId ""); [repeat split; assumption|].
  destruct insertOk; cbn [negb]; [|repeat split; assumption].
  split; [intros [H | [H | H]]; [discriminate | contradiction | discriminate]|].
  assert (Hone : forall ls, exists added,
            PaymentsView.payments
              (PaymentsView.mkStore ls
                 (PaymentsView.payments db ++ [mkPayment selectedLoanId numAmount now]))
            = PaymentsView.payments db ++ added /\ (length added <= 1)%nat).
  { intros ls. exists [mkPayment selectedLoanId numAmount now]. split; [reflexivity | cbn; lia]. }
  destruct (find _ (PaymentsView.loans db)) as [loan|]; [|split; [apply Hone | exact Hsame]].
  destruct updateOk; [|split; [apply Hone | exact Hsame]].
  split; [apply Hone|]. cbn [PaymentsView.loans].
  apply Forall2_map_r. intros x _.
  destruct (String.eqb_spec (id x) selectedLoanId).
  - split; [repeat split | contradiction].
  - split; [apply sameTerms_refl | reflexivity].
Qed.

Lemma handleSubmit_frame_witness :
  let db := PaymentsView.mkStore [Sample.tenDays None] [] in
  PaymentsView.handleSubmit db "L1" (Some 50%Q) 0 false true = db.
Proof.
  cbv zeta.
  apply (proj1 (handleSubmit_frame (PaymentsView.mkStore [Sample.tenDays None] [])
                  "L1" (Some 50%Q) 0 false true)).
  right; right; reflexivity.
Defined.

(** Two payments recorded one after the other leave the balance that one
    payment of their sum would: max(0, B - (A1 + A2)), for A2 >= 0. *)
Theorem payments_accumulate (db : PaymentsView.Store) (selectedLoanId : string)
  (A1 A2 : Q) (t1 t2 : Z) (loan : Loan) :
  selectedLoanId <> ""%string ->
  find (fun l => String.eqb (id l) selectedLoanId) (PaymentsView.loans db) = Some loan ->
  (0 <= A2)%Q ->
  let db1 := PaymentsView.handleSubmit db selectedLoanId (Some A1) t1 true true in
  let db2 := PaymentsView.handleSubmit db1 selectedLoanId (Some A2) t2 true true in
  PaymentsView.payments db2
  = PaymentsView.payments db ++ [mkPayment selectedLoanId A1 t1;
                                 mkPayment selectedLoanId A2 t2] /\
  forall l', In l' (PaymentsView.loans db2) -> id l' = selectedLoanId ->
    (balance l' == Qmax 0 (balance loan - (A1 + A2)))%Q.
Proof.
  intros Hsel Hfind HA2 db1 db2.
  assert (E1 : db1 = _) by exact (handleSubmit_rows db selectedLoanId A1 t1 loan Hsel Hfind).
  set (loan1 := PaymentsView.updateLoan (PaymentsView.newBalance loan A1)
                                        (PaymentsView.newStatus loan A1) loan).
  assert (Hfind1 : find (fun l => String.eqb (id l) selectedLoanId) (PaymentsView.loans db1)
                   = Some loan1).
  { rewrite E1. cbn [PaymentsView.loans].
    apply (find_map_update selectedLoanId
             (PaymentsView.updateLoan (PaymentsView.newBalance loan A1)
                                      (PaymentsView.newStatus loan A1)));
      [reflexivity | exact Hfind]. }
  assert (E2 : db2 = _) by exact (handleSubmit_rows db1 selectedLoanId A2 t2 loan1 Hsel Hfind1).
  rewrite E2. cbn [PaymentsView.payments PaymentsView.loans]. split.
  - rewrite E1. cbn [PaymentsView.payments]. now rewrite <- app_assoc.
  - intros l' Hin Hid. apply in_map_iff in Hin as (l & Hl & _).
    destruct (String.eqb_spec (id l) selectedLoanId) as [E | E].
    + subst l'. cbn [balance PaymentsView.updateLoan].
      unfold PaymentsView.newBalance. cbn [balance loan1 PaymentsView.updateLoan].
      now apply Qmax_0_twice.
    + subst l'. contradiction.
Qed.

(** Payments of 500 and of 300 on the sample loan of 1200 leave 400. *)
Lemma payments_accumulate_witness :
  let db := PaymentsView.mkStore [Sample.tenDays (Some "daily"%string)] [] in
  let db1 := PaymentsView.handleSubmit db "L1" (Some 500%Q) 0 true true in
  let db2 := PaymentsView.handleSubmit db1 "L1" (Some 300%Q) 1 true true in
  Forall (fun l' => (balance l' == 400)%Q) (PaymentsView.loans db2).
Proof.
  cbv zeta.
  destruct (payments_accumulate
              (PaymentsView.mkStore [Sample.tenDays (Some "daily"%string)] [])
              "L1" 500 300 0 1 (Sample.tenDays (Some "daily"%string))
              ltac:(discriminate) eq_refl ltac:(discriminate)) as (_ & H).
  apply Forall_forall. intros l' Hin.
  assert (Hid : id l' = "L1"%string).
  { vm_compute in Hin. destruct Hin as [<- | []]. reflexivity. }
  rewrite (H l' Hin Hid). reflexivity.
Defined.

(** After a payment is recorded, the loan stays on offer in the payment
    screen exactly when the payment was less than the balance; when it is
    off the list its status is paid. *)
Theorem offered_after_payment (db : PaymentsView.Store) (selectedLoanId : string)
  (A : Q) (now : Z) (loan : Loan) :
  selectedLoanId <> ""%string ->
  find (fun l => String.eqb (id l) selectedLoanId) (PaymentsView.loans db) = Some loan ->
  let db' := PaymentsView.handleSubmit db selectedLoanId (Some A) now true true in
  forall l', In l' (PaymentsView.loans db') -> id l' = selectedLoanId ->
    (In l' (PaymentsView.activeLoans (PaymentsView.loans db')) <-> (A < balance loan)%Q) /\
    (status l' = paid <-> ~ In l' (PaymentsView.activeLoans (PaymentsView.loans db'))).
Proof.
  intros Hsel Hfind db' l' Hin Hid.
  assert (Hmem : In l' (PaymentsView.activeLoans (PaymentsView.loans db'))
                 <-> (0 < balance l')%Q).
  { unfold PaymentsView.activeLoans. rewrite filter_In, Qgtb_iff. tauto. }
  assert (Hrow : balance l' = PaymentsView.newBalance loan A /\
                 status l' = PaymentsView.newStatus loan A).
  { unfold db' in Hin. rewrite (handleSubmit_rows db selectedLoanId A now loan Hsel Hfind) in Hin.
    cbn [PaymentsView.loans] in Hin. apply in_map_iff in Hin as (l & Hl & _).
    destruct (String.eqb_spec (id l) selectedLoanId) as [E | E].
    - subst l'. split; reflexivity.
    - subst l'. contradiction. }
  destruct Hrow as [Hb Hs]. rewrite Hmem, Hb, Hs, newStatus_paid.
  unfold PaymentsView.newBalance.
  destruct (Q.max_spec 0 (balance loan - A)) as [[H E] | [H E]]; rewrite E; split; split;
    intros; lra.
Qed.

Lemma offered_after_payment_witness :
  let db := PaymentsView.mkStore [Sample.tenDays (Some "daily"%string)] [] in
  let db' := PaymentsView.handleSubmit db "L1" (Some 1200%Q) 0 true true in
  PaymentsView.activeLoans (PaymentsView.loans db') = [] /\
  forall l', In l' (PaymentsView.loans db') -> id l' = "L1"%string -> status l' = paid.
Proof.
  cbv zeta. split; [reflexivity|]. intros l' Hin Hid.
  destruct (offered_after_payment
              (PaymentsView.mkStore [Sample.tenDays (Some "daily"%string)] [])
              "L1" 1200 0 (Sample.tenDays (Some "daily"%string))
              ltac:(discriminate) eq_refl l' Hin Hid) as (_ & H).
  apply H. intros [].
Defined.

(** ** The progress bar *)

(** The percentage paid is 0 for a loan without a positive total.  For a
    balance between 0 and a positive total it lies between 0 and 100, is 100
    exactly when the balance is 0 and 0 exactly when nothing was paid; the
    portal and the detail view compute the same figure. *)
Theorem percentagePaid_range (l : Loan) :
  ((total_payable l <= 0)%Q -> LoansView.percentagePaid l = 0%Q) /\
  ((0 < total_payable l)%Q -> (0 <= balance l <= total_payable l)%Q ->
     (0 <= LoansView.percentagePaid l <= 100)%Q /\
     ((LoansView.percentagePaid l == 100)%Q <-> (balance l == 0)%Q) /\
     ((LoansView.percentagePaid l == 0)%Q <-> (balance l == total_payable l)%Q)) /\
  Portal.percentagePaid l = LoansView.percentagePaid l.
Proof.
  unfold LoansView.percentagePaid, Portal.percentagePaid, Qgtb.
  split; [|split; [|reflexivity]].
  - intros H. apply Qle_bool_iff in H. now rewrite H.
  - intros Ht [Hb0 Hbt].
    replace (Qle_bool (total_payable l) 0) with false
      by (symmetry; now apply Qle_bool_false).
    cbn [negb].
    set (t := total_payable l) in *. set (b := balance l) in *.
    set (x := ((t - b) / t)%Q).
    assert (Hx : (x * t == t - b)%Q) by (unfold x; field; lra).
    assert (Hx0 : (0 <= x)%Q).
    { unfold x. apply Qle_shift_div_l; [exact Ht | lra]. }
    assert (Hx1 : (x <= 1)%Q).
    { unfold x. apply Qle_shift_div_r; [exact Ht | lra]. }
    split; [split; lra|]. split; split; intros H.
    + assert (E : (x == 1)%Q) by lra. rewrite E in Hx. lra.
    + assert (E : (x * t == 1 * t)%Q) by (rewrite Hx, H; ring).
      apply Qmult_inj_r in E; [lra | lra].
    + assert (E : (x == 0)%Q) by lra. rewrite E in Hx. lra.
    + assert (E : (x * t == 0 * t)%Q) by (rewrite Hx, H; ring).
      apply Qmult_inj_r in E; [lra | lra].
Qed.

(** The sample loan of 1200 with 300 still owed: 75 percent. *)
Lemma percentagePaid_range_witness :
  let l := mkLoan "L1" "B1" 1000 20 1200 300 0 (Some 10) active None in
  (LoansView.percentagePaid l <= 100)%Q.
Proof.
  cbv zeta.
  destruct (proj1 (proj2 (percentagePaid_range
              (mkLoan "L1" "B1" 1000 20 1200 300 0 (Some 10) active None)))
              ltac:(reflexivity) ltac:(split; discriminate)) as ((_ & H) & _).
  exact H.
Defined.

(** ** The status tabs of the loan list *)

(** The tab 'all' shows every loan; each other tab shows, in the order of the
    list, exactly the loans of its status; every loan is on exactly one of
    the three status tabs. *)
Theorem filteredLoans_partition (loans : list Loan) :
  LoansView.filteredLoans None loans = loans /\
  (forall s l, In l (LoansView.filteredLoans (Some s) loans) <-> In l loans /\ status l = s) /\
  length loans
  = (length (LoansView.filteredLoans (Some active) loans)
     + length (LoansView.filteredLoans (Some paid) loans)
     + length (LoansView.filteredLoans (Some defaulted) loans))%nat.
Proof.
  unfold LoansView.filteredLoans. split; [|split].
  - induction loans as [|x loans IH]; cbn; [reflexivity | now rewrite IH].
  - intros s l. now rewrite filter_In, Status_eqb_eq.
  - induction loans as [|x loans IH]; [reflexivity|].
    cbn [filter length]. destruct (status x); cbn [Status_eqb length]; lia.
Qed.

(** ** Standing *)

Section StandingMore.

Import Analytics.

Lemma filter_length_perm {A : Type} (f : A -> bool) (l l' : list A) :
  Permutation l l' -> length (filter f l) = length (filter f l').
Proof.
  induction 1 as [| x l l' _ IH | x y l | l l' l'' _ IH1 _ IH2]; cbn.
  - reflexivity.
  - destruct (f x); cbn; congruence.
  - destruct (f x), (f y); reflexivity.
  - congruence.
Qed.

Lemma standing_defaulted (today : Z) (loans : list Loan) :
  existsb isDefaultedLoan loans = true ->
  status (analyzeStanding today loans) = Delinquent.
Proof.
  intros H. rewrite analyzeStanding_rules. unfold standingByRules, rule1, rule2.
  destruct loans as [|x loans]; [discriminate|]. cbn [firstMatch]. now rewrite H.
Qed.

End StandingMore.

(** The standing of a borrower does not depend on the order in which the
    loans are listed. *)
Theorem analyzeStanding_permutation (today : Z) (loans loans' : list Loan) :
  Permutation loans loans' ->
  Analytics.analyzeStanding today loans = Analytics.analyzeStanding today loans'.
Proof.
  intros H. unfold Analytics.analyzeStanding.
  rewrite (Permutation_length H).
  rewrite (filter_length_perm Analytics.isPaidLoan _ _ H).
  rewrite (filter_length_perm Analytics.isDefaultedLoan _ _ H).
  rewrite (filter_length_perm (Analytics.isOverdueLoan today) _ _ H).
  reflexivity.
Qed.

Lemma analyzeStanding_permutation_witness :
  let a := mkLoan "L1" "B1" 1000 20 1200 1200 0 (Some 10) active None in
  let p := mkLoan "L2" "B1" 1000 20 1200 0 0 (Some 10) paid None in
  Analytics.analyzeStanding 5 [a; p] = Analytics.analyzeStanding 5 [p; a].
Proof.
  cbv zeta. apply analyzeStanding_permutation. apply perm_swap.
Defined.

Lemma standing_status_table (today : Z) (loans : list Loan) :
  Analytics.status (Analytics.analyzeStanding today loans)
  = match loans with
    | [] => Analytics.New
    | _ :: _ =>
      if existsb Analytics.isDefaultedLoan loans
         || existsb (Analytics.isOverdueLoan today) loans
      then Analytics.Delinquent
      else if existsb Analytics.isPaidLoan loans then Analytics.GoodPayer
      else Analytics.Neutral
    end.
Proof.
  rewrite analyzeStanding_rules.
  unfold Analytics.standingByRules, Analytics.rule1, Analytics.rule2, Analytics.rule3,
    Analytics.rule4, Analytics.rule5, Analytics.rule6.
  destruct loans as [|x loans]; [reflexivity|].
  set (ls := x :: loans). cbn [Analytics.firstMatch].
  destruct (existsb Analytics.isDefaultedLoan ls); [reflexivity|].
  destruct (existsb (Analytics.isOverdueLoan today) ls); [reflexivity|].
  cbn [orb].
  destruct (forallb Analytics.isPaidLoan ls) eqn:E3.
  - now rewrite (forallb_existsb_nonempty _ _ _ E3 : existsb _ ls = true).
  - destruct (existsb Analytics.isPaidLoan ls); reflexivity.
Qed.

(** Which borrowers get which label: New, exactly those without loans;
    Delinquent, exactly those with a defaulted loan or an active loan past
    its due date; Good Payer, exactly those with a paid loan and neither of
    these; Neutral, the rest. *)
Theorem standing_status_iff (today : Z) (loans : list Loan) :
  let st := Analytics.status (Analytics.analyzeStanding today loans) in
  let bad l := status l = defaulted \/
               (status l = active /\ exists d, due_date l = Some d /\ d < today) in
  (st = Analytics.New <-> loans = []) /\
  (st = Analytics.Delinquent <-> exists l, In l loans /\ bad l) /\
  (st = Analytics.GoodPayer <->
     (forall l, In l loans -> ~ bad l) /\ exists l, In l loans /\ status l = paid) /\
  (st = Analytics.Neutral <->
     loans <> [] /\ forall l, In l loans -> ~ bad l /\ status l <> paid).
Proof.
  intros st bad.
  assert (Hd : existsb Analytics.isDefaultedLoan loans = true
               <-> exists l, In l loans /\ status l = defaulted).
  { rewrite existsb_exists. unfold Analytics.isDefaultedLoan.
    split; intros (l & Hin & H); exists l; split; trivial; now apply Status_eqb_eq. }
  assert (Ho : existsb (Analytics.isOverdueLoan today) loans = true
               <-> exists l, In l loans /\
                     (status l = active /\ exists d, due_date l = Some d /\ d < today)).
  { rewrite existsb_exists.
    split; intros (l & Hin & H); exists l; split; trivial; now apply isOverdueLoan_iff. }
  assert (Hp : (exists l, In l loans /\ status l = paid)
               <-> existsb Analytics.isPaidLoan loans = true).
  { rewrite existsb_exists. unfold Analytics.isPaidLoan.
    split; intros (l & Hin & H); exists l; split; trivial; now apply Status_eqb_eq. }
  assert (Hbad : (exists l, In l loans /\ bad l)
                 <-> existsb Analytics.isDefaultedLoan loans
                     || existsb (Analytics.isOverdueLoan today) loans = true).
  { rewrite orb_true_iff, Hd, Ho. unfold bad. split.
    - intros (l & Hin & [H | H]); [left | right]; now exists l.
    - intros [(l & Hin & H) | (l & Hin & H)]; exists l; tauto. }
  assert (Hnobad : (forall l, In l loans -> ~ bad l)
                   <-> ~ exists l, In l loans /\ bad l).
  { split; [intros H (l & Hin & Hb); exact (H l Hin Hb)
           | intros H l Hin Hb; apply H; now exists l]. }
  assert (Hneutral : (forall l, In l loans -> ~ bad l /\ status l <> paid)
                     <-> (~ exists l, In l loans /\ bad l)
                         /\ ~ exists l, In l loans /\ status l = paid).
  { split.
    - intros H. split; intros (l & Hin & Hb); destruct (H l Hin); contradiction.
    - intros [H1 H2] l Hin. split; intros Hb; [apply H1 | apply H2]; now exists l. }
  unfold st. rewrite standing_status_table, Hneutral, Hnobad, Hbad, Hp.
  destruct loans as [|x loans].
  - cbn. repeat split; try discriminate; try congruence; intuition congruence.
  - set (ls := x :: loans).
    destruct (existsb Analytics.isDefaultedLoan ls
              || existsb (Analytics.isOverdueLoan today) ls);
      destruct (existsb Analytics.isPaidLoan ls);
      repeat split; try discriminate; try congruence; intuition congruence.
Qed.

(** ** Marking a loan as defaulted *)

Lemma handleMarkDefault_rows (loans : list Loan) (loanId : string) :
  LoansView.handleMarkDefault loans loanId true true
  = map (fun l => if String.eqb (id l) loanId
                  then LoansView.setStatus defaulted l else l) loans.
Proof. reflexivity. Qed.

(** Once a loan is marked as defaulted, its borrower is Delinquent on the
    loan detail view and on the borrower's card, whatever the other loans
    are; balances are untouched; a declined confirmation or a refused update
    changes nothing. *)
Theorem mark_default_makes_delinquent (today : Z) (loans : list Loan) (loanId : string)
  (l : Loan) :
  In l loans -> id l = loanId ->
  let loans' := LoansView.handleMarkDefault loans loanId true true in
  Analytics.status (LoansView.detailStanding today loans' (borrower_id l))
    = Analytics.Delinquent /\
  Analytics.status (Borrowers.standing today loans' (borrower_id l))
    = Analytics.Delinquent /\
  map balance loans' = map balance loans /\
  (forall confirmed updateOk, confirmed && updateOk = false ->
     LoansView.handleMarkDefault loans loanId confirmed updateOk = loans).
Proof.
  intros Hin Hid loans'.
  assert (Hex : existsb Analytics.isDefaultedLoan
                  (filter (fun x => String.eqb (borrower_id x) (borrower_id l)) loans')
                = true).
  { apply existsb_exists. exists (LoansView.setStatus defaulted l). split; [|reflexivity].
    apply filter_In. split; [|cbn; apply String.eqb_refl].
    unfold loans'. rewrite handleMarkDefault_rows. apply in_map_iff.
    exists l. split; [|exact Hin].
    replace (String.eqb (id l) loanId) with true
      by (symmetry; now apply String.eqb_eq).
    reflexivity. }
  split; [now apply standing_defaulted|].
  split; [now apply standing_defaulted|].
  split.
  - unfold loans'. rewrite handleMarkDefault_rows, map_map.
    apply map_ext. intros x. now destruct (String.eqb (id x) loanId).
  - intros c u H. unfold LoansView.handleMarkDefault.
    destruct c, u; try discriminate; reflexivity.
Qed.

Lemma mark_default_makes_delinquent_witness :
  let p := mkLoan "L2" "B1" 1000 20 1200 0 0 (Some 10) paid None in
  let a := mkLoan "L1" "B1" 1000 20 1200 700 0 (Some 10) active None in
  Analytics.status
    (Borrowers.standing 5 (LoansView.handleMarkDefault [p; a] "L1" true true) "B1")
  = Analytics.Delinquent.
Proof.
  cbv zeta.
  exact (proj1 (proj2 (mark_default_makes_delinquent 5
           [mkLoan "L2" "B1" 1000 20 1200 0 0 (Some 10) paid None;
            mkLoan "L1" "B1" 1000 20 1200 700 0 (Some 10) active None]
           "L1" (mkLoan "L1" "B1" 1000 20 1200 700 0 (Some 10) active None)
           ltac:(right; left; reflexivity) eq_refl))).
Defined.

(** A payment smaller than the balance, recorded on a loan that was marked
    as defaulted, sets the loan back to active. *)
Theorem payment_after_default_reactivates (loans : list Loan) (payments : list Payment)
  (selectedLoanId : string) (A : Q) (now : Z) (loan : Loan) :
  selectedLoanId <> ""%string ->
  find (fun l => String.eqb (id l) selectedLoanId) loans = Some loan ->
  (A < balance loan)%Q ->
  let marked := LoansView.handleMarkDefault loans selectedLoanId true true in
  let db' := PaymentsView.handleSubmit (PaymentsView.mkStore marked payments)
               selectedLoanId (Some A) now true true in
  (forall l, In l marked -> id l = selectedLoanId -> status l = defaulted) /\
  (forall l', In l' (PaymentsView.loans db') -> id l' = selectedLoanId ->
     status l' = active).
Proof.
  intros Hsel Hfind HA marked db'. split.
  - intros l Hin Hid. unfold marked in Hin. rewrite handleMarkDefault_rows in Hin.
    apply in_map_iff in Hin as (x & Hx & _).
    destruct (String.eqb_spec (id x) selectedLoanId); subst l; [reflexivity | contradiction].
  - assert (Hfind' : find (fun l => String.eqb (id l) selectedLoanId)
                       (PaymentsView.loans (PaymentsView.mkStore marked payments))
                     = Some (LoansView.setStatus defaulted loan)).
    { cbn [PaymentsView.loans]. unfold marked. rewrite handleMarkDefault_rows.
      apply (find_map_update selectedLoanId (LoansView.setStatus defaulted));
        [reflexivity | exact Hfind]. }
    intros l' Hin Hid. unfold db' in Hin.
    rewrite (handleSubmit_rows _ selectedLoanId A now _ Hsel Hfind') in Hin.
    cbn [PaymentsView.loans] in Hin. apply in_map_iff in Hin as (x & Hx & _).
    destruct (String.eqb_spec (id x) selectedLoanId); subst l'; [|contradiction].
    cbn [status PaymentsView.updateLoan]. apply newStatus_active.
    unfold PaymentsView.newBalance. cbn [balance LoansView.setStatus].
    destruct (Q.max_spec 0 (balance loan - A)) as [[H E] | [H E]]; rewrite E; lra.
Qed.

Lemma payment_after_default_reactivates_witness :
  let l := Sample.tenDays (Some "daily"%string) in
  let marked := LoansView.handleMarkDefault [l] "L1" true true in
  let db' := PaymentsView.handleSubmit (PaymentsView.mkStore marked [])
               "L1" (Some 100%Q) 0 true true in
  map status marked = [defaulted] /\
  Forall (fun l' => status l' = active) (PaymentsView.loans db').
Proof.
  cbv zeta. split; [reflexivity|].
  destruct (payment_after_default_reactivates [Sample.tenDays (Some "daily"%string)] []
              "L1" 100 0 (Sample.tenDays (Some "daily"%string))
              ltac:(discriminate) eq_refl ltac:(reflexivity)) as (_ & H).
  apply Forall_forall. intros l' Hin. apply H; [exact Hin|].
  vm_compute in Hin. destruct Hin as [<- | []]. reflexivity.
Defined.

(** ** The borrower cards *)

Lemma find_filter {A : Type} (p q : A -> bool) (l : list A) :
  find p (filter q l) = find (fun x => q x && p x) l.
Proof.
  induction l as [|x l IH]; [reflexivity|]. cbn [filter find].
  destruct (q x); cbn [find andb]; [destruct (p x); [reflexivity | exact IH] | exact IH].
Qed.

(** What [find] returns is the first element that passes the test. *)
Lemma find_first {A : Type} (p : A -> bool) (l : list A) (x : A) :
  find p l = Some x ->
  exists before after,
    l = (before ++ x :: after)%list /\ Forall (fun y => p y = false) before.
Proof.
  induction l as [|y l IH]; [discriminate|]. cbn [find].
  destruct (p y) eqn:E.
  - intros [= <-]. exists [], l. split; [reflexivity | constructor].
  - intros H. destruct (IH H) as (before & after & -> & Hb).
    exists (y :: before), after. split; [reflexivity | now constructor].
Qed.

(** The borrower's card and the reminder message pick the same loan: the
    first loan in the list that belongs to the borrower and is active, no
    loan before it in the list being an active loan of the borrower.  The
    amount due of the reminder is that loan's balance, and 0 when the
    borrower has no active loan. *)
Theorem active_loan_lookups_agree (loans : list Loan) (borrowerId : string) :
  Borrowers.cardActiveLoan loans borrowerId = Borrowers.messageActiveLoan loans borrowerId /\
  match Borrowers.messageActiveLoan loans borrowerId with
  | Some l => borrower_id l = borrowerId /\ status l = active /\
              (exists before after,
                 loans = (before ++ l :: after)%list /\
                 Forall (fun x => ~ (borrower_id x = borrowerId /\ status x = active))
                        before) /\
              Borrowers.amountDue loans borrowerId = balance l
  | None => Borrowers.amountDue loans borrowerId = 0%Q /\
            forall l, In l loans -> borrower_id l = borrowerId -> status l <> active
  end.
Proof.
  split; [apply find_filter|].
  unfold Borrowers.amountDue.
  destruct (Borrowers.messageActiveLoan loans borrowerId) as [l|] eqn:E;
    unfold Borrowers.messageActiveLoan in E.
  - pose proof (find_first _ _ _ E) as (before & after & Hsplit & Hb).
    apply find_some in E as [Hin H]. apply andb_true_iff in H as [H1 H2].
    apply String.eqb_eq in H1. apply Status_eqb_eq in H2.
    split; [exact H1|]. split; [exact H2|]. split; [|reflexivity].
    exists before, after. split; [exact Hsplit|].
    apply Forall_forall. intros x Hx [Hx1 Hx2].
    pose proof (proj1 (Forall_forall _ _) Hb x Hx) as Hf. cbn beta in Hf.
    apply String.eqb_eq in Hx1. apply Status_eqb_eq in Hx2.
    rewrite Hx1, Hx2 in Hf. discriminate.
  - split; [reflexivity|]. intros l Hin Hb Hs.
    pose proof (find_none _ _ E l Hin) as H. cbn beta in H.
    apply String.eqb_eq in Hb. apply Status_eqb_eq in Hs. rewrite Hb, Hs in H. discriminate.
Qed.

(** The payments handed to the risk analysis of a borrower are exactly the
    payments made on that borrower's loans, in their recorded order; no
    payment on another borrower's loan is among them. *)
Theorem borrowerPayments_spec (loans : list Loan) (payments : list Payment)
  (borrowerId : string) (p : Payment) :
  In p (Borrowers.borrowerPayments loans payments borrowerId) <->
  In p payments /\
  exists l, In l loans /\ borrower_id l = borrowerId /\ id l = loan_id p.
Proof.
  unfold Borrowers.borrowerPayments, Borrowers.borrowerLoans.
  rewrite filter_In, existsb_exists. apply and_iff_compat_l. split.
  - intros (l & Hin & H). apply filter_In in Hin as [Hin Hb].
    apply String.eqb_eq in Hb, H. now exists l.
  - intros (l & Hin & Hb & H). exists l. split.
    + apply filter_In. split; [exact Hin | now apply String.eqb_eq].
    + now apply String.eqb_eq.
Qed.

(** ** The dashboard's chart and paid flag *)

Lemma sumAmounts_cons (p : Payment) (ps : list Payment) :
  (sumAmounts (p :: ps) == amount p + sumAmounts ps)%Q.
Proof. unfold sumAmounts. cbn [fold_left]. rewrite fold_amounts_acc. ring. Qed.

Lemma sumAmounts_filter_day (day : Z) (ps : list Payment) :
  (sumAmounts (filter (fun p => toDateString (payment_date p) =? day) ps)
   == collectedOn day ps)%Q.
Proof.
  induction ps as [|p ps IH]; [reflexivity|]. cbn [filter collectedOn].
  destruct (toDateString (payment_date p) =? day); [|exact IH].
  now rewrite sumAmounts_cons, IH.
Qed.

Lemma sumAmounts_filter_le (f : Payment -> bool) (ps : list Payment) :
  (forall p, In p ps -> (0 <= amount p)%Q) ->
  (sumAmounts (filter f ps) <= sumAmounts ps)%Q.
Proof.
  induction ps as [|p ps IH]; intros H; [apply Qle_refl|].
  assert (IH' : (sumAmounts (filter f ps) <= sumAmounts ps)%Q)
    by (apply IH; intros q Hq; apply H; now right).
  assert (Hp : (0 <= amount p)%Q) by (apply H; now left).
  pose proof (sumAmounts_cons p ps) as E.
  cbn [filter]. destruct (f p); [pose proof (sumAmounts_cons p (filter f ps))|]; lra.
Qed.

Lemma last7Days_eq (tz now : Z) :
  Dashboard.last7Days tz now
  = map (fun k => toDateString now - 6 + k) [0; 1; 2; 3; 4; 5; 6].
Proof.
  unfold Dashboard.last7Days.
  assert (H : forall i, toDateString (setDate tz now (getDate tz now - i))
                        = toDateString now - i).
  { intros i. unfold Z.sub at 1. rewrite setDate_getDate_add.
    unfold toDateString. rewrite Day_add_days. reflexivity. }
  cbn [map List.rev]. rewrite !H. cbn [Datatypes.app].
  repeat match goal with |- _ :: _ = _ :: _ => apply f_equal2; [lia|] end.
  reflexivity.
Qed.

(** The sum over the seven days of what was collected each day. *)
Lemma week_sum (D : Z) (ps : list Payment) :
  (fold_right Qplus 0 (map (fun d => collectedOn d ps)
                           (map (fun k => D - 6 + k)%Z [0; 1; 2; 3; 4; 5; 6]%Z))
   == sumAmounts (filter (fun p => (D - 6 <=? toDateString (payment_date p))%Z
                                   && (toDateString (payment_date p) <=? D)%Z) ps))%Q.
Proof.
  induction ps as [|p ps IH]; [reflexivity|].
  cbn [filter]. cbn [map fold_right collectedOn] in IH |- *.
  set (x := toDateString (payment_date p)) in *.
  destruct (Z.leb_spec (D - 6) x) as [L | L]; destruct (Z.leb_spec x D) as [U | U];
    cbn [andb]; rewrite ?sumAmounts_cons, <- IH;
    repeat match goal with
           | |- context [x =? ?d] => destruct (Z.eqb_spec x d); try lia
           end; ring.
Qed.

(** The chart has seven points, for the seven days up to today in
    ascending order, whatever the time zone; each shows the sum of the
    payments dated on its day, so the chart adds up to the payments of the
    last seven days and, amounts being non-negative, to no more than the
    total collected. *)
Theorem chartData_last_seven_days (tz : Z) (loans : list Loan) (payments : list Payment)
  (now : Z) :
  let chart := Dashboard.chartData tz payments now in
  let today := toDateString now in
  map Dashboard.date chart = map (fun k => today - 6 + k) [0; 1; 2; 3; 4; 5; 6] /\
  Forall (fun pt => (Dashboard.amount pt == collectedOn (Dashboard.date pt) payments)%Q)
         chart /\
  (fold_right Qplus 0 (map Dashboard.amount chart)
   == sumAmounts (filter (fun p => (today - 6 <=? toDateString (payment_date p))
                                   && (toDateString (payment_date p) <=? today))
                         payments))%Q /\
  ((forall p, In p payments -> (0 <= amount p)%Q) ->
   (fold_right Qplus 0 (map Dashboard.amount chart)
    <= Dashboard.totalCollected (Dashboard.stats loans payments))%Q).
Proof.
  intros chart today.
  assert (Hdates : map Dashboard.date chart
                   = map (fun k => today - 6 + k) [0; 1; 2; 3; 4; 5; 6]).
  { unfold chart, Dashboard.chartData. rewrite map_map. cbn [Dashboard.date].
    rewrite map_id. apply last7Days_eq. }
  assert (Hpts : Forall (fun pt => (Dashboard.amount pt
                                    == collectedOn (Dashboard.date pt) payments)%Q) chart).
  { apply Forall_forall. intros pt Hpt. unfold chart, Dashboard.chartData in Hpt.
    apply in_map_iff in Hpt as (d & <- & _). cbn [Dashboard.amount Dashboard.date].
    apply sumAmounts_filter_day. }
  assert (Hsum : (fold_right Qplus 0 (map Dashboard.amount chart)
                  == sumAmounts (filter (fun p => (today - 6 <=? toDateString (payment_date p))
                                   && (toDateString (payment_date p) <=? today))
                         payments))%Q).
  { unfold today. rewrite <- week_sum, <- (last7Days_eq tz now).
    unfold chart, Dashboard.chartData. rewrite map_map. cbn [Dashboard.amount].
    induction (Dashboard.last7Days tz now) as [|d ds IH]; [reflexivity|].
    cbn [map fold_right]. now rewrite IH, sumAmounts_filter_day. }
  split; [exact Hdates|]. split; [exact Hpts|]. split; [exact Hsum|].
  intros Hnn. rewrite Hsum. cbn [Dashboard.stats Dashboard.totalCollected].
  now apply sumAmounts_filter_le.
Qed.

(** The dashboard marks a listed loan as paid exactly when a payment of that
    loan is dated on the selected day; the amount it then shows is the
    amount of the first such payment, hence, amounts being non-negative, no
    more than what was collected on the loan that day; an unpaid loan shows
    0. *)
Theorem dashboard_paid_flag (payments : list Payment) (selectedDate now : Z) (l : Loan) :
  let c := Dashboard.annotate payments selectedDate now l in
  let mine := filter (fun p => String.eqb (loan_id p) (id l)) payments in
  (Dashboard.isPaid c = true <->
   exists p, In p payments /\ loan_id p = id l /\
             toDateString (payment_date p) = selectedDate) /\
  (Dashboard.isPaid c = false -> Dashboard.paidAmount c = 0%Q) /\
  ((forall p, In p payments -> (0 <= amount p)%Q) ->
   (Dashboard.paidAmount c <= collectedOn selectedDate mine)%Q).
Proof.
  cbv zeta. unfold Dashboard.annotate. cbn [Dashboard.isPaid Dashboard.paidAmount].
  unfold Dashboard.paymentToday.
  set (test := fun p => String.eqb (loan_id p) (id l)
                        && (toDateString (payment_date p) =? selectedDate)).
  split; [|split].
  - destruct (find test payments) as [p|] eqn:E.
    + apply find_some in E as [Hin H]. unfold test in H.
      apply andb_true_iff in H as [H1 H2].
      apply String.eqb_eq in H1. apply Z.eqb_eq in H2.
      split; [intros _; now exists p | reflexivity].
    + split; [discriminate|]. intros (p & Hin & H1 & H2).
      pose proof (find_none _ _ E p Hin) as H. unfold test in H.
      apply String.eqb_eq in H1. apply Z.eqb_eq in H2. rewrite H1, H2 in H. discriminate.
  - destruct (find test payments); [discriminate | reflexivity].
  - intros Hnn.
    assert (Hc : forall ps, (forall p, In p ps -> (0 <= amount p)%Q) ->
                 (0 <= collectedOn selectedDate ps)%Q).
    { induction ps as [|q ps IH]; intros H; [apply Qle_refl|]. cbn [collectedOn].
      assert (0 <= collectedOn selectedDate ps)%Q by (apply IH; intros; apply H; now right).
      assert (0 <= amount q)%Q by (apply H; now left).
      destruct (_ =? _); lra. }
    induction payments as [|q ps IH]; [apply Qle_refl|].
    assert (Hps : forall p, In p ps -> (0 <= amount p)%Q) by (intros; apply Hnn; now right).
    assert (Hmine : forall p, In p (filter (fun p => String.eqb (loan_id p) (id l)) ps) ->
                              (0 <= amount p)%Q).
    { intros p Hp. apply filter_In in Hp as [Hp _]. now apply Hps. }
    cbn [find filter]. unfold test at 1.
    destruct (String.eqb (loan_id q) (id l)); cbn [andb collectedOn].
    + destruct (toDateString (payment_date q) =? selectedDate).
      * pose proof (Hc _ Hmine). lra.
      * now apply IH.
    + now apply IH.
Qed.

(** Two payments of 50 and 70 on the sample loan on 5 January 2024: the
    dashboard shows 50 of the 120 collected. *)
Lemma dashboard_paid_flag_witness :
  let ps := [mkPayment "L1" 50 (Sample.utc 2024 1 5 1);
             mkPayment "L1" 70 (Sample.utc 2024 1 5 2)] in
  let l := Sample.tenDays (Some "daily"%string) in
  (Dashboard.paidAmount (Dashboard.annotate ps 19727 0 l)
   <= collectedOn 19727 (filter (fun p => String.eqb (loan_id p) (id l)) ps))%Q.
Proof.
  cbv zeta.
  apply (proj2 (proj2 (dashboard_paid_flag
                         [mkPayment "L1" 50 (Sample.utc 2024 1 5 1);
                          mkPayment "L1" 70 (Sample.utc 2024 1 5 2)]
                         19727 0 (Sample.tenDays (Some "daily"%string))))).
  intros p [<- | [<- | []]]; vm_compute; discriminate.
Defined.
(** ** The portal's schedule against the dashboard's worklist *)

Section ScheduleWorklist.

Import Portal.

Variable tz : Z.

(** What the loop of the schedule keeps from one date to the next. *)
Lemma scheduleLoop_invariant (P : Z -> Prop) (freq : string) (end_ today : Z) :
  (forall d, P d -> P (incrementDate tz freq end_ d)) ->
  forall fuel current e,
  P current -> In e (scheduleLoop tz freq end_ today fuel current) -> P (date e).
Proof.
  intros Hstep. induction fuel as [|fuel IH]; intros current e Hc He; [contradiction|].
  cbn [scheduleLoop] in He. destruct (current <=? end_); [|contradiction].
  destruct He as [<- | He]; [exact Hc|].
  apply (IH _ _ (Hstep _ Hc) He).
Qed.

(** The frequency the dashboard switches on against the one of the portal:
    they differ only where the column is null or empty, which the portal
    reads as daily. *)
Lemma freqCaseOpt_orDaily (freq : option string) :
  freqCase (orDaily freq) = freqCaseOpt freq \/
  (freqCaseOpt freq = FOther /\ freqCase (orDaily freq) = FDaily).
Proof.
  destruct freq as [s|]; [|right; split; reflexivity].
  cbn [orDaily freqCaseOpt].
  destruct (String.eqb_spec s ""); [subst; right; split; reflexivity|].
  now left.
Qed.

(** One step of the schedule from a date on or after the start day that has
    the start's day of the week (weekly) or day of the month (monthly, up to
    the 28th) leads to a later day with the same. *)
Lemma incrementDate_keeps_rule (l : Loan) (end_ d : Z) :
  freqCaseOpt (payment_frequency l) <> FLumpSum ->
  (freqCaseOpt (payment_frequency l) = FMonthly -> getDate tz (start_date l) <= 28) ->
  localDay tz (start_date l) <= localDay tz d ->
  (freqCaseOpt (payment_frequency l) = FWeekly ->
   getDay tz d = getDay tz (start_date l)) ->
  (freqCaseOpt (payment_frequency l) = FMonthly ->
   getDate tz d = getDate tz (start_date l)) ->
  let d' := incrementDate tz (orDaily (payment_frequency l)) end_ d in
  localDay tz (start_date l) < localDay tz d' /\
  (freqCaseOpt (payment_frequency l) = FWeekly ->
   getDay tz d' = getDay tz (start_date l)) /\
  (freqCaseOpt (payment_frequency l) = FMonthly ->
   getDate tz d' = getDate tz (start_date l)).
Proof.
  intros Hl H28 Hle Hw Hm d'. subst d'. unfold incrementDate.
  pose proof (getDay_range tz d) as Hr.
  destruct (freqCaseOpt_orDaily (payment_frequency l)) as [E | [E1 E2]].
  - rewrite E. destruct (freqCaseOpt (payment_frequency l)) eqn:F;
      try congruence; rewrite ?setDate_getDate_add, ?localDay_add_days.
    + repeat split; try discriminate. lia.
    + repeat split; try discriminate; [lia|].
      intros _. rewrite getDay_add_days, <- Hw by reflexivity. div_lia.
    + assert (Hd : getDate tz d <= 28) by (rewrite Hm by reflexivity; now apply H28).
      destruct (setMonth_getMonth_succ tz d) as (len & Hlen & Eq).
      pose proof (setMonth_next_same_day tz d Hd) as (Hsame & _).
      repeat split; try discriminate.
      * rewrite Eq, localDay_add_days. lia.
      * intros _. rewrite Hsame. now apply Hm.
    + repeat split; try discriminate. lia.
  - rewrite E2, E1, setDate_getDate_add, localDay_add_days.
    repeat split; try discriminate. lia.
Qed.

Lemma scheduleDates_keep_rule (now : Z) (l : Loan) (d : Dated) :
  freqCaseOpt (payment_frequency l) <> FLumpSum ->
  (freqCaseOpt (payment_frequency l) = FMonthly -> getDate tz (start_date l) <= 28) ->
  In d (scheduleDates tz now l) ->
  localDay tz (start_date l) < localDay tz (date d) /\
  (freqCaseOpt (payment_frequency l) = FWeekly ->
   getDay tz (date d) = getDay tz (start_date l)) /\
  (freqCaseOpt (payment_frequency l) = FMonthly ->
   getDate tz (date d) = getDate tz (start_date l)).
Proof.
  intros Hl H28 Hin. unfold scheduleDates in Hin.
  assert (Hin' : In d (scheduleLoop tz (orDaily (payment_frequency l)) (dueOrNow now l)
                         (setHours0 tz now) 1000
                         (incrementDate tz (orDaily (payment_frequency l))
                            (dueOrNow now l) (start_date l)))).
  { destruct (freqCase (orDaily (payment_frequency l))) eqn:E; try exact Hin.
    exfalso. destruct (freqCaseOpt_orDaily (payment_frequency l)) as [F | [_ F]]; congruence. }
  clear Hin.
  revert Hin'.
  apply (scheduleLoop_invariant
           (fun x => localDay tz (start_date l) < localDay tz x /\
                     (freqCaseOpt (payment_frequency l) = FWeekly ->
                      getDay tz x = getDay tz (start_date l)) /\
                     (freqCaseOpt (payment_frequency l) = FMonthly ->
                      getDate tz x = getDate tz (start_date l)))).
  - intros x (Hlt & Hw & Hm).
    apply (incrementDate_keeps_rule l (dueOrNow now l) x Hl H28); [lia | exact Hw | exact Hm].
  - apply (incrementDate_keeps_rule l (dueOrNow now l) (start_date l) Hl H28);
      [lia | reflexivity | reflexivity].
Qed.

End ScheduleWorklist.

(** East of Greenwich (as in Manila), for a loan that is active or defaulted
    and not a lump sum, and, when monthly, released on the 28th of a month
    at the latest: every date of the portal's schedule falls on a local day
    after the release day on which the dashboard lists the loan as due; the
    dashboard lists it on the release day as well, for which the schedule
    has no entry. *)
Theorem schedule_days_on_worklist (tz now : Z) (l : Loan) :
  0 <= tz < msPerDay ->
  status l = active \/ status l = defaulted ->
  freqCaseOpt (payment_frequency l) <> FLumpSum ->
  (freqCaseOpt (payment_frequency l) = FMonthly -> getDate tz (start_date l) <= 28) ->
  Forall (fun e =>
            let day := localDay tz (Portal.date (Portal.dated e)) in
            localDay tz (start_date l) < day /\
            Dashboard.isScheduled tz day l = true)
         (Portal.schedule tz now (Some l)) /\
  Dashboard.isScheduled tz (localDay tz (start_date l)) l = true.
Proof.
  intros Htz Hst Hl H28.
  assert (Hlisted : forall x,
            localDay tz (start_date l) <= localDay tz x ->
            (freqCaseOpt (payment_frequency l) = FWeekly ->
             getDay tz x = getDay tz (start_date l)) ->
            (freqCaseOpt (payment_frequency l) = FMonthly ->
             getDate tz x = getDate tz (start_date l)) ->
            Dashboard.isScheduled tz (localDay tz x) l = true).
  { intros x Hle Hw Hm. apply isScheduled_iff.
    pose proof (localDay_ofDateString tz (localDay tz x) Htz) as Hsel.
    split; [exact Hst|]. split; [lia|].
    destruct (freqCaseOpt (payment_frequency l)) eqn:F; try exact I.
    - rewrite (getDay_same_day tz _ _ Hsel). symmetry. now apply Hw.
    - rewrite (getDate_same_day tz _ _ Hsel). symmetry. now apply Hm.
    - congruence. }
  split.
  - apply Forall_forall. intros e He. cbn zeta.
    unfold Portal.schedule in He. apply in_map_iff in He as (d & <- & Hd).
    cbn [Portal.dated].
    destruct (scheduleDates_keep_rule tz now l d Hl H28 Hd) as (Hlt & Hw & Hm).
    split; [exact Hlt|]. apply Hlisted; [lia | exact Hw | exact Hm].
  - apply Hlisted; [lia | reflexivity | reflexivity].
Qed.

(** A weekly loan released in Manila on Monday 1 January 2024 and due on
    1 March. *)
Lemma schedule_days_on_worklist_witness :
  let l := Sample.loan (Some "weekly"%string) (Sample.utc 2024 1 1 0)
                       (Some (Sample.utc 2024 3 1 0)) in
  Forall (fun e =>
            let day := localDay Sample.manila (Portal.date (Portal.dated e)) in
            localDay Sample.manila (start_date l) < day /\
            Dashboard.isScheduled Sample.manila day l = true)
         (Portal.schedule Sample.manila 0 (Some l)) /\
  Dashboard.isScheduled Sample.manila (localDay Sample.manila (start_date l)) l = true.
Proof.
  cbv zeta.
  apply (schedule_days_on_worklist Sample.manila 0
           (Sample.loan (Some "weekly"%string) (Sample.utc 2024 1 1 0)
                        (Some (Sample.utc 2024 3 1 0)))).
  - vm_compute. split; [discriminate | reflexivity].
  - left. reflexivity.
  - discriminate.
  - discriminate.
Defined.
(** ** Looking a loan up by its short reference *)

Lemma prefix_substring (n : nat) (s : string) :
  String.prefix (substring 0 n s) s = true.
Proof.
  revert s. induction n as [|n IH]; intros [|c s]; cbn; try reflexivity.
  rewrite IH. now destruct (Ascii.ascii_dec c c).
Qed.

Lemma toLowerCase_substring (n : nat) (s : string) :
  Portal.toLowerCase (substring 0 n s) = substring 0 n (Portal.toLowerCase s).
Proof.
  revert s. induction n as [|n IH]; intros [|c s]; cbn; try reflexivity.
  now rewrite IH.
Qed.

Lemma toLowerCase_length (s : string) :
  String.length (Portal.toLowerCase s) = String.length s.
Proof. induction s as [|c s IH]; cbn; [reflexivity | now rewrite IH]. Qed.

Lemma length_substring_le (n : nat) (s : string) :
  (String.length (substring 0 n s) <= n)%nat.
Proof.
  revert s. induction n as [|n IH]; intros [|c s]; cbn; try lia.
  specialize (IH s). lia.
Qed.

(** A reference cut from the start of an id matches that id. *)
Lemma startsWith_substring (n : nat) (s : string) :
  Portal.startsWith (Portal.toLowerCase s) (Portal.toLowerCase (substring 0 n s)) = true.
Proof. unfold Portal.startsWith. rewrite toLowerCase_substring. apply prefix_substring. Qed.

(** The portal finds a loan from the eight-character reference that the
    loan detail view prints, typed in either case (ids of ASCII characters,
    as UUIDs are): the search returns the id of a listed loan that starts
    with the reference, ignoring case, namely the first such of the list; it
    is the loan the reference was cut from when no other listed id starts
    with it. *)
Theorem search_by_short_reference (loans : list Loan) (l : Loan) (typed : string) :
  Forall (fun x => Portal.isAscii (id x) = true) loans ->
  In l loans ->
  Portal.toLowerCase typed = Portal.toLowerCase (LoansView.shortId l) ->
  let matches := fun i => Portal.startsWith (Portal.toLowerCase i)
                            (Portal.toLowerCase (LoansView.shortId l)) in
  exists found before after,
    Portal.resolveTargetId (map id loans) typed = Some found /\
    map id loans = (before ++ found :: after)%list /\
    matches found = true /\
    Forall (fun other => matches other = false) before /\
    ((forall other, In other (map id loans) -> matches other = true -> other = id l) ->
     found = id l).
Proof.
  intros _ Hin Htyped matches. unfold Portal.resolveTargetId.
  assert (Hlen : (String.length typed =? 36)%nat = false).
  { apply Nat.eqb_neq. rewrite <- toLowerCase_length, Htyped, toLowerCase_length.
    pose proof (length_substring_le 8 (id l)). unfold LoansView.shortId. lia. }
  rewrite Hlen, Htyped. fold matches.
  assert (Hex : exists i, In i (map id loans) /\ matches i = true).
  { exists (id l). split; [now apply in_map|]. apply startsWith_substring. }
  clear Hin Hlen.
  induction (map id loans) as [|i ids IH].
  - destruct Hex as (i & [] & _).
  - cbn [find]. destruct (matches i) eqn:E.
    + exists i, [], ids. repeat split; try assumption; try constructor.
      intros Huniq. apply Huniq; [now left | exact E].
    + destruct IH as (found & before & after & Hf & Hsplit & Hm & Hb & Hu).
      { destruct Hex as (j & [-> | Hj] & Ht); [congruence | now exists j]. }
      exists found, (i :: before), after.
      split; [exact Hf|]. split; [cbn [Datatypes.app]; now f_equal|].
      split; [exact Hm|]. split; [now constructor|].
      intros Huniq. apply Hu. intros other Ho. apply Huniq. now right.
Qed.

(** Two loans whose ids share their first eight characters up to case; the
    reference of the second, typed in small letters, finds the first. *)
Lemma search_by_short_reference_witness :
  let a := mkLoan "3f2a9c1e-0000-4000-8000-000000000001" "B1" 1000 20 1200 1200 0 None
                  active None in
  let b := mkLoan "3F2A9C1E-ffff-4000-8000-000000000002" "B2" 500 20 600 600 0 None
                  active None in
  exists found before after,
    Portal.resolveTargetId (map id [a; b]) "3f2a9c1e" = Some found /\
    map id [a; b] = (before ++ found :: after)%list /\
    Portal.startsWith (Portal.toLowerCase found)
      (Portal.toLowerCase (LoansView.shortId b)) = true /\
    Forall (fun other =>
              Portal.startsWith (Portal.toLowerCase other)
                (Portal.toLowerCase (LoansView.shortId b)) = false)
           before /\
    ((forall other, In other (map id [a; b]) ->
        Portal.startsWith (Portal.toLowerCase other)
          (Portal.toLowerCase (LoansView.shortId b)) = true ->
        other = id b) ->
     found = id b).
Proof.
  cbv zeta.
  apply (search_by_short_reference
           [mkLoan "3f2a9c1e-0000-4000-8000-000000000001" "B1" 1000 20 1200 1200 0 None
                   active None;
            mkLoan "3F2A9C1E-ffff-4000-8000-000000000002" "B2" 500 20 600 600 0 None
                   active None]
           (mkLoan "3F2A9C1E-ffff-4000-8000-000000000002" "B2" 500 20 600 600 0 None
                   active None)
           "3f2a9c1e").
  - repeat constructor.
  - right. left. reflexivity.
  - reflexivity.
Defined.
